(** * Directional-change backtests

    A shallow embedding of the two backtest engines of Assignment-1,
    [MaximizePnLBot] (Maximize_PnL.py) and [AdvancedDCBot]
    (enhanced_arbitrage_full.py), and the properties of their per-bar
    state machine, trade ledger and profit accumulator.

    Both engines read a data frame whose rows already carry the indicator
    columns; the frame is a list of rows here and the label [i] that
    [iterrows] yields is the position of the row (both scripts call
    [reset_index(drop=True)] before they build the bot).  Console output is
    left out. *)

From Stdlib Require Import ZArith Floats Reals Lra.
From stdpp Require Import base gmap strings list fin_maps.

(** ** Python numbers

    Prices, indicators and parameters are Python floats.  The engines are
    written once over the operations they use, so that they can be run on
    IEEE binary64 values ([float_PyFloat]) and reasoned about with the
    order laws of the real numbers ([R_PyFloat]). *)

Class PyFloat (F : Type) : Type := {
  fadd : F → F → F;
  fsub : F → F → F;
  fmul : F → F → F;
  fdiv : F → F → F;
  fneg : F → F;
  (** [math.exp].  It raises OverflowError above 709.78 only; its one call
      site passes [-max_overshoot], which is at most [-0.0001]
      (see [max_overshoot_floor]). *)
  fexp : F → F;
  (** [x < y], [x <= y], [x == y]: all three are false on NaN. *)
  flt : F → F → bool;
  fle : F → F → bool;
  feq : F → F → bool;
  (** [np.isnan], [pd.isna] *)
  fisnan : F → bool;
  (** an [int] literal where a float is expected: [0], [1], [10], [25] *)
  of_int : Z → F;
  (** the literal [0.0001] *)
  lit_0_0001 : F
}.

Declare Scope py_scope.
Delimit Scope py_scope with py.
Notation "x + y" := (fadd x y) : py_scope.
Notation "x - y" := (fsub x y) : py_scope.
Notation "x * y" := (fmul x y) : py_scope.
Notation "- x" := (fneg x) : py_scope.
Notation "x <? y" := (flt x y) (at level 70, no associativity) : py_scope.
Notation "x <=? y" := (fle x y) (at level 70, no associativity) : py_scope.
Notation "x >? y" := (flt y x) (at level 70, no associativity) : py_scope.
Notation "x >=? y" := (fle y x) (at level 70, no associativity) : py_scope.
Notation "x ==? y" := (feq x y) (at level 70, no associativity) : py_scope.

(** ** Exceptions *)

Inductive Exn := ZeroDivisionError | ValueError | IndexError.

Inductive Result (A : Type) : Type :=
| Ok (a : A)
| Raise (e : Exn).
Arguments Ok {A} a.
Arguments Raise {A} e.

#[export] Instance Result_ret : MRet Result := @Ok.
#[export] Instance Result_bind : MBind Result := λ A B f m,
  match m with
  | Ok a => f a
  | Raise e => Raise e
  end.
#[export] Instance Result_fmap : FMap Result := λ A B f m,
  match m with
  | Ok a => Ok (f a)
  | Raise e => Raise e
  end.

(** ** Rows, parameters, trades *)

Inductive StrategyMode := FULL_AI | NO_CLASSIFIER | NO_VOLATILITY_FILTER | BASELINE.

#[export] Instance StrategyMode_eq_dec : EqDecision StrategyMode.
Proof. solve_decision. Defined.

(** What the run marks on a bar: the branch that opens a position, the
    branch that closes it on the trailing stop, and the forced close after
    the loop.  The trace is ghost state: the engines print some of these
    events and record none. *)
Inductive Event := Entry (i : nat) | Exit (i : nat) | ForceClose.

Section Data.
Context {F : Type}.

(** One row of the frame: the bar and its indicator columns. *)
Record Row := {
  date : Z;
  high : F;
  low : F;
  close : F;
  atr : F;
  sma : F;
  rsi : F;
  macd : F;
  macdsignal : F;
  stoch_k : F;
  stoch_d : F;
  adx : F
}.

(** The [params] dictionary, with the keys the engines read. *)
Record Params := {
  mode : StrategyMode;
  dc_threshold : F;
  volume : F;
  y_value : F;
  rsi_overbought : F;
  volatility_threshold : F
}.

(** The values a trade dictionary holds. *)
Inductive Value := VFloat (x : F) | VInt (n : Z) | VDate (d : Z).
End Data.
Arguments Row : clear implicits.
Arguments Params : clear implicits.
Arguments Value : clear implicits.

(** A trade is a Python dict keyed by strings. *)
Abbreviation Trade F := (gmap string (Value F)).

Section Python.
Context {F : Type} `{!PyFloat F}.

(** [max(a, b)]: the first argument stays unless the second is greater. *)
Definition py_max (a b : F) : F := if (b >? a)%py then b else a.

(** [all(l)] on a list of booleans. *)
Definition py_all (l : list bool) : bool := forallb (λ b, b) l.

(** [x / y] on Python floats: ZeroDivisionError on a zero divisor.  The
    rows that [iterrows] yields from these frames (a datetime column next
    to the numeric ones) hold Python floats.  The first extremum is read
    with [iloc] and is a numpy scalar, on which a zero divisor gives inf
    or nan with a warning instead of raising; here a quotient by that
    extremum raises like the others, so a run that divides by a first
    low of 0 has no result and the statements on results leave it out. *)
Definition py_div (x y : F) : Result F :=
  if (y ==? of_int 0)%py then Raise ZeroDivisionError else Ok (fdiv x y).

(** [l[-1].update(...)], the update being [f]. *)
Fixpoint update_last {A} (f : A → A) (l : list A) : Result (list A) :=
  match l with
  | [] => Raise IndexError
  | [t] => Ok [f t]
  | t :: l' => l'' ← update_last f l'; Ok (t :: l'')
  end.

(** [df[col].iloc[-1]] *)
Definition iloc_last {A} (col : Row F → A) (df : list (Row F)) : Result A :=
  match last df with
  | Some r => Ok (col r)
  | None => Raise IndexError
  end.
End Python.

(** ** Maximize_PnL.py *)

Module MaximizePnLBot.
Section WithFloat.
Context {F : Type} `{!PyFloat F}.

Record Bot := {
  df : list (Row F);
  params : Params F;
  total_pnl : F;
  trades : list (Trade F);
  use_volatility_filter : bool;
  use_classifier : bool;
  current_trend : Z;
  last_extreme : F;
  max_overshoot : F;
  is_position_open : bool;
  entry_price : F;
  is_trading_paused : bool
}.

Definition set_total_pnl (v : F) (b : Bot) : Bot :=
  {| df := df b; params := params b; total_pnl := v; trades := trades b;
     use_volatility_filter := use_volatility_filter b;
     use_classifier := use_classifier b; current_trend := current_trend b;
     last_extreme := last_extreme b; max_overshoot := max_overshoot b;
     is_position_open := is_position_open b; entry_price := entry_price b;
     is_trading_paused := is_trading_paused b |}.
Definition set_trades (v : list (Trade F)) (b : Bot) : Bot :=
  {| df := df b; params := params b; total_pnl := total_pnl b; trades := v;
     use_volatility_filter := use_volatility_filter b;
     use_classifier := use_classifier b; current_trend := current_trend b;
     last_extreme := last_extreme b; max_overshoot := max_overshoot b;
     is_position_open := is_position_open b; entry_price := entry_price b;
     is_trading_paused := is_trading_paused b |}.
Definition set_current_trend (v : Z) (b : Bot) : Bot :=
  {| df := df b; params := params b; total_pnl := total_pnl b;
     trades := trades b; use_volatility_filter := use_volatility_filter b;
     use_classifier := use_classifier b; current_trend := v;
     last_extreme := last_extreme b; max_overshoot := max_overshoot b;
     is_position_open := is_position_open b; entry_price := entry_price b;
     is_trading_paused := is_trading_paused b |}.
Definition set_last_extreme (v : F) (b : Bot) : Bot :=
  {| df := df b; params := params b; total_pnl := total_pnl b;
     trades := trades b; use_volatility_filter := use_volatility_filter b;
     use_classifier := use_classifier b; current_trend := current_trend b;
     last_extreme := v; max_overshoot := max_overshoot b;
     is_position_open := is_position_open b; entry_price := entry_price b;
     is_trading_paused := is_trading_paused b |}.
Definition set_max_overshoot (v : F) (b : Bot) : Bot :=
  {| df := df b; params := params b; total_pnl := total_pnl b;
     trades := trades b; use_volatility_filter := use_volatility_filter b;
     use_classifier := use_classifier b; current_trend := current_trend b;
     last_extreme := last_extreme b; max_overshoot := v;
     is_position_open := is_position_open b; entry_price := entry_price b;
     is_trading_paused := is_trading_paused b |}.
Definition set_is_position_open (v : bool) (b : Bot) : Bot :=
  {| df := df b; params := params b; total_pnl := total_pnl b;
     trades := trades b; use_volatility_filter := use_volatility_filter b;
     use_classifier := use_classifier b; current_trend := current_trend b;
     last_extreme := last_extreme b; max_overshoot := max_overshoot b;
     is_position_open := v; entry_price := entry_price b;
     is_trading_paused := is_trading_paused b |}.
Definition set_entry_price (v : F) (b : Bot) : Bot :=
  {| df := df b; params := params b; total_pnl := total_pnl b;
     trades := trades b; use_volatility_filter := use_volatility_filter b;
     use_classifier := use_classifier b; current_trend := current_trend b;
     last_extreme := last_extreme b; max_overshoot := max_overshoot b;
     is_position_open := is_position_open b; entry_price := v;
     is_trading_paused := is_trading_paused b |}.
Definition set_is_trading_paused (v : bool) (b : Bot) : Bot :=
  {| df := df b; params := params b; total_pnl := total_pnl b;
     trades := trades b; use_volatility_filter := use_volatility_filter b;
     use_classifier := use_classifier b; current_trend := current_trend b;
     last_extreme := last_extreme b; max_overshoot := max_overshoot b;
     is_position_open := is_position_open b; entry_price := entry_price b;
     is_trading_paused := v |}.

(** [MaximizePnLBot.__init__] *)
Definition __init__ (df : list (Row F)) (params : Params F) : Result Bot :=
  match df with
  | [] => Raise ValueError
  | row0 :: _ =>
      Ok {| df := df;
            params := params;
            total_pnl := of_int 0;
            trades := [];
            use_volatility_filter :=
              bool_decide (mode params ∈ [FULL_AI; NO_CLASSIFIER]);
            use_classifier :=
              bool_decide (mode params ∈ [FULL_AI; NO_VOLATILITY_FILTER]);
            current_trend := -1;
            last_extreme := low row0;
            max_overshoot := lit_0_0001;
            is_position_open := false;
            entry_price := of_int 0;
            is_trading_paused := false |}
  end.

(** The value of [classifier_pass] at line 168: lines 154-167. *)
Definition classifier_pass (self : Bot) (row : Row F) : bool :=
  let high := high row in
  let classifier_pass := true in
  let classifier_pass :=
    (if negb (fisnan (sma row)) then (high >? sma row)%py else true)
    && (rsi row <? rsi_overbought (params self))%py
    && (adx row >? of_int 10)%py in
  let classifier_pass :=
    if use_classifier self then
      (high >? sma row)%py
      && (rsi row <? rsi_overbought (params self))%py
      && (macd row >? macdsignal row)%py
      && (stoch_k row >? stoch_d row)%py
      && (adx row >? of_int 10)%py
    else classifier_pass in
  classifier_pass.

(** The body of the loop of [run_backtest] below the volatility filter:
    lines 145-201. *)
Definition trend_logic (i : nat) (row : Row F) (self : Bot)
  : Result (Bot * list Event) :=
  let high := high row in
  let low := low row in
  if (current_trend self =? -1)%Z then
    let self :=
      if (low <? last_extreme self)%py then set_last_extreme low self
      else self in
    if (high >=? last_extreme self * (of_int 1 + dc_threshold (params self)))%py
    then
      if is_trading_paused self then Ok (self, [])
      else
        if classifier_pass self row then
          let self := set_entry_price high self in
          let self := set_is_position_open true self in
          let old_extreme := last_extreme self in
          let self := set_last_extreme high self in
          overshoot ← py_div (high - old_extreme)%py old_extreme;
          let self :=
            set_max_overshoot (py_max (max_overshoot self) overshoot) self in
          let self := set_current_trend 1 self in
          let self :=
            set_trades
              (trades self ++
                 [ <["entry_idx" := VInt (Z.of_nat i)]>
                     {["entry_price" := VFloat (entry_price self)]} ])
              self in
          Ok (self, [Entry i])
        else Ok (self, [])
    else Ok (self, [])
  else
    let self :=
      if (high >? last_extreme self)%py then set_last_extreme high self
      else self in
    if is_position_open self then
      overshoot ← py_div (high - entry_price self)%py (entry_price self);
      let self :=
        set_max_overshoot (py_max (max_overshoot self) overshoot) self in
      let dynamic_exit_threshold :=
        (dc_threshold (params self) * y_value (params self)
         * fexp (- max_overshoot self))%py in
      if (low <=? last_extreme self * (of_int 1 - dynamic_exit_threshold))%py
      then
        let exit_price := low in
        let pnl := ((exit_price - entry_price self) * volume (params self))%py in
        let self := set_total_pnl (total_pnl self + pnl)%py self in
        trades' ←
          update_last
            (λ t, <["exit_idx" := VInt (Z.of_nat i)]>
                    (<["pnl" := VFloat pnl]>
                       (<["exit_price" := VFloat exit_price]> t)))
            (trades self);
        let self := set_trades trades' self in
        let self := set_is_position_open false self in
        let self := set_current_trend (-1) self in
        let self := set_last_extreme low self in
        Ok (self, [Exit i])
      else Ok (self, [])
    else Ok (self, []).

(** One iteration of the loop of [run_backtest]: lines 134-201. *)
Definition loop_body (i : nat) (row : Row F) (self : Bot)
  : Result (Bot * list Event) :=
  if use_volatility_filter self then
    if (atr row >? volatility_threshold (params self))%py then
      Ok (set_is_trading_paused true self, [])
    else trend_logic i row (set_is_trading_paused false self)
  else trend_logic i row self.

(** [for i, row in self.df.iterrows()], from row [i] on. *)
Fixpoint iterrows (i : nat) (rows : list (Row F)) (self : Bot)
  : Result (Bot * list Event) :=
  match rows with
  | [] => Ok (self, [])
  | row :: rows =>
      '(self, ev) ← loop_body i row self;
      '(self, evs) ← iterrows (S i) rows self;
      Ok (self, ev ++ evs)
  end.

(** Lines 203-210. *)
Definition force_close (self : Bot) : Result (Bot * list Event) :=
  if is_position_open self then
    final_price ← iloc_last close (df self);
    let pnl := ((final_price - entry_price self) * volume (params self))%py in
    let self := set_total_pnl (total_pnl self + pnl)%py self in
    trades' ←
      update_last
        (λ t, <["exit_idx" := VInt (Z.of_nat (length (df self)) - 1)]>
                (<["pnl" := VFloat pnl]>
                   (<["exit_price" := VFloat final_price]> t)))
        (trades self);
    Ok (set_trades trades' self, [ForceClose])
  else Ok (self, []).

(** [run_backtest] with the bot it leaves behind and the trace of the run. *)
Definition run (self : Bot) : Result (Bot * list Event) :=
  '(self, evs) ← iterrows 0 (df self) self;
  '(self, ev) ← force_close self;
  Ok (self, evs ++ ev).

(** [MaximizePnLBot.run_backtest] *)
Definition run_backtest (self : Bot) : Result (F * list (Trade F)) :=
  '(self, _) ← run self;
  Ok (total_pnl self, trades self).

(** The bot and the trace once the loop has gone through the first [n]
    rows of the frame. *)
Definition after (n : nat) (df : list (Row F)) (params : Params F)
  : Result (Bot * list Event) :=
  self ← __init__ df params;
  iterrows 0 (take n df) self.

(** The volatility filter skips the row (lines 138-141). *)
Definition gated (self : Bot) (row : Row F) : bool :=
  use_volatility_filter self
  && (atr row >? volatility_threshold (params self))%py.

(** The dict appended at lines 178-180. *)
Definition opened (i : nat) (entry_price : F) : Trade F :=
  <["entry_idx" := VInt (Z.of_nat i)]> {["entry_price" := VFloat entry_price]}.

(** The update of lines 196-198 and 208-210, at exit index [j], entry
    price [e] and exit price [x]. *)
Definition closing (params : Params F) (j : Z) (e x : F) (t : Trade F)
  : Trade F :=
  <["exit_idx" := VInt j]>
    (<["pnl" := VFloat ((x - e) * volume params)%py]>
       (<["exit_price" := VFloat x]> t)).

(** A trade of the ledger that was opened and then closed. *)
Definition closed_trade (params : Params F) (t : Trade F) : Prop :=
  ∃ i j e x, t = closing params j e x (opened i e).
End WithFloat.
Arguments Bot : clear implicits.
Arguments classifier_pass : simpl never.
End MaximizePnLBot.

(** ** enhanced_arbitrage_full.py *)

Module AdvancedDCBot.
Section WithFloat.
Context {F : Type} `{!PyFloat F}.

Record Bot := {
  df : list (Row F);
  params : Params F;
  trades : list (Trade F);
  total_pnl : F;
  use_volatility_filter : bool;
  use_classifier : bool
}.

Definition set_trades (v : list (Trade F)) (b : Bot) : Bot :=
  {| df := df b; params := params b; trades := v; total_pnl := total_pnl b;
     use_volatility_filter := use_volatility_filter b;
     use_classifier := use_classifier b |}.
Definition set_total_pnl (v : F) (b : Bot) : Bot :=
  {| df := df b; params := params b; trades := trades b; total_pnl := v;
     use_volatility_filter := use_volatility_filter b;
     use_classifier := use_classifier b |}.

(** The local variables of [run_backtest]. *)
Record Locals := {
  current_trend : Z;
  last_extreme_price : F;
  max_overshoot : F;
  is_position_open : bool;
  entry_price : F;
  is_trading_paused : bool;
  trade : Trade F
}.

Definition set_current_trend (v : Z) (l : Locals) : Locals :=
  {| current_trend := v; last_extreme_price := last_extreme_price l;
     max_overshoot := max_overshoot l;
     is_position_open := is_position_open l; entry_price := entry_price l;
     is_trading_paused := is_trading_paused l; trade := trade l |}.
Definition set_last_extreme_price (v : F) (l : Locals) : Locals :=
  {| current_trend := current_trend l; last_extreme_price := v;
     max_overshoot := max_overshoot l;
     is_position_open := is_position_open l; entry_price := entry_price l;
     is_trading_paused := is_trading_paused l; trade := trade l |}.
Definition set_max_overshoot (v : F) (l : Locals) : Locals :=
  {| current_trend := current_trend l;
     last_extreme_price := last_extreme_price l; max_overshoot := v;
     is_position_open := is_position_open l; entry_price := entry_price l;
     is_trading_paused := is_trading_paused l; trade := trade l |}.
Definition set_is_position_open (v : bool) (l : Locals) : Locals :=
  {| current_trend := current_trend l;
     last_extreme_price := last_extreme_price l;
     max_overshoot := max_overshoot l; is_position_open := v;
     entry_price := entry_price l;
     is_trading_paused := is_trading_paused l; trade := trade l |}.
Definition set_entry_price (v : F) (l : Locals) : Locals :=
  {| current_trend := current_trend l;
     last_extreme_price := last_extreme_price l;
     max_overshoot := max_overshoot l;
     is_position_open := is_position_open l; entry_price := v;
     is_trading_paused := is_trading_paused l; trade := trade l |}.
Definition set_is_trading_paused (v : bool) (l : Locals) : Locals :=
  {| current_trend := current_trend l;
     last_extreme_price := last_extreme_price l;
     max_overshoot := max_overshoot l;
     is_position_open := is_position_open l; entry_price := entry_price l;
     is_trading_paused := v; trade := trade l |}.
Definition set_trade (v : Trade F) (l : Locals) : Locals :=
  {| current_trend := current_trend l;
     last_extreme_price := last_extreme_price l;
     max_overshoot := max_overshoot l;
     is_position_open := is_position_open l; entry_price := entry_price l;
     is_trading_paused := is_trading_paused l; trade := v |}.

(** [AdvancedDCBot.__init__] *)
Definition __init__ (data : list (Row F)) (params : Params F) : Bot :=
  {| df := data;
     params := params;
     trades := [];
     total_pnl := of_int 0;
     use_volatility_filter :=
       bool_decide (mode params ∈ [FULL_AI; NO_CLASSIFIER]);
     use_classifier :=
       bool_decide (mode params ∈ [FULL_AI; NO_VOLATILITY_FILTER]) |}.

(** The value of [classifier_pass] at line 153: lines 136-151. *)
Definition classifier_pass (self : Bot) (row : Row F) : bool :=
  let high := high row in
  let classifier_pass := true in
  let classifier_pass :=
    if use_classifier self then
      let is_sma_confirm := (high >? sma row)%py in
      let is_rsi_confirm := (rsi row <? rsi_overbought (params self))%py in
      let is_macd_confirm := (macd row >? macdsignal row)%py in
      let is_stoch_confirm := (stoch_k row >? stoch_d row)%py in
      let is_trending_market := (adx row >? of_int 25)%py in
      py_all
        [is_sma_confirm; is_rsi_confirm; is_macd_confirm;
         is_stoch_confirm; is_trending_market]
    else classifier_pass in
  classifier_pass.

(** The body of the loop of [run_backtest] below the volatility filter:
    lines 130-203.  A trade dict is bound afresh where the position
    opens and appended where it closes, so no dict is updated after it
    has entered [self.trades]. *)
Definition trend_logic (i : nat) (row : Row F) (self : Bot) (l : Locals)
  : Result (Bot * Locals * list Event) :=
  let date := date row in
  let high := high row in
  let low := low row in
  if (current_trend l =? -1)%Z then
    let l :=
      if (low <? last_extreme_price l)%py then set_last_extreme_price low l
      else l in
    if (high >=? last_extreme_price l * (of_int 1 + dc_threshold (params self)))%py
    then
      if is_trading_paused l then Ok (self, l, [])
      else
        if classifier_pass self row then
          let l := set_entry_price high l in
          let l := set_is_position_open true l in
          let l := set_current_trend 1 l in
          let old_extreme := last_extreme_price l in
          let l := set_last_extreme_price high l in
          overshoot ←
            (if negb (old_extreme ==? of_int 0)%py
             then py_div (high - old_extreme)%py old_extreme
             else Ok (of_int 0));
          let l := set_max_overshoot (py_max (max_overshoot l) overshoot) l in
          let l :=
            set_trade
              (<["pnl" := VInt 0]>
                 (<["entry_price" := VFloat (entry_price l)]>
                    {["entry_date" := VDate date]}))
              l in
          Ok (self, l, [Entry i])
        else Ok (self, l, [])
    else Ok (self, l, [])
  else if (current_trend l =? 1)%Z then
    let l :=
      if (high >? last_extreme_price l)%py then set_last_extreme_price high l
      else l in
    if is_position_open l then
      overshoot ←
        (if negb (entry_price l ==? of_int 0)%py
         then py_div (high - entry_price l)%py (entry_price l)
         else Ok (of_int 0));
      let l := set_max_overshoot (py_max (max_overshoot l) overshoot) l in
      let dynamic_exit_threshold :=
        (dc_threshold (params self) * y_value (params self)
         * fexp (- max_overshoot l))%py in
      if (low <=? last_extreme_price l * (of_int 1 - dynamic_exit_threshold))%py
      then
        let exit_price := low in
        let pnl := ((exit_price - entry_price l) * volume (params self))%py in
        let self := set_total_pnl (total_pnl self + pnl)%py self in
        let l :=
          set_trade
            (<["pnl" := VFloat pnl]>
               (<["exit_price" := VFloat exit_price]>
                  (<["exit_date" := VDate date]> (trade l))))
            l in
        let self := set_trades (trades self ++ [trade l]) self in
        let l := set_is_position_open false l in
        let l := set_current_trend (-1) l in
        let l := set_last_extreme_price low l in
        Ok (self, l, [Exit i])
      else Ok (self, l, [])
    else Ok (self, l, [])
  else Ok (self, l, []).

(** One iteration of the loop of [run_backtest]: lines 117-203. *)
Definition loop_body (i : nat) (row : Row F) (self : Bot) (l : Locals)
  : Result (Bot * Locals * list Event) :=
  if fisnan (sma row) then Ok (self, l, [])
  else
    let l :=
      if use_volatility_filter self then
        let is_high_volatility :=
          (atr row >? volatility_threshold (params self))%py in
        if is_high_volatility && negb (is_trading_paused l)
        then set_is_trading_paused true l
        else if negb is_high_volatility && is_trading_paused l
        then set_is_trading_paused false l
        else l
      else l in
    trend_logic i row self l.

(** [for i, row in self.df.iterrows()], from row [i] on. *)
Fixpoint iterrows (i : nat) (rows : list (Row F)) (self : Bot) (l : Locals)
  : Result (Bot * Locals * list Event) :=
  match rows with
  | [] => Ok (self, l, [])
  | row :: rows =>
      '(self, l, ev) ← loop_body i row self l;
      '(self, l, evs) ← iterrows (S i) rows self l;
      Ok (self, l, ev ++ evs)
  end.

(** Lines 205-217. *)
Definition force_close (self : Bot) (l : Locals)
  : Result (Bot * Locals * list Event) :=
  if is_position_open l then
    final_price ← iloc_last close (df self);
    let pnl := ((final_price - entry_price l) * volume (params self))%py in
    let self := set_total_pnl (total_pnl self + pnl)%py self in
    final_date ← iloc_last date (df self);
    let l :=
      set_trade
        (<["pnl" := VFloat pnl]>
           (<["exit_price" := VFloat final_price]>
              (<["exit_date" := VDate final_date]> (trade l))))
        l in
    let self := set_trades (trades self ++ [trade l]) self in
    Ok (self, l, [ForceClose])
  else Ok (self, l, []).

(** The locals as lines 109-115 bind them. *)
Definition locals0 (row0 : Row F) : Locals :=
  {| current_trend := -1;
     last_extreme_price := low row0;
     max_overshoot := lit_0_0001;
     is_position_open := false;
     entry_price := of_int 0;
     is_trading_paused := false;
     trade := ∅ |}.

(** [run_backtest] past the emptiness test, with the state it leaves
    behind and the trace of the run. *)
Definition run (self : Bot) (row0 : Row F)
  : Result (Bot * Locals * list Event) :=
  '(self, l, evs) ← iterrows 0 (df self) self (locals0 row0);
  '(self, l, ev) ← force_close self l;
  Ok (self, l, evs ++ ev).

(** [AdvancedDCBot.run_backtest] *)
Definition run_backtest (self : Bot) : Result (F * list (Trade F)) :=
  match df self with
  | [] => Ok (of_int 0, [])
  | row0 :: _ =>
      '(self, _, _) ← run self row0;
      Ok (total_pnl self, trades self)
  end.

(** The state and the trace once the loop has gone through the first [n]
    rows of the non-empty frame [row0 :: rest]. *)
Definition after (n : nat) (row0 : Row F) (rest : list (Row F))
    (params : Params F) : Result (Bot * Locals * list Event) :=
  iterrows 0 (take n (row0 :: rest)) (__init__ (row0 :: rest) params)
    (locals0 row0).

(** The dict bound at lines 167-171. *)
Definition opened (date : Z) (entry_price : F) : Trade F :=
  <["pnl" := VInt 0]>
    (<["entry_price" := VFloat entry_price]> {["entry_date" := VDate date]}).

(** The update of lines 194-196 and 209-215, at exit date [d], entry
    price [e] and exit price [x]. *)
Definition closing (params : Params F) (d : Z) (e x : F) (t : Trade F)
  : Trade F :=
  <["pnl" := VFloat ((x - e) * volume params)%py]>
    (<["exit_price" := VFloat x]> (<["exit_date" := VDate d]> t)).

(** A trade of the ledger: opened, then closed. *)
Definition closed_trade (params : Params F) (t : Trade F) : Prop :=
  ∃ d0 d e x, t = closing params d e x (opened d0 e).
End WithFloat.
Arguments Bot : clear implicits.
Arguments Locals : clear implicits.
Arguments classifier_pass : simpl never.
End AdvancedDCBot.

(** ** Vocabulary of the specification *)

Section Vocabulary.
Context {F : Type} `{!PyFloat F}.

(** The relaxed confirmation tier: (SMA undefined, or high > SMA) and
    rsi < rsi_overbought and adx > 10. *)
Definition relaxed_tier (params : Params F) (row : Row F) : bool :=
  (fisnan (sma row) || (high row >? sma row)%py)
  && (rsi row <? rsi_overbought params)%py
  && (adx row >? of_int 10)%py.

(** The strict confirmation tier over an ADX floor: high > SMA,
    rsi < rsi_overbought, macd > macdsignal, stoch_k > stoch_d and
    adx > floor. *)
Definition strict_tier (adx_floor : F) (params : Params F) (row : Row F)
  : bool :=
  (high row >? sma row)%py
  && (rsi row <? rsi_overbought params)%py
  && (macd row >? macdsignal row)%py
  && (stoch_k row >? stoch_d row)%py
  && (adx row >? adx_floor)%py.

(** The reversal candidate of the Down state: the bar's high reaches
    extremum * (1 + dc_threshold), the extremum being the minimum of the
    one carried over and the bar's low. *)
Definition reversal_candidate (params : Params F) (extremum : F)
    (row : Row F) : bool :=
  let extremum := if (low row <? extremum)%py then low row else extremum in
  (high row >=? extremum * (of_int 1 + dc_threshold params))%py.

(** dc_threshold * y_value * exp(-max_overshoot) *)
Definition exit_threshold (params : Params F) (max_overshoot : F) : F :=
  (dc_threshold params * y_value params * fexp (- max_overshoot))%py.

(** The exit test of the Up state: the bar's low is at or below
    extremum * (1 - threshold), the extremum being the maximum of the one
    carried over and the bar's high. *)
Definition exit_signal (params : Params F) (extremum max_overshoot : F)
    (row : Row F) : bool :=
  let extremum := if (high row >? extremum)%py then high row else extremum in
  (low row <=? extremum * (of_int 1 - exit_threshold params max_overshoot))%py.

(** (exit_price - entry_price) * volume *)
Definition trade_result (params : Params F) (entry_price exit_price : F) : F :=
  ((exit_price - entry_price) * volume params)%py.

(** A closed trade: it has an entry price, an exit price, and its pnl is
    (exit_price - entry_price) * volume. *)
Definition closed (params : Params F) (t : Trade F) : Prop :=
  ∃ e x, t !! "entry_price" = Some (VFloat e)
         ∧ t !! "exit_price" = Some (VFloat x)
         ∧ t !! "pnl" = Some (VFloat (trade_result params e x)).

(** The pnl a trade carries; 0 where it carries none. *)
Definition trade_pnl (t : Trade F) : F :=
  match t !! "pnl" with
  | Some (VFloat p) => p
  | Some (VInt n) => of_int n
  | _ => of_int 0
  end.

(** The sum of the pnl of the trades of a ledger, added up from 0 in
    ledger order. *)
Definition ledger_pnl (ts : list (Trade F)) : F :=
  foldl (λ acc t, acc + trade_pnl t)%py (of_int 0) ts.


End Vocabulary.

(** Whether a position is open after a trace that starts with the position
    open or not ([o]); [None] when the trace opens a position that is open
    or closes one that is not. *)
Fixpoint open_after (o : bool) (evs : list Event) : option bool :=
  match evs with
  | [] => Some o
  | Entry _ :: evs => if o then None else open_after true evs
  | Exit _ :: evs | ForceClose :: evs => if o then open_after false evs else None
  end.

(** An event that closes a position. *)
Definition closes (e : Event) : Prop := e = ForceClose ∨ ∃ k, e = Exit k.

(** No two entries of a trace without a closing event between them. *)
Definition no_double_entry (evs : list Event) : Prop :=
  ∀ a b i j,
    a < b → evs !! a = Some (Entry i) → evs !! b = Some (Entry j) →
    ∃ c e, a < c < b ∧ evs !! c = Some e ∧ closes e.

(** The order law that makes [max] monotone: [<] is transitive.  It
    holds of binary64 ([float_OrderLaws]) and of the real numbers. *)
Class OrderLaws (F : Type) `{!PyFloat F} : Prop := {
  flt_trans (a b c : F) :
    (a <? b)%py = true → (b <? c)%py = true → (a <? c)%py = true
}.


(** ** Invariants of the two loops *)

Section Invariants.
Context {F : Type} `{!PyFloat F}.

(** What holds of [MaximizePnLBot] between two iterations, for the frame
    and the parameters the bot was built from and the trace so far. *)
Record M_Inv (df0 : list (Row F)) (params0 : Params F)
    (self : MaximizePnLBot.Bot F) (evs : list Event) : Prop := {
  M_inv_df : MaximizePnLBot.df self = df0;
  M_inv_params : MaximizePnLBot.params self = params0;
  M_inv_vf :
    MaximizePnLBot.use_volatility_filter self
    = bool_decide (mode params0 ∈ [FULL_AI; NO_CLASSIFIER]);
  M_inv_cl :
    MaximizePnLBot.use_classifier self
    = bool_decide (mode params0 ∈ [FULL_AI; NO_VOLATILITY_FILTER]);
  M_inv_trend :
    MaximizePnLBot.current_trend self
    = if MaximizePnLBot.is_position_open self then 1%Z else (-1)%Z;
  M_inv_paused :
    MaximizePnLBot.use_volatility_filter self = false →
    MaximizePnLBot.is_trading_paused self = false;
  M_inv_events :
    open_after false evs = Some (MaximizePnLBot.is_position_open self);
  M_inv_ledger :
    ∃ ts, Forall (MaximizePnLBot.closed_trade params0) ts
          ∧ MaximizePnLBot.total_pnl self = ledger_pnl ts
          ∧ if MaximizePnLBot.is_position_open self
            then ∃ i, MaximizePnLBot.trades self
                      = ts ++ [MaximizePnLBot.opened i
                                 (MaximizePnLBot.entry_price self)]
            else MaximizePnLBot.trades self = ts
}.

(** The same for [AdvancedDCBot]. *)
Record A_Inv (df0 : list (Row F)) (params0 : Params F)
    (self : AdvancedDCBot.Bot F) (l : AdvancedDCBot.Locals F)
    (evs : list Event) : Prop := {
  A_inv_df : AdvancedDCBot.df self = df0;
  A_inv_params : AdvancedDCBot.params self = params0;
  A_inv_vf :
    AdvancedDCBot.use_volatility_filter self
    = bool_decide (mode params0 ∈ [FULL_AI; NO_CLASSIFIER]);
  A_inv_cl :
    AdvancedDCBot.use_classifier self
    = bool_decide (mode params0 ∈ [FULL_AI; NO_VOLATILITY_FILTER]);
  A_inv_trend :
    AdvancedDCBot.current_trend l
    = if AdvancedDCBot.is_position_open l then 1%Z else (-1)%Z;
  A_inv_paused :
    AdvancedDCBot.use_volatility_filter self = false →
    AdvancedDCBot.is_trading_paused l = false;
  A_inv_events :
    open_after false evs = Some (AdvancedDCBot.is_position_open l);
  A_inv_ledger :
    Forall (AdvancedDCBot.closed_trade params0) (AdvancedDCBot.trades self)
    ∧ AdvancedDCBot.total_pnl self = ledger_pnl (AdvancedDCBot.trades self)
    ∧ (AdvancedDCBot.is_position_open l = true →
       ∃ d, AdvancedDCBot.trade l
            = AdvancedDCBot.opened d (AdvancedDCBot.entry_price l))
}.
End Invariants.

(** ** Frames on which no quotient has a zero divisor *)

Section Nonzero.
Context {F : Type} `{!PyFloat F}.

(** No bar of the frame has a high or a low equal to 0. *)
Definition nonzero_prices (df : list (Row F)) : Prop :=
  Forall (λ row, (low row ==? of_int 0)%py = false
                 ∧ (high row ==? of_int 0)%py = false) df.

(** The divisors of [MaximizePnLBot] are not 0: the extremum in the Down
    state and the entry price while a position is open. *)
Definition M_nonzero (self : MaximizePnLBot.Bot F) : Prop :=
  (MaximizePnLBot.current_trend self = (-1)%Z →
   (MaximizePnLBot.last_extreme self ==? of_int 0)%py = false)
  ∧ (MaximizePnLBot.is_position_open self = true →
     (MaximizePnLBot.entry_price self ==? of_int 0)%py = false).
End Nonzero.

(** ** The two number systems *)

(** *** IEEE binary64 *)

Definition float_of_Z (z : Z) : float :=
  match z with
  | Z0 => 0%float
  | Zpos _ => PrimFloat.of_uint63 (Uint63.of_Z z)
  | Zneg p => (- PrimFloat.of_uint63 (Uint63.of_Z (Zpos p)))%float
  end.

(** [math.exp] is the C library's.  Where a run on binary64 values needs a
    value for it, the series below stands in: 1 + y (1 + y/2 (1 + y/3 ...))
    at y = x / 1024, squared ten times. *)
Definition exp_series (y : float) : float :=
  foldr (λ k acc, 1 + y * acc / float_of_Z k)%float 1%float
        (Z.of_nat <$> seq 1 20).

Definition float_exp (x : float) : float :=
  if PrimFloat.is_nan x then x
  else if (x <? -746)%float then 0%float
  else if (710 <? x)%float then infinity
  else Nat.iter 10 (λ e, e * e)%float (exp_series (x / 1024)%float).

#[export] Instance float_PyFloat : PyFloat float := {|
  fadd := PrimFloat.add;
  fsub := PrimFloat.sub;
  fmul := PrimFloat.mul;
  fdiv := PrimFloat.div;
  fneg := PrimFloat.opp;
  fexp := float_exp;
  flt := PrimFloat.ltb;
  fle := PrimFloat.leb;
  feq := PrimFloat.eqb;
  fisnan := PrimFloat.is_nan;
  of_int := float_of_Z;
  lit_0_0001 := 0x1.a36e2eb1c432dp-14%float
|}.

(** *** Real numbers *)

#[export] Instance Rlt_decision (x y : R) : Decision (x < y)%R := Rlt_dec x y.
#[export] Instance Rle_decision (x y : R) : Decision (x <= y)%R := Rle_dec x y.
#[export] Instance Req_decision : EqDecision R := Req_dec_T.

#[export] Instance R_PyFloat : PyFloat R := {|
  fadd := Rplus;
  fsub := Rminus;
  fmul := Rmult;
  fdiv := Rdiv;
  fneg := Ropp;
  fexp := exp;
  flt x y := bool_decide (x < y)%R;
  fle x y := bool_decide (x <= y)%R;
  feq x y := bool_decide (x = y);
  fisnan _ := false;
  of_int := IZR;
  lit_0_0001 := (1 / 10000)%R
|}.

(** ** Sample frames on binary64 *)

#[local] Set Warnings "-inexact-float".

(** The parameters of the two scripts, in a given mode: lines 216-228 of
    Maximize_PnL.py and 240-265 of enhanced_arbitrage_full.py. *)
Definition params_M (m : StrategyMode) : Params float :=
  {| mode := m;
     dc_threshold := 0.001;
     volume := 10000;
     y_value := 0.5;
     rsi_overbought := 70;
     volatility_threshold := 50 * 0.0001 |}%float.

Definition params_A (m : StrategyMode) : Params float :=
  {| mode := m;
     dc_threshold := 0.005;
     volume := 10000;
     y_value := 0.5;
     rsi_overbought := 70;
     volatility_threshold := 20 * 0.0001 |}%float.

(** A row whose indicators confirm an entry on every tier: the close is
    above the average, rsi 50, macd above its signal, %K above %D, adx 30. *)
Definition bar (d : Z) (h l c a : float) : Row float :=
  {| date := d; high := h; low := l; close := c; atr := a;
     sma := 0.9; rsi := 50; macd := 0.001; macdsignal := 0.0005;
     stoch_k := 60; stoch_d := 50; adx := 30 |}%float.

Definition with_adx (x : float) (r : Row float) : Row float :=
  {| date := date r; high := high r; low := low r; close := close r;
     atr := atr r; sma := sma r; rsi := rsi r; macd := macd r;
     macdsignal := macdsignal r; stoch_k := stoch_k r; stoch_d := stoch_d r;
     adx := x |}.

(** A flat first bar at 1.000, then a bar that rises to 1.010 (a reversal
    candidate under both parameter sets), with a quiet ATR of 0.001. *)
Definition flat_bar : Row float := bar 0 1 1 1 0.001.
Definition rising_bar : Row float := bar 1 1.01 1 1.01 0.001.

(** The rising bar with an adx of 15, between the two floors. *)
Definition rising_bar_adx15 : Row float := with_adx 15 rising_bar.

(** A bar that falls to 0.9, far below any trailing stop, closing at its
    low: once with a quiet ATR, once with an ATR of 0.006, above both
    volatility thresholds. *)
Definition falling_bar : Row float := bar 2 1.012 0.9 0.9 0.001.
Definition volatile_falling_bar : Row float := bar 2 1.012 0.9 0.9 0.006.

(** A bar that stays at 1.010. *)
Definition holding_bar : Row float := bar 2 1.01 1.01 1.01 0.001.

(** The rising bar with no confirmation at all: below the average,
    overbought, macd and %K below their signals, adx 5. *)
Definition unconfirmed_rising_bar : Row float :=
  {| date := 1; high := 1.01; low := 1; close := 1.01; atr := 0.001;
     sma := 1.5; rsi := 80; macd := 0.0005; macdsignal := 0.001;
     stoch_k := 50; stoch_d := 60; adx := 5 |}%float.

(** A bar whose low is 0 after a first bar at 1: the extremum of the Down
    state becomes 0. *)
Definition zero_low_bar : Row float := bar 1 1 0 1 0.001.

(** Building a bot and running it, on binary64: the result of
    [run_backtest], the trace of the run, and the key sets of the trades
    of a result. *)
Definition M_backtest (df : list (Row float)) (params : Params float)
  : Result (float * list (Trade float)) :=
  MaximizePnLBot.__init__ df params ≫= MaximizePnLBot.run_backtest.

Definition M_trace (df : list (Row float)) (params : Params float)
  : Result (list Event) :=
  snd <$> (MaximizePnLBot.__init__ df params ≫= MaximizePnLBot.run).

Definition A_backtest (df : list (Row float)) (params : Params float)
  : Result (float * list (Trade float)) :=
  AdvancedDCBot.run_backtest (AdvancedDCBot.__init__ df params).

Definition A_trace (row0 : Row float) (rest : list (Row float))
    (params : Params float) : Result (list Event) :=
  snd <$> AdvancedDCBot.run (AdvancedDCBot.__init__ (row0 :: rest) params) row0.

Definition trade_keys (r : Result (float * list (Trade float)))
  : Result (list (gset string)) :=
  (λ r : float * list (Trade float), (dom <$> r.2 : list (gset string))) <$> r.

(** ** A sample frame on the reals *)




(** ** Further vocabulary and sample frames *)

(** The bar of an entry or an exit. *)
Definition bar_of (e : Event) : option nat :=
  match e with
  | Entry i | Exit i => Some i
  | ForceClose => None
  end.

Section NoRiseDef.
Context {F : Type} `{!PyFloat F}.

(** No bar's high reaches (1 + dc_threshold) times the low of that bar
    or of a bar before it. *)
Definition no_rise (params : Params F) (df : list (Row F)) : bool :=
  forallb
    (λ i, forallb
            (λ j, match df !! i, df !! j with
                  | Some ri, Some rj =>
                      negb (high ri >=? low rj * (of_int 1 + dc_threshold params))%py
                  | _, _ => true
                  end)
            (seq 0 (S i)))
    (seq 0 (length df)).
End NoRiseDef.

Definition sliding_bar (d : Z) (p : float) : Row float := bar d p p p 0.001.

(** Three bars that slide from 1.000 to 0.998. *)
Definition sliding_frame : list (Row float) :=
  [sliding_bar 0 1; sliding_bar 1 0.999; sliding_bar 2 0.998]%float.

(** Every event that has an event after it is on a bar, and the later
    event, if it is on a bar, is on a later bar. *)
Definition chronological (evs : list Event) : Prop :=
  ∀ a b ea eb,
    a < b → evs !! a = Some ea → evs !! b = Some eb →
    ∃ i, bar_of ea = Some i ∧ ∀ j, bar_of eb = Some j → i < j.

(** Spans of bars [(i, j)], [i ≤ j], one after the other from bar [lo] on:
    each span starts after the one before it has ended. *)
Fixpoint spans_from (lo : nat) (spans : list (nat * nat)) : Prop :=
  match spans with
  | [] => True
  | (i, j) :: spans => lo ≤ i ∧ i ≤ j ∧ spans_from (S j) spans
  end.

(** The first bar after the spans. *)
Definition spans_end (lo : nat) (spans : list (nat * nat)) : nat :=
  foldl (λ _ s, S s.2) lo spans.

Section Ledger.
Context {F : Type} `{!PyFloat F}.

(** A trade of [MaximizePnLBot]'s ledger over the span [(i, j)]: bought
    at the high of bar [i]; sold at the low of the later bar [j], or at
    the close of bar [j], the last of the frame. *)
Definition M_round_trip (df : list (Row F)) (params : Params F)
    (s : nat * nat) (t : Trade F) : Prop :=
  ∃ ri rj x,
    df !! s.1 = Some ri ∧ df !! s.2 = Some rj
    ∧ t !! "entry_idx" = Some (VInt (Z.of_nat s.1))
    ∧ t !! "entry_price" = Some (VFloat (high ri))
    ∧ t !! "exit_idx" = Some (VInt (Z.of_nat s.2))
    ∧ t !! "exit_price" = Some (VFloat x)
    ∧ t !! "pnl" = Some (VFloat ((x - high ri) * volume params)%py)
    ∧ ((s.1 < s.2 ∧ x = low rj) ∨ (S s.2 = length df ∧ x = close rj)).

(** The same for [AdvancedDCBot], whose trades carry the dates of the
    two bars. *)
Definition A_round_trip (df : list (Row F)) (params : Params F)
    (s : nat * nat) (t : Trade F) : Prop :=
  ∃ ri rj x,
    df !! s.1 = Some ri ∧ df !! s.2 = Some rj
    ∧ t !! "entry_date" = Some (VDate (date ri))
    ∧ t !! "entry_price" = Some (VFloat (high ri))
    ∧ t !! "exit_date" = Some (VDate (date rj))
    ∧ t !! "exit_price" = Some (VFloat x)
    ∧ t !! "pnl" = Some (VFloat ((x - high ri) * volume params)%py)
    ∧ ((s.1 < s.2 ∧ x = low rj) ∨ (S s.2 = length df ∧ x = close rj)).
End Ledger.

Section Reads.
Context {F : Type} `{!PyFloat F}.

(** Two rows that agree on the columns [MaximizePnLBot] reads in mode
    [m]: high, low, sma, rsi and adx in every mode, atr where the
    volatility filter is enabled, macd, macdsignal, stoch_k and stoch_d
    where the classifier is. *)
Definition M_same_reads (m : StrategyMode) (r1 r2 : Row F) : Prop :=
  high r1 = high r2 ∧ low r1 = low r2
  ∧ sma r1 = sma r2 ∧ rsi r1 = rsi r2 ∧ adx r1 = adx r2
  ∧ (m ∈ [FULL_AI; NO_CLASSIFIER] → atr r1 = atr r2)
  ∧ (m ∈ [FULL_AI; NO_VOLATILITY_FILTER] →
     macd r1 = macd r2 ∧ macdsignal r1 = macdsignal r2
     ∧ stoch_k r1 = stoch_k r2 ∧ stoch_d r1 = stoch_d r2).

(** Two rows that agree on the columns [AdvancedDCBot] reads in mode
    [m]: date, high, low and whether the sma is defined in every mode,
    atr where the volatility filter is enabled, the indicators of the
    classifier where the classifier is. *)
Definition A_same_reads (m : StrategyMode) (r1 r2 : Row F) : Prop :=
  date r1 = date r2 ∧ high r1 = high r2 ∧ low r1 = low r2
  ∧ fisnan (sma r1) = fisnan (sma r2)
  ∧ (m ∈ [FULL_AI; NO_CLASSIFIER] → atr r1 = atr r2)
  ∧ (m ∈ [FULL_AI; NO_VOLATILITY_FILTER] →
     sma r1 = sma r2 ∧ rsi r1 = rsi r2
     ∧ macd r1 = macd r2 ∧ macdsignal r1 = macdsignal r2
     ∧ stoch_k r1 = stoch_k r2 ∧ stoch_d r1 = stoch_d r2
     ∧ adx r1 = adx r2).

(** Two bots of [MaximizePnLBot] in the same state, whatever their
    frames. *)
Definition M_sim (s1 s2 : MaximizePnLBot.Bot F) : Prop :=
  MaximizePnLBot.params s1 = MaximizePnLBot.params s2
  ∧ MaximizePnLBot.total_pnl s1 = MaximizePnLBot.total_pnl s2
  ∧ MaximizePnLBot.trades s1 = MaximizePnLBot.trades s2
  ∧ MaximizePnLBot.use_volatility_filter s1
    = MaximizePnLBot.use_volatility_filter s2
  ∧ MaximizePnLBot.use_classifier s1 = MaximizePnLBot.use_classifier s2
  ∧ MaximizePnLBot.current_trend s1 = MaximizePnLBot.current_trend s2
  ∧ MaximizePnLBot.last_extreme s1 = MaximizePnLBot.last_extreme s2
  ∧ MaximizePnLBot.max_overshoot s1 = MaximizePnLBot.max_overshoot s2
  ∧ MaximizePnLBot.is_position_open s1 = MaximizePnLBot.is_position_open s2
  ∧ MaximizePnLBot.entry_price s1 = MaximizePnLBot.entry_price s2
  ∧ MaximizePnLBot.is_trading_paused s1
    = MaximizePnLBot.is_trading_paused s2.

(** Two results of [MaximizePnLBot] that raise the same exception or
    leave bots in the same state. *)
Definition M_sim_result
    (x y : Result (MaximizePnLBot.Bot F * list Event)) : Prop :=
  match x, y with
  | Ok (a, _), Ok (b, _) => M_sim a b
  | Raise e1, Raise e2 => e1 = e2
  | _, _ => False
  end.

Definition A_sim (s1 s2 : AdvancedDCBot.Bot F) : Prop :=
  AdvancedDCBot.params s1 = AdvancedDCBot.params s2
  ∧ AdvancedDCBot.trades s1 = AdvancedDCBot.trades s2
  ∧ AdvancedDCBot.total_pnl s1 = AdvancedDCBot.total_pnl s2
  ∧ AdvancedDCBot.use_volatility_filter s1
    = AdvancedDCBot.use_volatility_filter s2
  ∧ AdvancedDCBot.use_classifier s1 = AdvancedDCBot.use_classifier s2.

Definition A_sim_result
    (x y : Result (AdvancedDCBot.Bot F * AdvancedDCBot.Locals F * list Event))
  : Prop :=
  match x, y with
  | Ok (a, la, _), Ok (b, lb, _) => A_sim a b ∧ la = lb
  | Raise e1, Raise e2 => e1 = e2
  | _, _ => False
  end.
End Reads.

Section Dropna.
Context {F : Type} `{!PyFloat F}.

(** The frame without the rows whose sma is undefined. *)
Definition drop_undefined_sma (df : list (Row F)) : list (Row F) :=
  filter (λ row, fisnan (sma row) = false) df.
End Dropna.

(** A row with other values in the columns that [MaximizePnLBot] does not
    read in mode BASELINE: date, close, atr, macd, macdsignal, stoch_k and
    stoch_d. *)
Definition M_other_columns (r : Row float) : Row float :=
  {| date := date r + 7; high := high r; low := low r; close := 2;
     atr := 1; sma := sma r; rsi := rsi r; macd := 0; macdsignal := 1;
     stoch_k := 0; stoch_d := 1; adx := adx r |}%float.

(** A row with other values in the columns that [AdvancedDCBot] does not
    read in mode BASELINE: close, atr and all the indicators, the sma
    staying defined. *)
Definition A_other_columns (r : Row float) : Row float :=
  {| date := date r; high := high r; low := low r; close := 2;
     atr := 1; sma := 0; rsi := 99; macd := 0; macdsignal := 1;
     stoch_k := 0; stoch_d := 1; adx := 0 |}%float.

Definition with_close (c : float) (r : Row float) : Row float :=
  {| date := date r; high := high r; low := low r; close := c;
     atr := atr r; sma := sma r; rsi := rsi r; macd := macd r;
     macdsignal := macdsignal r; stoch_k := stoch_k r; stoch_d := stoch_d r;
     adx := adx r |}.

(** A bar at 1.005 whose sma is undefined. *)
Definition undefined_sma_bar : Row float :=
  {| date := 1; high := 1.005; low := 1.005; close := 1.005; atr := 0.001;
     sma := nan; rsi := 50; macd := 0.001; macdsignal := 0.0005;
     stoch_k := 60; stoch_d := 50; adx := 30 |}%float.

(** A comparison whose left operand is NaN is false.  It holds of
    binary64, and of the real numbers, which have no NaN. *)
Class NanLaws (F : Type) `{!PyFloat F} : Prop := {
  flt_nan (a b : F) : fisnan a = true → (a <? b)%py = false
}.

(** No number is below itself. *)
Class IrreflLaws (F : Type) `{!PyFloat F} : Prop := {
  flt_irrefl (a : F) : (a <? a)%py = false
}.

(** Three bars at 1.000, 1.010 and 0.9 whose sma is undefined, with
    indicators that confirm an entry otherwise. *)
Definition with_sma (s : float) (r : Row float) : Row float :=
  {| date := date r; high := high r; low := low r; close := close r;
     atr := atr r; sma := s; rsi := rsi r; macd := macd r;
     macdsignal := macdsignal r; stoch_k := stoch_k r; stoch_d := stoch_d r;
     adx := adx r |}.

Definition undefined_sma_frame : list (Row float) :=
  with_sma nan <$> [flat_bar; rising_bar; falling_bar].

(** The bar on which the current leg began: the bar of the last entry or
    exit of the trace, bar 0 before the first one. *)
Definition leg_start (evs : list Event) : nat :=
  match last evs with
  | Some e => default 0 (bar_of e)
  | None => 0
  end.

Section Extremum_def.
Context {F : Type} `{!PyFloat F}.

(** [x] is the running extremum of the column [col] over the bars from
    [s] to [n - 1] that [seen] holds of: it is the value of one of the
    bars from [s] to [n], and no bar that was seen is beyond it, below
    it where the position is closed ([up = false], the column being the
    lows), above it where the position is open (the highs). *)
Definition running_extremum (up : bool) (df : list (Row F))
    (seen : Row F → bool) (s n : nat) (x : F) : Prop :=
  let col := if up then high else low in
  (∃ j rj, s ≤ j ∧ j ≤ n ∧ df !! j = Some rj ∧ x = col rj)
  ∧ ∀ k rk, s ≤ k → k < n → df !! k = Some rk → seen rk = true →
      (if up then (col rk >? x)%py else (col rk <? x)%py) = false.
End Extremum_def.

Section Seen.
Context {F : Type} `{!PyFloat F}.

(** The bars whose prices [MaximizePnLBot] looks at: all of them where
    the volatility filter is disabled, those with an atr that is not
    above the threshold where it is enabled. *)
Definition M_seen (params : Params F) (row : Row F) : bool :=
  negb (bool_decide (mode params ∈ [FULL_AI; NO_CLASSIFIER])
        && (atr row >? volatility_threshold params)%py).

(** The bars whose prices [AdvancedDCBot] looks at: those with a defined
    sma. *)
Definition A_seen (row : Row F) : bool := negb (fisnan (sma row)).
End Seen.

(** ** aifilter.py

    The quote graph and the scan for three-currency cycles of
    Assignment-2.  Quotes are Python floats: binary64.  The random tick
    stream and the classifier that is trained on the cycles are left
    out. *)

Definition CURRENCIES : list string :=
  ["USD"; "EUR"; "JPY"; "GBP"; "AUD"; "CAD"; "CHF"; "NZD"; "CNY"; "SEK"].

(** [d[k]] on a [defaultdict] whose factory returns [default]: a missing
    key is inserted with the default value. *)
Definition defaultdict_getitem {V} (default : V) (k : string)
    (d : gmap string V) : V * gmap string V :=
  match d !! k with
  | Some v => (v, d)
  | None => (default, <[k := default]> d)
  end.

Module FXGraph.
(** [self.bid] and [self.ask]: a [defaultdict] of [defaultdict(float)]. *)
Record t := {
  bid : gmap string (gmap string float);
  ask : gmap string (gmap string float)
}.

(** [FXGraph.__init__] *)
Definition __init__ : t := {| bid := ∅; ask := ∅ |}.

(** [FXGraph.update]: the inner dict that [self.bid[base]] returns is
    the one the outer dict holds, so the assignment shows in the outer
    dict. *)
Definition update (base quote : string) (bid_ ask_ : float) (self : t) : t :=
  let '(inner, bid') := defaultdict_getitem ∅ base (bid self) in
  let bid' := <[base := <[quote := bid_]> inner]> bid' in
  let '(inner, ask') := defaultdict_getitem ∅ base (ask self) in
  let ask' := <[base := <[quote := ask_]> inner]> ask' in
  {| bid := bid'; ask := ask' |}.

(** [FXGraph.get_cross_rate], with the graph it leaves: the reads go
    through the default dicts and insert what is missing. *)
Definition get_cross_rate (a b : string) (self : t) : float * t :=
  let '(inner, bid') := defaultdict_getitem ∅ a (bid self) in
  if decide (is_Some (inner !! b)) then
    let '(inner, bid') := defaultdict_getitem ∅ a bid' in
    let '(x, inner) := defaultdict_getitem 0%float b inner in
    let bid' := <[a := inner]> bid' in
    let '(inner, ask') := defaultdict_getitem ∅ a (ask self) in
    let '(y, inner) := defaultdict_getitem 0%float b inner in
    let ask' := <[a := inner]> ask' in
    ((0.5 * (x + y))%float, {| bid := bid'; ask := ask' |})
  else (nan, {| bid := bid'; ask := ask self |}).
End FXGraph.

(** [itertools.permutations(l, 3)]: the triples of the elements at three
    different positions, in the order of the positions. *)
Definition permutations3 {A} (l : list A) : list (A * A * A) :=
  '(i, a) ← imap pair l;
  '(j, b) ← imap pair l;
  '(k, c) ← imap pair l;
  if decide (i ≠ j ∧ i ≠ k ∧ j ≠ k) then [(a, b, c)] else [].

(** One iteration of the loop of [find_cycles]: lines 76-83. *)
Definition find_cycles_body (threshold : float)
    (acc : list (string * string * string * float) * FXGraph.t)
    (abc : string * string * string)
  : list (string * string * string * float) * FXGraph.t :=
  let '(cycles, graph) := acc in
  let '(a, b, c) := abc in
  if String.ltb a b && String.ltb b c then
    let '(r1, graph) := FXGraph.get_cross_rate a b graph in
    let '(r2, graph) := FXGraph.get_cross_rate b c graph in
    let '(r3, graph) := FXGraph.get_cross_rate c a graph in
    if negb (PrimFloat.is_nan r1 || PrimFloat.is_nan r2 || PrimFloat.is_nan r3)
    then
      let pnl := (r1 * r2 * r3 - 1)%float in
      if (threshold <? PrimFloat.abs pnl)%float
      then (cycles ++ [(a, b, c, pnl)], graph)
      else (cycles, graph)
    else (cycles, graph)
  else (cycles, graph).

(** [find_cycles], with the graph it leaves. *)
Definition find_cycles (graph : FXGraph.t) (threshold : float)
  : list (string * string * string * float) * FXGraph.t :=
  foldl (find_cycles_body threshold) ([], graph) (permutations3 CURRENCIES).

(** [np.sign] *)
Definition np_sign (x : float) : float :=
  if (0 <? x)%float then 1%float
  else if (x <? 0)%float then (-1)%float
  else if (x =? 0)%float then 0%float
  else x.

(** [cycle_to_features] *)
Definition cycle_to_features (cycle : string * string * string) (pnl : float)
  : list (Value float) :=
  let '(a, b, c) := cycle in
  [VFloat (PrimFloat.abs pnl); VFloat (np_sign pnl);
   VInt (Z.of_nat (size (list_to_set [a; b; c] : gset string)))].

(** The quote that the graph holds for the pair: the bid, and the ask
    that a read of [self.ask[a][b]] returns. *)
Definition quote_of (g : FXGraph.t) (a b : string) : option (float * float) :=
  inner ← FXGraph.bid g !! a;
  x ← inner !! b;
  Some (x, default 0%float (FXGraph.ask g !! a ≫= (.!! b))).

(** The mid-price of a quote, NaN without one. *)
Definition mid (q : option (float * float)) : float :=
  match q with
  | Some (x, y) => (0.5 * (x + y))%float
  | None => nan
  end.

(** A graph fed with two quotes that make the one cycle CAD -> EUR -> USD
    -> CAD, and nothing else. *)
Definition sample_graph : FXGraph.t :=
  FXGraph.update "USD" "CAD" 1.3 1.3002
    (FXGraph.update "EUR" "USD" 1.1 1.1002
       (FXGraph.update "CAD" "EUR" 0.7 0.7002 FXGraph.__init__)).

(** The rates of the three legs of a cycle, as [get_cross_rate] answers
    them, and its theoretical pnl. *)
Definition cycle_pnl (g : FXGraph.t) (abc : string * string * string) : float :=
  let '(a, b, c) := abc in
  (mid (quote_of g a b) * mid (quote_of g b c) * mid (quote_of g c a) - 1)%float.

(** The tests a triple passes to be reported: in increasing order, the
    three rates defined, and a pnl beyond the threshold. *)
Definition detected (threshold : float) (g : FXGraph.t)
    (abc : string * string * string) : bool :=
  let '(a, b, c) := abc in
  String.ltb a b && String.ltb b c
  && negb (PrimFloat.is_nan (mid (quote_of g a b))
           || PrimFloat.is_nan (mid (quote_of g b c))
           || PrimFloat.is_nan (mid (quote_of g c a)))
  && (threshold <? PrimFloat.abs (cycle_pnl g abc))%float.

(** The triples of currencies in increasing order. *)
Definition sorted_triples : list (string * string * string) :=
  filter (λ abc, String.ltb abc.1.1 abc.1.2 && String.ltb abc.1.2 abc.2 = true)
    (permutations3 CURRENCIES).

(** The calls that reach a graph: [main] feeds it a tick with [update]
    and then scans it, and a scan is a series of [get_cross_rate]. *)
Inductive Call :=
| Update (base quote : string) (bid_ ask_ : float)
| Query (a b : string).

(** The graph after a call. *)
Definition call (g : FXGraph.t) (c : Call) : FXGraph.t :=
  match c with
  | Update base quote bid_ ask_ => FXGraph.update base quote bid_ ask_ g
  | Query a b => (FXGraph.get_cross_rate a b g).2
  end.

(** The bid and the ask of the last [update] of the pair among the calls. *)
Definition last_quote (a b : string) (calls : list Call)
  : option (float * float) :=
  foldl (λ q c, match c with
                | Update base quote bid_ ask_ =>
                    if decide (a = base ∧ b = quote) then Some (bid_, ask_)
                    else q
                | Query _ _ => q
                end) None calls.

(** The rate that [get_cross_rate] answers on a graph. *)
Definition rate (g : FXGraph.t) (a b : string) : float :=
  (FXGraph.get_cross_rate a b g).1.

Section Agreement.
Context {F : Type} `{!PyFloat F}.

(** A trade of [MaximizePnLBot] and one of [AdvancedDCBot] with the
    same prices and the same pnl. *)
Definition same_prices (tM tA : Trade F) : Prop :=
  tM !! "entry_price" = tA !! "entry_price"
  ∧ tM !! "exit_price" = tA !! "exit_price"
  ∧ tM !! "pnl" = tA !! "pnl".

(** A row on which the two engines have no reason to part: the sma is
    defined, neither price is 0, the atr does not exceed the threshold
    where the mode enables the volatility filter, and the confirmation of
    [MaximizePnLBot] (the strict tier over adx > 10 with the classifier,
    the relaxed tier without) says what that of [AdvancedDCBot] says
    (the strict tier over adx > 25 with the classifier, nothing
    without). *)
Definition agreeable (params : Params F) (row : Row F) : Prop :=
  fisnan (sma row) = false
  ∧ (low row ==? of_int 0)%py = false
  ∧ (high row ==? of_int 0)%py = false
  ∧ (mode params ∈ [FULL_AI; NO_CLASSIFIER] →
     (atr row >? volatility_threshold params)%py = false)
  ∧ (if bool_decide (mode params ∈ [FULL_AI; NO_VOLATILITY_FILTER])
     then strict_tier (of_int 10) params row
     else relaxed_tier params row)
    = (if bool_decide (mode params ∈ [FULL_AI; NO_VOLATILITY_FILTER])
       then strict_tier (of_int 25) params row
       else true).

(** The two engines in step: the same flags, parameters, state,
    extremum, overshoot, entry price and total, no pause, no zero
    divisor ahead, and ledgers with the same prices. *)
Definition in_step (sM : MaximizePnLBot.Bot F) (sA : AdvancedDCBot.Bot F)
    (l : AdvancedDCBot.Locals F) : Prop :=
  MaximizePnLBot.params sM = AdvancedDCBot.params sA
  ∧ MaximizePnLBot.use_volatility_filter sM
    = AdvancedDCBot.use_volatility_filter sA
  ∧ MaximizePnLBot.use_classifier sM = AdvancedDCBot.use_classifier sA
  ∧ MaximizePnLBot.total_pnl sM = AdvancedDCBot.total_pnl sA
  ∧ MaximizePnLBot.is_position_open sM = AdvancedDCBot.is_position_open l
  ∧ MaximizePnLBot.current_trend sM
    = (if MaximizePnLBot.is_position_open sM then 1 else -1)%Z
  ∧ AdvancedDCBot.current_trend l
    = (if MaximizePnLBot.is_position_open sM then 1 else -1)%Z
  ∧ MaximizePnLBot.last_extreme sM = AdvancedDCBot.last_extreme_price l
  ∧ MaximizePnLBot.max_overshoot sM = AdvancedDCBot.max_overshoot l
  ∧ MaximizePnLBot.entry_price sM = AdvancedDCBot.entry_price l
  ∧ MaximizePnLBot.is_trading_paused sM = false
  ∧ AdvancedDCBot.is_trading_paused l = false
  ∧ M_nonzero sM
  ∧ ∃ ts, Forall2 same_prices ts (AdvancedDCBot.trades sA)
          ∧ if MaximizePnLBot.is_position_open sM
            then ∃ i d,
                MaximizePnLBot.trades sM
                = ts ++ [MaximizePnLBot.opened i (MaximizePnLBot.entry_price sM)]
                ∧ AdvancedDCBot.trade l
                  = AdvancedDCBot.opened d (MaximizePnLBot.entry_price sM)
            else MaximizePnLBot.trades sM = ts.
End Agreement.

(** Two results that raise the same exception or hold related values. *)
Definition Result_rel {A B} (R : A → B → Prop) (x : Result A) (y : Result B)
  : Prop :=
  match x, y with
  | Ok a, Ok b => R a b
  | Raise e1, Raise e2 => e1 = e2
  | _, _ => False
  end.

Section Modes.
Context {F : Type} `{!PyFloat F}.

(** The parameters in another mode. *)
Definition with_mode (m : StrategyMode) (params : Params F) : Params F :=
  {| mode := m; dc_threshold := dc_threshold params;
     volume := volume params; y_value := y_value params;
     rsi_overbought := rsi_overbought params;
     volatility_threshold := volatility_threshold params |}.

(** Two parameter sets that differ in the mode at most. *)
Definition same_numbers (p1 p2 : Params F) : Prop :=
  dc_threshold p1 = dc_threshold p2 ∧ volume p1 = volume p2
  ∧ y_value p1 = y_value p2 ∧ rsi_overbought p1 = rsi_overbought p2
  ∧ volatility_threshold p1 = volatility_threshold p2.

(** Two bots of [MaximizePnLBot] in the same state, unpaused, whose
    configurations differ in the volatility filter at most. *)
Definition M_calm_sim (s1 s2 : MaximizePnLBot.Bot F) : Prop :=
  MaximizePnLBot.df s1 = MaximizePnLBot.df s2
  ∧ same_numbers (MaximizePnLBot.params s1) (MaximizePnLBot.params s2)
  ∧ MaximizePnLBot.total_pnl s1 = MaximizePnLBot.total_pnl s2
  ∧ MaximizePnLBot.trades s1 = MaximizePnLBot.trades s2
  ∧ MaximizePnLBot.use_classifier s1 = MaximizePnLBot.use_classifier s2
  ∧ MaximizePnLBot.current_trend s1 = MaximizePnLBot.current_trend s2
  ∧ MaximizePnLBot.last_extreme s1 = MaximizePnLBot.last_extreme s2
  ∧ MaximizePnLBot.max_overshoot s1 = MaximizePnLBot.max_overshoot s2
  ∧ MaximizePnLBot.is_position_open s1 = MaximizePnLBot.is_position_open s2
  ∧ MaximizePnLBot.entry_price s1 = MaximizePnLBot.entry_price s2
  ∧ MaximizePnLBot.is_trading_paused s1 = false
  ∧ MaximizePnLBot.is_trading_paused s2 = false.

(** The same for [AdvancedDCBot] and its locals. *)
Definition A_calm_sim
    (s1 s2 : AdvancedDCBot.Bot F * AdvancedDCBot.Locals F) : Prop :=
  AdvancedDCBot.df s1.1 = AdvancedDCBot.df s2.1
  ∧ same_numbers (AdvancedDCBot.params s1.1) (AdvancedDCBot.params s2.1)
  ∧ AdvancedDCBot.trades s1.1 = AdvancedDCBot.trades s2.1
  ∧ AdvancedDCBot.total_pnl s1.1 = AdvancedDCBot.total_pnl s2.1
  ∧ AdvancedDCBot.use_classifier s1.1 = AdvancedDCBot.use_classifier s2.1
  ∧ s1.2 = s2.2
  ∧ AdvancedDCBot.is_trading_paused s1.2 = false.
End Modes.

Section Rerun.
Context {F : Type} `{!PyFloat F}.

(** [sb] is [sa] with a ledger that had [pre] in it and a total that
    stood at [t0] before the trades of [sa] were added. *)
Definition A_continues (pre : list (Trade F)) (t0 : F)
    (sa sb : AdvancedDCBot.Bot F) : Prop :=
  AdvancedDCBot.df sb = AdvancedDCBot.df sa
  ∧ AdvancedDCBot.params sb = AdvancedDCBot.params sa
  ∧ AdvancedDCBot.use_volatility_filter sb
    = AdvancedDCBot.use_volatility_filter sa
  ∧ AdvancedDCBot.use_classifier sb = AdvancedDCBot.use_classifier sa
  ∧ AdvancedDCBot.trades sb = pre ++ AdvancedDCBot.trades sa
  ∧ AdvancedDCBot.total_pnl sb
    = foldl (λ acc t, acc + trade_pnl t)%py t0 (AdvancedDCBot.trades sa).
End Rerun.


(** * Lemmas *)

Section Python_lemmas.
Context {F : Type} `{!PyFloat F}.

Lemma update_last_snoc {A} (f : A → A) l t :
  update_last f (l ++ [t]) = Ok (l ++ [f t]).
Proof.
  induction l as [|a l IH]; [done|].
  simpl. rewrite IH. simpl. destruct (l ++ [t]) eqn:E; [|done].
  by destruct l.
Qed.



Lemma open_after_app o e1 e2 :
  open_after o (e1 ++ e2) = open_after o e1 ≫= λ o', open_after o' e2.
Proof. revert o. induction e1 as [|[]]; intros []; simpl; auto. Qed.

Lemma ledger_pnl_snoc (ts : list (Trade F)) t :
  ledger_pnl (ts ++ [t]) = (ledger_pnl ts + trade_pnl t)%py.
Proof. unfold ledger_pnl. by rewrite foldl_app. Qed.
End Python_lemmas.

(** ** MaximizePnLBot *)

Section MaximizePnLBot_lemmas.
Import MaximizePnLBot.
Context {F : Type} `{!PyFloat F}.
Implicit Types (self : Bot F) (row : Row F) (params : Params F).

Lemma M_closed_trade_closed params (t : Trade F) :
  closed_trade params t → closed params t.
Proof.
  intros (i & j & e & x & ->). exists e, x.
  unfold closing, opened. by simplify_map_eq.
Qed.

Lemma M_closing_pnl params j e x (t : Trade F) :
  trade_pnl (closing params j e x t) = trade_result params e x.
Proof. unfold trade_pnl, closing. by simplify_map_eq. Qed.

Lemma M_closed_trade_dom params (t : Trade F) :
  closed_trade params t →
  dom t = {[ "entry_price"; "entry_idx"; "exit_price"; "pnl"; "exit_idx" ]}.
Proof.
  intros (i & j & e & x & ->). unfold closing, opened.
  rewrite !dom_insert_L, dom_singleton_L. set_solver.
Qed.

(** What one iteration can do. *)
Lemma M_loop_body_shape i row self self' ev :
  loop_body i row self = Ok (self', ev) →
  (df self' = df self ∧ params self' = params self
   ∧ use_volatility_filter self' = use_volatility_filter self
   ∧ use_classifier self' = use_classifier self)
  ∧ (is_trading_paused self' = is_trading_paused self
     ∨ use_volatility_filter self = true)
  ∧ (max_overshoot self' = max_overshoot self
     ∨ ∃ x, max_overshoot self' = py_max (max_overshoot self) x)
  ∧ ((ev = []
      ∧ current_trend self' = current_trend self
      ∧ is_position_open self' = is_position_open self
      ∧ entry_price self' = entry_price self
      ∧ trades self' = trades self
      ∧ total_pnl self' = total_pnl self)
     ∨ (ev = [Entry i]
        ∧ current_trend self = (-1)%Z
        ∧ gated self row = false
        ∧ reversal_candidate (params self) (last_extreme self) row = true
        ∧ classifier_pass self row = true
        ∧ current_trend self' = 1%Z
        ∧ is_position_open self' = true
        ∧ entry_price self' = high row
        ∧ trades self' = trades self ++ [opened i (high row)]
        ∧ total_pnl self' = total_pnl self)
     ∨ (ev = [Exit i]
        ∧ current_trend self ≠ (-1)%Z
        ∧ gated self row = false
        ∧ is_position_open self = true
        ∧ current_trend self' = (-1)%Z
        ∧ is_position_open self' = false
        ∧ entry_price self' = entry_price self
        ∧ update_last
            (closing (params self) (Z.of_nat i) (entry_price self) (low row))
            (trades self) = Ok (trades self')
        ∧ total_pnl self' =
            (total_pnl self
             + trade_result (params self) (entry_price self) (low row))%py)).
Proof.
  intros H.
  unfold loop_body, trend_logic, py_div, gated, reversal_candidate in *.
  repeat (case_match; simplify_eq/=).
  all: try (match type of H with context [update_last ?f ?l] =>
         destruct (update_last f l) eqn:? end; simplify_eq/=).
  all: split_and!; eauto.
  all: try (left; split_and!; done).
  all: try (right; left; split_and!; first [done | lia | by apply Z.eqb_eq]).
  all: try (right; right; split_and!; first [done | lia | by apply Z.eqb_neq]).
Qed.

Lemma M_loop_body_Inv df0 params0 i row self self' evs ev :
  M_Inv df0 params0 self evs →
  loop_body i row self = Ok (self', ev) →
  M_Inv df0 params0 self' (evs ++ ev).
Proof.
  intros [Hdf Hpar Hvf Hcl Htr Hpa Hev (ts & Hts & Htot & Hled)] H.
  apply M_loop_body_shape in H
    as ((Edf & Epar & Evf & Ecl) & Epa & _ & Hcases).
  destruct Hcases as
    [(-> & Etr & Eop & Een & Etrd & Etot)
    |[(-> & Hdown & _ & _ & _ & Etr & Eop & Een & Etrd & Etot)
     |(-> & Hup & _ & Hop & Etr & Eop & Een & Etrd & Etot)]].
  - rewrite app_nil_r.
    split; rewrite ?Edf, ?Epar, ?Evf, ?Ecl, ?Etr, ?Eop, ?Een, ?Etrd, ?Etot;
      try done.
    + intros Hf. destruct Epa as [->|?]; [auto|congruence].
    + by exists ts.
  - assert (is_position_open self = false) as Hop.
    { destruct (is_position_open self); [congruence|done]. }
    rewrite Hop in *.
    split; rewrite ?Edf, ?Epar, ?Evf, ?Ecl, ?Etr, ?Eop, ?Een, ?Etrd, ?Etot;
      try done.
    + intros Hf. destruct Epa as [->|?]; [auto|congruence].
    + by rewrite open_after_app, Hev.
    + exists ts. split_and!; [done..|]. exists i. by rewrite Hled.
  - rewrite Hop in *. destruct Hled as [i0 Hled].
    rewrite Hled, update_last_snoc in Etrd. injection Etrd as Etrd.
    split; rewrite ?Edf, ?Epar, ?Evf, ?Ecl, ?Etr, ?Eop, ?Een, ?Etot;
      try done.
    + intros Hf. destruct Epa as [->|?]; [auto|congruence].
    + by rewrite open_after_app, Hev.
    + eexists. split_and!; [| |symmetry; exact Etrd].
      * apply Forall_app. split; [done|]. apply Forall_singleton.
        rewrite <- Hpar. by eexists _, _, _, _.
      * by rewrite ledger_pnl_snoc, M_closing_pnl, Htot.
Qed.

Lemma M_iterrows_Inv df0 params0 rows : ∀ i self self' evs0 evs,
  M_Inv df0 params0 self evs0 →
  iterrows i rows self = Ok (self', evs) →
  M_Inv df0 params0 self' (evs0 ++ evs).
Proof.
  induction rows as [|row rows IH]; intros i self self' evs0 evs HI H.
  - simpl in H. injection H as <- <-. by rewrite app_nil_r.
  - simpl in H.
    destruct (loop_body i row self) as [[self1 ev]|] eqn:E1; [|done].
    simpl in H.
    destruct (iterrows (S i) rows self1) as [[self2 evs2]|] eqn:E2; [|done].
    simpl in H. injection H as <- <-.
    rewrite app_assoc. eapply IH; [|done].
    by eapply M_loop_body_Inv.
Qed.

Lemma M_init_Inv df0 params0 self :
  __init__ df0 params0 = Ok self → M_Inv df0 params0 self [].
Proof.
  destruct df0 as [|row0 df0]; [done|]. intros [= <-].
  split; simpl; try done. by exists [].
Qed.

Lemma M_after_Inv n df0 params0 self evs :
  after n df0 params0 = Ok (self, evs) → M_Inv df0 params0 self evs.
Proof.
  unfold after. destruct (__init__ df0 params0) as [self0|] eqn:E0; [|done].
  simpl. intros H. change evs with ([] ++ evs).
  eapply M_iterrows_Inv; [|done]. by apply M_init_Inv.
Qed.

Lemma M_iterrows_snoc rows row : ∀ i self,
  iterrows i (rows ++ [row]) self
  = '(self1, evs) ← iterrows i rows self;
    '(self2, ev) ← loop_body (i + length rows) row self1;
    Ok (self2, evs ++ ev).
Proof.
  induction rows as [|r rows IH]; intros i self; simpl.
  - rewrite Nat.add_0_r.
    destruct (loop_body i row self) as [[self1 ev]|]; [|done].
    simpl. by rewrite app_nil_r.
  - destruct (loop_body i r self) as [[self1 ev]|]; [|done]. simpl.
    rewrite IH. replace (i + S (length rows)) with (S i + length rows) by lia.
    destruct (iterrows (S i) rows self1) as [[self2 evs2]|]; [|done]. simpl.
    destruct (loop_body _ row self2) as [[self3 ev3]|]; [|done]. simpl.
    by rewrite app_assoc.
Qed.

(** The loop goes from the state after [n] rows to the state after
    [S n] rows by one iteration on row [n]. *)
Lemma M_after_S n df0 params0 row self evs :
  df0 !! n = Some row →
  after n df0 params0 = Ok (self, evs) →
  after (S n) df0 params0
  = '(self', ev) ← loop_body n row self; Ok (self', evs ++ ev).
Proof.
  unfold after. intros Hrow.
  destruct (__init__ df0 params0) as [self0|]; [|done]. simpl.
  rewrite (take_S_r _ _ _ Hrow), M_iterrows_snoc. intros ->. simpl.
  rewrite length_take_le; [done|].
  apply lookup_lt_Some in Hrow. lia.
Qed.
End MaximizePnLBot_lemmas.

(** ** AdvancedDCBot *)

Section AdvancedDCBot_lemmas.
Import AdvancedDCBot.
Context {F : Type} `{!PyFloat F}.
Implicit Types (self : Bot F) (l : Locals F) (row : Row F) (params : Params F).

Lemma A_closed_trade_closed params (t : Trade F) :
  closed_trade params t → closed params t.
Proof.
  intros (d0 & d & e & x & ->). exists e, x.
  unfold closing, opened. by simplify_map_eq.
Qed.

Lemma A_closing_pnl params d e x (t : Trade F) :
  trade_pnl (closing params d e x t) = trade_result params e x.
Proof. unfold trade_pnl, closing. by simplify_map_eq. Qed.

Lemma A_closed_trade_dom params (t : Trade F) :
  closed_trade params t →
  dom t = {[ "entry_date"; "entry_price"; "pnl"; "exit_date"; "exit_price" ]}.
Proof.
  intros (d0 & d & e & x & ->). unfold closing, opened.
  rewrite !dom_insert_L, dom_singleton_L. set_solver.
Qed.

(** The guarded quotients of lines 161-165 and 180-182 never raise. *)
Lemma A_guarded_div (x y : F) :
  ∃ q, (if negb (y ==? of_int 0)%py then py_div x y else Ok (of_int 0))
       = Ok q.
Proof. unfold py_div. destruct (y ==? of_int 0)%py; simpl; eauto. Qed.

(** What one iteration can do. *)
Lemma A_loop_body_shape i row self l self' l' ev :
  loop_body i row self l = Ok (self', l', ev) →
  (df self' = df self ∧ params self' = params self
   ∧ use_volatility_filter self' = use_volatility_filter self
   ∧ use_classifier self' = use_classifier self)
  ∧ (is_trading_paused l' = is_trading_paused l
     ∨ use_volatility_filter self = true)
  ∧ (max_overshoot l' = max_overshoot l
     ∨ ∃ x, max_overshoot l' = py_max (max_overshoot l) x)
  ∧ ((ev = []
      ∧ current_trend l' = current_trend l
      ∧ is_position_open l' = is_position_open l
      ∧ entry_price l' = entry_price l
      ∧ trade l' = trade l
      ∧ trades self' = trades self
      ∧ total_pnl self' = total_pnl self)
     ∨ (ev = [Entry i]
        ∧ current_trend l = (-1)%Z
        ∧ fisnan (sma row) = false
        ∧ is_trading_paused l' = false
        ∧ reversal_candidate (params self) (last_extreme_price l) row = true
        ∧ classifier_pass self row = true
        ∧ current_trend l' = 1%Z
        ∧ is_position_open l' = true
        ∧ entry_price l' = high row
        ∧ trade l' = opened (date row) (high row)
        ∧ trades self' = trades self
        ∧ total_pnl self' = total_pnl self)
     ∨ (ev = [Exit i]
        ∧ current_trend l = 1%Z
        ∧ fisnan (sma row) = false
        ∧ is_position_open l = true
        ∧ current_trend l' = (-1)%Z
        ∧ is_position_open l' = false
        ∧ entry_price l' = entry_price l
        ∧ trades self' =
            trades self
            ++ [closing (params self) (date row) (entry_price l) (low row)
                  (trade l)]
        ∧ total_pnl self' =
            (total_pnl self
             + trade_result (params self) (entry_price l) (low row))%py)).
Proof.
  intros H.
  unfold loop_body, trend_logic, py_div, reversal_candidate in *.
  repeat (case_match; simplify_eq/=).
  all: split_and!; eauto.
  all: try (left; split_and!; done).
  all: try (right; left; split_and!; first [done | lia | by apply Z.eqb_eq]).
  all: try (right; right; split_and!; first [done | lia | by apply Z.eqb_eq]).
Qed.

(** No iteration raises. *)
Lemma A_loop_body_total i row self l : ∃ r, loop_body i row self l = Ok r.
Proof.
  unfold loop_body, trend_logic, py_div.
  repeat (case_match; simplify_eq/=); eauto.
Qed.

Lemma A_loop_body_Inv df0 params0 i row self l self' l' evs ev :
  A_Inv df0 params0 self l evs →
  loop_body i row self l = Ok (self', l', ev) →
  A_Inv df0 params0 self' l' (evs ++ ev).
Proof.
  intros [Hdf Hpar Hvf Hcl Htr Hpa Hev (Hts & Htot & Hled)] H.
  apply A_loop_body_shape in H
    as ((Edf & Epar & Evf & Ecl) & Epa & _ & Hcases).
  destruct Hcases as
    [(-> & Etr & Eop & Een & Etra & Etrd & Etot)
    |[(-> & Hdown & _ & Epa' & _ & _ & Etr & Eop & Een & Etra & Etrd & Etot)
     |(-> & Hup & _ & Hop & Etr & Eop & Een & Etrd & Etot)]].
  - rewrite app_nil_r.
    split; rewrite ?Edf, ?Epar, ?Evf, ?Ecl, ?Etr, ?Eop, ?Een, ?Etra, ?Etrd,
      ?Etot; try done.
    intros Hf. destruct Epa as [->|?]; [auto|congruence].
  - assert (is_position_open l = false) as Hop.
    { destruct (is_position_open l); [congruence|done]. }
    rewrite Hop in *.
    split; rewrite ?Edf, ?Epar, ?Evf, ?Ecl, ?Etr, ?Eop, ?Een, ?Etra, ?Etrd,
      ?Etot; try done.
    + by rewrite open_after_app, Hev.
    + split_and!; [done..|]. intros _. by eexists.
  - rewrite Hop in *. destruct (Hled eq_refl) as [d0 Hd0].
    split; rewrite ?Edf, ?Epar, ?Evf, ?Ecl, ?Etr, ?Eop, ?Een, ?Etrd, ?Etot;
      try done.
    + intros Hf. destruct Epa as [->|?]; [auto|congruence].
    + by rewrite open_after_app, Hev.
    + split_and!; [| |done].
      * apply Forall_app. split; [done|]. apply Forall_singleton.
        rewrite <- Hpar, Hd0. by eexists _, _, _, _.
      * by rewrite ledger_pnl_snoc, A_closing_pnl, Htot.
Qed.

Lemma A_iterrows_Inv df0 params0 rows : ∀ i self l self' l' evs0 evs,
  A_Inv df0 params0 self l evs0 →
  iterrows i rows self l = Ok (self', l', evs) →
  A_Inv df0 params0 self' l' (evs0 ++ evs).
Proof.
  induction rows as [|row rows IH]; intros i self l self' l' evs0 evs HI H.
  - simpl in H. injection H as <- <- <-. by rewrite app_nil_r.
  - simpl in H.
    destruct (loop_body i row self l) as [[[self1 l1] ev]|] eqn:E1; [|done].
    simpl in H.
    destruct (iterrows (S i) rows self1 l1) as [[[self2 l2] evs2]|] eqn:E2;
      [|done].
    simpl in H. injection H as <- <- <-.
    rewrite app_assoc. eapply IH; [|done].
    by eapply A_loop_body_Inv.
Qed.

Lemma A_iterrows_total rows : ∀ i self l, ∃ r, iterrows i rows self l = Ok r.
Proof.
  induction rows as [|row rows IH]; intros i self l; simpl; [eauto|].
  destruct (A_loop_body_total i row self l) as [[[self1 l1] ev] ->]. simpl.
  destruct (IH (S i) self1 l1) as [[[self2 l2] evs] ->]. simpl. eauto.
Qed.

Lemma A_init_Inv row0 rest params0 :
  A_Inv (row0 :: rest) params0 (__init__ (row0 :: rest) params0)
    (locals0 row0) [].
Proof. by split. Qed.

Lemma A_after_Inv n row0 rest params0 self l evs :
  after n row0 rest params0 = Ok (self, l, evs) →
  A_Inv (row0 :: rest) params0 self l evs.
Proof.
  unfold after. intros H. change evs with ([] ++ evs).
  eapply A_iterrows_Inv; [|done]. apply A_init_Inv.
Qed.

Lemma A_after_total n row0 rest params0 :
  ∃ r, after n row0 rest params0 = Ok r.
Proof. apply A_iterrows_total. Qed.

Lemma A_iterrows_snoc rows row : ∀ i self l,
  iterrows i (rows ++ [row]) self l
  = '(self1, l1, evs) ← iterrows i rows self l;
    '(self2, l2, ev) ← loop_body (i + length rows) row self1 l1;
    Ok (self2, l2, evs ++ ev).
Proof.
  induction rows as [|r rows IH]; intros i self l; simpl.
  - rewrite Nat.add_0_r.
    destruct (loop_body i row self l) as [[[self1 l1] ev]|]; [|done].
    simpl. by rewrite app_nil_r.
  - destruct (loop_body i r self l) as [[[self1 l1] ev]|]; [|done]. simpl.
    rewrite IH. replace (i + S (length rows)) with (S i + length rows) by lia.
    destruct (iterrows (S i) rows self1 l1) as [[[self2 l2] evs2]|]; [|done].
    simpl.
    destruct (loop_body _ row self2 l2) as [[[self3 l3] ev3]|]; [|done].
    simpl. by rewrite app_assoc.
Qed.

Lemma A_after_S n row0 rest params0 row self l evs :
  (row0 :: rest) !! n = Some row →
  after n row0 rest params0 = Ok (self, l, evs) →
  after (S n) row0 rest params0
  = '(self', l', ev) ← loop_body n row self l; Ok (self', l', evs ++ ev).
Proof.
  unfold after. intros Hrow.
  rewrite (take_S_r _ _ _ Hrow), A_iterrows_snoc. intros ->. simpl.
  rewrite length_take_le; [done|].
  apply lookup_lt_Some in Hrow. simpl in *. lia.
Qed.
End AdvancedDCBot_lemmas.

(** ** Reasoning along a run *)

Section Reachable.
Context {F : Type} `{!PyFloat F}.

Lemma M_after_S_inv n (df0 : list (Row F)) params0 row self' evs' :
  df0 !! n = Some row →
  MaximizePnLBot.after (S n) df0 params0 = Ok (self', evs') →
  ∃ self evs ev,
    MaximizePnLBot.after n df0 params0 = Ok (self, evs)
    ∧ MaximizePnLBot.loop_body n row self = Ok (self', ev)
    ∧ evs' = evs ++ ev.
Proof.
  intros Hrow H.
  destruct (MaximizePnLBot.after n df0 params0) as [[self evs]|e] eqn:E.
  - rewrite (M_after_S _ _ _ _ _ _ Hrow E) in H.
    destruct (MaximizePnLBot.loop_body n row self) as [[s ev]|] eqn:E2;
      [|done].
    simpl in H. injection H as <- <-. by exists self, evs, ev.
  - exfalso. revert E H. unfold MaximizePnLBot.after.
    destruct (MaximizePnLBot.__init__ df0 params0) as [self0|]; [|done].
    simpl. rewrite (take_S_r _ _ _ Hrow), M_iterrows_snoc.
    by intros ->.
Qed.

Lemma M_after_ge n (df0 : list (Row F)) params0 :
  length df0 ≤ n →
  MaximizePnLBot.after n df0 params0
  = MaximizePnLBot.after (length df0) df0 params0.
Proof.
  intros Hn. unfold MaximizePnLBot.after.
  by rewrite (take_ge df0 n), (take_ge df0 (length df0)).
Qed.

(** Induction along the rows of a run of [MaximizePnLBot]. *)
Lemma M_after_ind (P : nat → MaximizePnLBot.Bot F → list Event → Prop)
    (df0 : list (Row F)) params0 :
  (∀ self, MaximizePnLBot.__init__ df0 params0 = Ok self → P 0 self []) →
  (∀ n row self evs self' ev,
     df0 !! n = Some row →
     MaximizePnLBot.after n df0 params0 = Ok (self, evs) →
     P n self evs →
     MaximizePnLBot.loop_body n row self = Ok (self', ev) →
     P (S n) self' (evs ++ ev)) →
  ∀ n self evs,
    n ≤ length df0 →
    MaximizePnLBot.after n df0 params0 = Ok (self, evs) → P n self evs.
Proof.
  intros H0 HS. induction n as [|n IH]; intros self evs Hn H.
  - unfold MaximizePnLBot.after in H.
    destruct (MaximizePnLBot.__init__ df0 params0) as [self0|] eqn:E; [|done].
    rewrite take_0 in H. simpl in H. injection H as <- <-. by apply H0.
  - destruct (lookup_lt_is_Some_2 df0 n) as [row Hrow]; [lia|].
    destruct (M_after_S_inv _ _ _ _ _ _ Hrow H)
      as (self1 & evs1 & ev & E1 & E2 & ->).
    eapply HS; [done..| |done]. apply IH; [lia|done].
Qed.

Lemma A_after_S_inv n (row0 : Row F) rest params0 row self' l' evs' :
  (row0 :: rest) !! n = Some row →
  AdvancedDCBot.after (S n) row0 rest params0 = Ok (self', l', evs') →
  ∃ self l evs ev,
    AdvancedDCBot.after n row0 rest params0 = Ok (self, l, evs)
    ∧ AdvancedDCBot.loop_body n row self l = Ok (self', l', ev)
    ∧ evs' = evs ++ ev.
Proof.
  intros Hrow H.
  destruct (A_after_total n row0 rest params0) as [[[self l] evs] E].
  rewrite (A_after_S _ _ _ _ _ _ _ _ Hrow E) in H.
  destruct (AdvancedDCBot.loop_body n row self l) as [[[s l1] ev]|] eqn:E2;
    [|done].
  simpl in H. injection H as <- <- <-. by exists self, l, evs, ev.
Qed.

Lemma A_after_ge n (row0 : Row F) rest params0 :
  length (row0 :: rest) ≤ n →
  AdvancedDCBot.after n row0 rest params0
  = AdvancedDCBot.after (length (row0 :: rest)) row0 rest params0.
Proof.
  intros Hn. unfold AdvancedDCBot.after.
  by rewrite (take_ge _ n), (take_ge _ (length (row0 :: rest))).
Qed.

(** Induction along the rows of a run of [AdvancedDCBot]. *)
Lemma A_after_ind
    (P : nat → AdvancedDCBot.Bot F → AdvancedDCBot.Locals F → list Event
         → Prop)
    (row0 : Row F) rest params0 :
  P 0 (AdvancedDCBot.__init__ (row0 :: rest) params0)
    (AdvancedDCBot.locals0 row0) [] →
  (∀ n row self l evs self' l' ev,
     (row0 :: rest) !! n = Some row →
     AdvancedDCBot.after n row0 rest params0 = Ok (self, l, evs) →
     P n self l evs →
     AdvancedDCBot.loop_body n row self l = Ok (self', l', ev) →
     P (S n) self' l' (evs ++ ev)) →
  ∀ n self l evs,
    n ≤ length (row0 :: rest) →
    AdvancedDCBot.after n row0 rest params0 = Ok (self, l, evs) →
    P n self l evs.
Proof.
  intros H0 HS. induction n as [|n IH]; intros self l evs Hn H.
  - unfold AdvancedDCBot.after in H. rewrite take_0 in H. simpl in H.
    by injection H as <- <- <-.
  - destruct (lookup_lt_is_Some_2 (row0 :: rest) n) as [row Hrow]; [lia|].
    destruct (A_after_S_inv _ _ _ _ _ _ _ _ Hrow H)
      as (self1 & l1 & evs1 & ev & E1 & E2 & ->).
    eapply HS; [done..| |done]. apply IH; [lia|done].
Qed.
End Reachable.

(** ** MaximizePnLBot returns on frames without zero prices *)

Section Total.
Context {F : Type} `{!PyFloat F}.

Lemma M_trend_logic_total i row (self : MaximizePnLBot.Bot F) :
  MaximizePnLBot.current_trend self
  = (if MaximizePnLBot.is_position_open self then 1%Z else (-1)%Z) →
  (MaximizePnLBot.is_position_open self = true →
   ∃ ts t, MaximizePnLBot.trades self = ts ++ [t]) →
  M_nonzero self →
  (low row ==? of_int 0)%py = false →
  (high row ==? of_int 0)%py = false →
  ∃ self' ev,
    MaximizePnLBot.trend_logic i row self = Ok (self', ev) ∧ M_nonzero self'.
Proof.
  intros Htr Hled [Hext Hent] Hlow Hhigh.
  unfold M_nonzero, MaximizePnLBot.trend_logic, py_div.
  destruct (MaximizePnLBot.is_position_open self) eqn:Hop; rewrite Htr;
    simpl.
  - destruct (Hled eq_refl) as (ts & t & Hts).
    destruct (high row >? MaximizePnLBot.last_extreme self)%py; simpl;
      rewrite Hop, (Hent eq_refl); simpl.
    all: match goal with |- context [if ?c then _ else _] =>
           destruct c end; simpl; rewrite ?Hts, ?update_last_snoc; simpl.
    all: eexists _, _; split; [done|]; simpl; split; intros;
      first [congruence | auto].
  - specialize (Hext Htr).
    destruct (low row <? MaximizePnLBot.last_extreme self)%py; simpl.
    all: repeat (match goal with |- context [if ?c then _ else _] =>
           destruct c eqn:? end; simpl); try congruence.
    all: eexists _, _; split; [done|]; simpl; split; intros;
      first [congruence | auto].
Qed.

Lemma M_loop_body_total df0 params0 i row (self : MaximizePnLBot.Bot F) evs :
  M_Inv df0 params0 self evs →
  M_nonzero self →
  (low row ==? of_int 0)%py = false →
  (high row ==? of_int 0)%py = false →
  ∃ self' ev,
    MaximizePnLBot.loop_body i row self = Ok (self', ev) ∧ M_nonzero self'.
Proof.
  intros [_ _ _ _ Htr _ _ (ts & _ & _ & Hled)] Hnz Hlow Hhigh.
  assert (MaximizePnLBot.is_position_open self = true →
          ∃ ts t, MaximizePnLBot.trades self = ts ++ [t]) as Hts.
  { intros Hop. rewrite Hop in Hled. destruct Hled as [i0 ->]. eauto. }
  unfold MaximizePnLBot.loop_body.
  destruct (MaximizePnLBot.use_volatility_filter self).
  - destruct (atr row >? _)%py.
    + by eexists _, _.
    + by apply M_trend_logic_total.
  - by apply M_trend_logic_total.
Qed.

Lemma M_iterrows_total df0 params0 rows : ∀ i (self : MaximizePnLBot.Bot F) evs,
  M_Inv df0 params0 self evs →
  M_nonzero self →
  nonzero_prices rows →
  ∃ r, MaximizePnLBot.iterrows i rows self = Ok r.
Proof.
  induction rows as [|row rows IH]; intros i self evs HI Hnz Hrows; simpl.
  { eauto. }
  apply Forall_cons in Hrows as [[Hlow Hhigh] Hrows].
  destruct (M_loop_body_total _ _ i row _ _ HI Hnz Hlow Hhigh)
    as (self1 & ev & E & Hnz1).
  rewrite E. simpl.
  destruct (IH (S i) self1 (evs ++ ev)) as [[self2 evs2] E2];
    [by eapply M_loop_body_Inv|done..|].
  rewrite E2. simpl. eauto.
Qed.

(** On a non-empty frame without zero prices the loop of
    [MaximizePnLBot] gets through any number of rows, and
    [run_backtest] returns. *)
Lemma M_after_total n (df0 : list (Row F)) params0 :
  df0 ≠ [] → nonzero_prices df0 →
  ∃ r, MaximizePnLBot.after n df0 params0 = Ok r.
Proof.
  intros Hne Hnz. unfold MaximizePnLBot.after.
  destruct (MaximizePnLBot.__init__ df0 params0) as [self0|] eqn:Hinit.
  - simpl. eapply (M_iterrows_total df0 params0).
    + by apply M_init_Inv.
    + destruct df0 as [|row0 df0]; [done|]. injection Hinit as <-.
      apply Forall_cons in Hnz as [[Hlow _] _]. by split.
    + by apply Forall_take.
  - by destruct df0.
Qed.
End Total.

(** ** Sample runs on binary64 *)

Lemma Result_snd_inv {A B} (r : Result (A * B)) (b : B) :
  snd <$> r = Ok b → ∃ a, r = Ok (a, b).
Proof. destruct r as [[a b']|]; [|done]. intros [= <-]. by exists a. Qed.

Lemma Result_fmap_inv {A B} (f : A → B) (r : Result A) (b : B) :
  f <$> r = Ok b → ∃ a, r = Ok a ∧ f a = b.
Proof. destruct r as [a|]; [|done]. intros [= <-]. by exists a. Qed.

Lemma Result_bind_inv {A B} (f : A → Result B) (r : Result A) (b : B) :
  r ≫= f = Ok b → ∃ a, r = Ok a ∧ f a = Ok b.
Proof. destruct r as [a|]; [|done]. intros Hb. by exists a. Qed.

Lemma M_sample_adx15 :
  snd <$> MaximizePnLBot.after 2 [flat_bar; rising_bar_adx15] (params_M FULL_AI)
  = Ok [Entry 1].
Proof. by vm_compute. Qed.

Lemma A_sample_rising :
  snd <$> AdvancedDCBot.after 2 flat_bar [rising_bar] (params_A FULL_AI)
  = Ok [Entry 1].
Proof. by vm_compute. Qed.

(** * The claims *)

(** ** C1: the strict confirmation tier *)

Section Tiers.
Context {F : Type} `{!PyFloat F}.

Lemma M_classifier_pass_eq (self : MaximizePnLBot.Bot F) row :
  MaximizePnLBot.classifier_pass self row
  = if MaximizePnLBot.use_classifier self
    then strict_tier (of_int 10) (MaximizePnLBot.params self) row
    else relaxed_tier (MaximizePnLBot.params self) row.
Proof.
  unfold MaximizePnLBot.classifier_pass, strict_tier, relaxed_tier.
  destruct (MaximizePnLBot.use_classifier self); [done|].
  by destruct (fisnan (sma row)).
Qed.

Lemma A_classifier_pass_eq (self : AdvancedDCBot.Bot F) row :
  AdvancedDCBot.classifier_pass self row
  = if AdvancedDCBot.use_classifier self
    then strict_tier (of_int 25) (AdvancedDCBot.params self) row
    else true.
Proof.
  unfold AdvancedDCBot.classifier_pass, strict_tier, py_all.
  destruct (AdvancedDCBot.use_classifier self); [|done].
  simpl. by rewrite andb_true_r, !andb_assoc.
Qed.

(** Every entry of a trace of [MaximizePnLBot] is on a row that passes
    the classifier of the bot's mode. *)
Lemma M_entries_pass (df0 : list (Row F)) params0 n self evs i :
  MaximizePnLBot.after n df0 params0 = Ok (self, evs) →
  Entry i ∈ evs →
  ∃ row, df0 !! i = Some row
         ∧ (if bool_decide (mode params0 ∈ [FULL_AI; NO_VOLATILITY_FILTER])
            then strict_tier (of_int 10) params0 row
            else relaxed_tier params0 row) = true.
Proof.
  assert (∀ n self evs, n ≤ length df0 →
            MaximizePnLBot.after n df0 params0 = Ok (self, evs) →
            ∀ i, Entry i ∈ evs →
            ∃ row, df0 !! i = Some row
              ∧ (if bool_decide
                      (mode params0 ∈ [FULL_AI; NO_VOLATILITY_FILTER])
                 then strict_tier (of_int 10) params0 row
                 else relaxed_tier params0 row) = true) as Hle.
  { apply (M_after_ind (λ _ _ evs, ∀ i, Entry i ∈ evs → _)).
    - intros _ _ j Hj. by apply elem_of_nil in Hj.
    - clear. intros n row self evs self' ev Hrow Haft IH Hbody j Hj.
      apply elem_of_app in Hj as [Hj|Hj]; [by apply IH|].
      apply M_after_Inv in Haft as [_ Hpar _ Hcl _ _ _ _].
      apply M_loop_body_shape in Hbody as (_ & _ & _ & Hcases).
      destruct Hcases as [(-> & _)|[(-> & _ & _ & _ & Hpass & _)|(-> & _)]].
      + by apply elem_of_nil in Hj.
      + apply list_elem_of_singleton in Hj as [= ->]. exists row.
        split; [done|].
        by rewrite M_classifier_pass_eq, Hcl, Hpar in Hpass.
      + by apply list_elem_of_singleton in Hj. }
  intros Haft Hi. destruct (decide (n ≤ length df0)) as [Hn|Hn].
  - by eapply Hle.
  - rewrite M_after_ge in Haft by lia. by eapply Hle.
Qed.

(** The same for [AdvancedDCBot], whose classifier is the strict tier
    over an ADX floor of 25 or nothing. *)
Lemma A_entries_pass (row0 : Row F) rest params0 n self l evs i :
  AdvancedDCBot.after n row0 rest params0 = Ok (self, l, evs) →
  Entry i ∈ evs →
  ∃ row, (row0 :: rest) !! i = Some row
         ∧ (if bool_decide (mode params0 ∈ [FULL_AI; NO_VOLATILITY_FILTER])
            then strict_tier (of_int 25) params0 row
            else true) = true.
Proof.
  assert (∀ n self l evs, n ≤ length (row0 :: rest) →
            AdvancedDCBot.after n row0 rest params0 = Ok (self, l, evs) →
            ∀ i, Entry i ∈ evs →
            ∃ row, (row0 :: rest) !! i = Some row
              ∧ (if bool_decide
                      (mode params0 ∈ [FULL_AI; NO_VOLATILITY_FILTER])
                 then strict_tier (of_int 25) params0 row
                 else true) = true) as Hle.
  { apply (A_after_ind (λ _ _ _ evs, ∀ i, Entry i ∈ evs → _)).
    - intros j Hj. by apply elem_of_nil in Hj.
    - clear. intros n row self l evs self' l' ev Hrow Haft IH Hbody j Hj.
      apply elem_of_app in Hj as [Hj|Hj]; [by apply IH|].
      apply A_after_Inv in Haft as [_ Hpar _ Hcl _ _ _ _].
      apply A_loop_body_shape in Hbody as (_ & _ & _ & Hcases).
      destruct Hcases
        as [(-> & _)|[(-> & _ & _ & _ & _ & Hpass & _)|(-> & _)]].
      + by apply elem_of_nil in Hj.
      + apply list_elem_of_singleton in Hj as [= ->]. exists row.
        split; [done|].
        by rewrite A_classifier_pass_eq, Hcl, Hpar in Hpass.
      + by apply list_elem_of_singleton in Hj. }
  intros Haft Hi. destruct (decide (n ≤ length (row0 :: rest))) as [Hn|Hn].
  - by eapply Hle.
  - rewrite A_after_ge in Haft by lia. by eapply Hle.
Qed.
End Tiers.

(** C1, as stated, fails on [MaximizePnLBot]: in mode FULL_AI the bar
    [rising_bar_adx15], whose adx of 15 is not above 25, opens a position. *)
Lemma C1_adx_floor_25_counterexample :
  snd <$> MaximizePnLBot.after 2 [flat_bar; rising_bar_adx15] (params_M FULL_AI)
  = Ok [Entry 1]
  ∧ (adx rising_bar_adx15 >? of_int 25)%py = false
  ∧ strict_tier (of_int 25) (params_M FULL_AI) rising_bar_adx15 = false.
Proof. by vm_compute. Qed.

(** C1, amended: when the entry classifier is enabled (mode FULL_AI or
    NO_VOLATILITY_FILTER), every position that a run opens is opened on a
    row with high > sma, rsi < rsi_overbought, macd > macdsignal,
    stoch_k > stoch_d and adx above the floor of the variant: 10 in
    [MaximizePnLBot], where the strict tier keeps the floor of the relaxed
    one, and 25 in [AdvancedDCBot]. *)
Theorem C1_strict_tier_gates_entries {F : Type} `{!PyFloat F} :
  (∀ (df : list (Row F)) params n self evs i,
     mode params ∈ [FULL_AI; NO_VOLATILITY_FILTER] →
     MaximizePnLBot.after n df params = Ok (self, evs) →
     Entry i ∈ evs →
     ∃ row, df !! i = Some row ∧ strict_tier (of_int 10) params row = true)
  ∧ (∀ (row0 : Row F) rest params n self l evs i,
       mode params ∈ [FULL_AI; NO_VOLATILITY_FILTER] →
       AdvancedDCBot.after n row0 rest params = Ok (self, l, evs) →
       Entry i ∈ evs →
       ∃ row, (row0 :: rest) !! i = Some row
              ∧ strict_tier (of_int 25) params row = true).
Proof.
  split.
  - intros df params n self evs i Hmode Haft Hi.
    destruct (M_entries_pass _ _ _ _ _ _ Haft Hi) as (row & Hrow & Hpass).
    rewrite bool_decide_eq_true_2 in Hpass by done. eauto.
  - intros row0 rest params n self l evs i Hmode Haft Hi.
    destruct (A_entries_pass _ _ _ _ _ _ _ _ Haft Hi) as (row & Hrow & Hpass).
    rewrite bool_decide_eq_true_2 in Hpass by done. eauto.
Qed.

Lemma C1_strict_tier_gates_entries_witness :
  (∃ row, [flat_bar; rising_bar_adx15] !! 1%nat = Some row
          ∧ strict_tier (of_int 10) (params_M FULL_AI) row = true)
  ∧ (∃ row, (flat_bar :: [rising_bar]) !! 1%nat = Some row
            ∧ strict_tier (of_int 25) (params_A FULL_AI) row = true).
Proof.
  split.
  - destruct (Result_snd_inv _ _ M_sample_adx15) as [self E].
    apply (proj1 C1_strict_tier_gates_entries
             [flat_bar; rising_bar_adx15] (params_M FULL_AI) 2%nat self
             [Entry 1]); [set_solver|exact E|set_solver].
  - destruct (Result_snd_inv _ _ A_sample_rising) as [[self l] E].
    apply (proj2 C1_strict_tier_gates_entries
             flat_bar [rising_bar] (params_A FULL_AI) 2%nat self l
             [Entry 1]); [set_solver|exact E|set_solver].
Defined.

(** ** C2: the volatility gate *)

Section Gate.
Context {F : Type} `{!PyFloat F}.

Lemma M_flags_of_mode (df0 : list (Row F)) params0 n self evs :
  MaximizePnLBot.after n df0 params0 = Ok (self, evs) →
  MaximizePnLBot.params self = params0
  ∧ MaximizePnLBot.use_volatility_filter self
    = bool_decide (mode params0 ∈ [FULL_AI; NO_CLASSIFIER])
  ∧ MaximizePnLBot.use_classifier self
    = bool_decide (mode params0 ∈ [FULL_AI; NO_VOLATILITY_FILTER]).
Proof. by intros [_ ? ? ? _ _ _ _]%M_after_Inv. Qed.

Lemma A_flags_of_mode (row0 : Row F) rest params0 n self l evs :
  AdvancedDCBot.after n row0 rest params0 = Ok (self, l, evs) →
  AdvancedDCBot.params self = params0
  ∧ AdvancedDCBot.use_volatility_filter self
    = bool_decide (mode params0 ∈ [FULL_AI; NO_CLASSIFIER])
  ∧ AdvancedDCBot.use_classifier self
    = bool_decide (mode params0 ∈ [FULL_AI; NO_VOLATILITY_FILTER]).
Proof. by intros [_ ? ? ? _ _ _ _]%A_after_Inv. Qed.

(** [MaximizePnLBot]: a row above the threshold is skipped. *)
Lemma M_loop_body_gated i row (self : MaximizePnLBot.Bot F) :
  MaximizePnLBot.gated self row = true →
  MaximizePnLBot.loop_body i row self
  = Ok (MaximizePnLBot.set_is_trading_paused true self, []).
Proof.
  unfold MaximizePnLBot.gated, MaximizePnLBot.loop_body.
  intros [-> ->]%andb_true_iff. done.
Qed.

(** [MaximizePnLBot]: below the threshold, the filter clears the flag
    and nothing sets it again. *)
Lemma M_loop_body_unpaused i row (self self' : MaximizePnLBot.Bot F) ev :
  MaximizePnLBot.use_volatility_filter self = true →
  (atr row >? volatility_threshold (MaximizePnLBot.params self))%py = false →
  MaximizePnLBot.loop_body i row self = Ok (self', ev) →
  MaximizePnLBot.is_trading_paused self' = false.
Proof.
  intros Hvf Hatr H.
  unfold MaximizePnLBot.loop_body, MaximizePnLBot.trend_logic, py_div in H.
  rewrite Hvf, Hatr in H.
  repeat (case_match; simplify_eq/=); try done.
  all: match type of H with context [update_last ?f ?l] =>
         destruct (update_last f l) eqn:? end; by simplify_eq/=.
Qed.

(** [AdvancedDCBot]: on a row whose SMA is defined the filter sets the
    flag to the outcome of the test, and the rest of the iteration
    leaves it alone. *)
Lemma A_loop_body_paused i row (self self' : AdvancedDCBot.Bot F) l l' ev :
  AdvancedDCBot.use_volatility_filter self = true →
  fisnan (sma row) = false →
  AdvancedDCBot.loop_body i row self l = Ok (self', l', ev) →
  AdvancedDCBot.is_trading_paused l'
  = (atr row >? volatility_threshold (AdvancedDCBot.params self))%py.
Proof.
  intros Hvf Hsma H.
  unfold AdvancedDCBot.loop_body, AdvancedDCBot.trend_logic, py_div in H.
  rewrite Hvf, Hsma in H.
  destruct (atr row >? volatility_threshold (AdvancedDCBot.params self))%py,
    (AdvancedDCBot.is_trading_paused l) eqn:Hp; simpl in H.
  all: repeat (case_match; simplify_eq/=); done.
Qed.
End Gate.

Lemma A_sample_volatile_exit :
  snd <$> AdvancedDCBot.after 3 flat_bar [rising_bar; volatile_falling_bar]
            (params_A FULL_AI)
  = Ok [Entry 1; Exit 2].
Proof. by vm_compute. Qed.

Lemma M_sample_volatile :
  snd <$> MaximizePnLBot.after 2 [flat_bar; rising_bar; volatile_falling_bar]
            (params_M FULL_AI)
  = Ok [Entry 1].
Proof. by vm_compute. Qed.

(** C2, as stated, fails on [AdvancedDCBot]: with the volatility filter
    enabled, the third row has an ATR above the threshold and the stop of
    the Up state still closes the position on it, at the row's low. *)
Lemma C2_gate_skips_bar_counterexample :
  AdvancedDCBot.use_volatility_filter
    (AdvancedDCBot.__init__ [flat_bar; rising_bar; volatile_falling_bar]
       (params_A FULL_AI)) = true
  ∧ (atr volatile_falling_bar >? volatility_threshold (params_A FULL_AI))%py
    = true
  ∧ snd <$> AdvancedDCBot.after 2 flat_bar [rising_bar; volatile_falling_bar]
              (params_A FULL_AI)
    = Ok [Entry 1]
  ∧ snd <$> AdvancedDCBot.after 3 flat_bar [rising_bar; volatile_falling_bar]
              (params_A FULL_AI)
    = Ok [Entry 1; Exit 2]
  ∧ (λ s, AdvancedDCBot.last_extreme_price (snd (fst s)))
      <$> AdvancedDCBot.after 3 flat_bar [rising_bar; volatile_falling_bar]
            (params_A FULL_AI)
    = Ok (low volatile_falling_bar).
Proof. by vm_compute. Qed.

(** C2, amended: with the volatility filter enabled (mode FULL_AI or
    NO_CLASSIFIER), [MaximizePnLBot] answers a row whose ATR exceeds
    volatility_threshold by setting the paused flag and nothing else (no
    extremum update, no entry, no exit), and leaves the flag cleared after
    any other row.  [AdvancedDCBot], on a row whose SMA is defined, sets
    the flag when the ATR exceeds the threshold and clears it otherwise,
    and opens no position on a row that sets it; the extremum update and
    the exit of the Up state go on. *)
Theorem C2_volatility_gate {F : Type} `{!PyFloat F} :
  (∀ (df : list (Row F)) params n self evs row,
     mode params ∈ [FULL_AI; NO_CLASSIFIER] →
     MaximizePnLBot.after n df params = Ok (self, evs) →
     df !! n = Some row →
     ((atr row >? volatility_threshold params)%py = true →
      MaximizePnLBot.after (S n) df params
      = Ok (MaximizePnLBot.set_is_trading_paused true self, evs))
     ∧ ((atr row >? volatility_threshold params)%py = false →
        ∀ self' evs',
          MaximizePnLBot.after (S n) df params = Ok (self', evs') →
          MaximizePnLBot.is_trading_paused self' = false))
  ∧ (∀ (row0 : Row F) rest params n self l evs row,
       mode params ∈ [FULL_AI; NO_CLASSIFIER] →
       AdvancedDCBot.after n row0 rest params = Ok (self, l, evs) →
       (row0 :: rest) !! n = Some row →
       fisnan (sma row) = false →
       ∃ self' l' ev,
         AdvancedDCBot.after (S n) row0 rest params = Ok (self', l', evs ++ ev)
         ∧ AdvancedDCBot.is_trading_paused l'
           = (atr row >? volatility_threshold params)%py
         ∧ ((atr row >? volatility_threshold params)%py = true →
            ev = [] ∨ ev = [Exit n])).
Proof.
  split.
  - intros df params n self evs row Hmode Haft Hrow.
    destruct (M_flags_of_mode _ _ _ _ _ Haft) as (Hpar & Hvf & _).
    rewrite bool_decide_eq_true_2 in Hvf by done.
    rewrite (M_after_S _ _ _ _ _ _ Hrow Haft). split.
    + intros Hatr. rewrite M_loop_body_gated; [simpl; by rewrite app_nil_r|].
      unfold MaximizePnLBot.gated. by rewrite Hvf, Hpar, Hatr.
    + intros Hatr self' evs' H.
      destruct (MaximizePnLBot.loop_body n row self) as [[s ev]|] eqn:E;
        [|done].
      simpl in H. injection H as <- <-.
      eapply M_loop_body_unpaused; [done| |done]. by rewrite Hpar.
  - intros row0 rest params n self l evs row Hmode Haft Hrow Hsma.
    destruct (A_flags_of_mode _ _ _ _ _ _ _ Haft) as (Hpar & Hvf & _).
    rewrite bool_decide_eq_true_2 in Hvf by done.
    rewrite (A_after_S _ _ _ _ _ _ _ _ Hrow Haft).
    destruct (A_loop_body_total n row self l) as [[[self' l'] ev] E].
    rewrite E. exists self', l', ev. split; [done|].
    pose proof (A_loop_body_paused _ _ _ _ _ _ _ Hvf Hsma E) as Hp.
    rewrite Hpar in Hp. split; [done|].
    intros Hatr. rewrite Hatr in Hp.
    apply A_loop_body_shape in E as (_ & _ & _ & Hcases).
    destruct Hcases as [(-> & _)|[(-> & _ & _ & Hp' & _)|(-> & _)]];
      [by left|congruence|by right].
Qed.

Lemma C2_volatility_gate_witness :
  (∃ self evs,
     MaximizePnLBot.after 2 [flat_bar; rising_bar; volatile_falling_bar]
       (params_M FULL_AI) = Ok (self, evs)
     ∧ MaximizePnLBot.after 3 [flat_bar; rising_bar; volatile_falling_bar]
         (params_M FULL_AI)
       = Ok (MaximizePnLBot.set_is_trading_paused true self, evs))
  ∧ (∃ self' l' ev,
       AdvancedDCBot.after 2 flat_bar [rising_bar] (params_A FULL_AI)
       = Ok (self', l', [] ++ ev)
       ∧ AdvancedDCBot.is_trading_paused l'
         = (atr rising_bar >? volatility_threshold (params_A FULL_AI))%py).
Proof.
  split.
  - destruct (Result_snd_inv _ _ M_sample_volatile) as [self E].
    exists self, [Entry 1]. split; [exact E|].
    apply (proj1 C2_volatility_gate
             [flat_bar; rising_bar; volatile_falling_bar] (params_M FULL_AI)
             2%nat self [Entry 1] volatile_falling_bar);
      [set_solver|exact E|done|by vm_compute].
  - destruct (proj2 C2_volatility_gate
                flat_bar [rising_bar] (params_A FULL_AI) 1%nat
                (AdvancedDCBot.__init__ [flat_bar; rising_bar]
                   (params_A FULL_AI))
                (AdvancedDCBot.locals0 flat_bar) [] rising_bar)
      as (self' & l' & ev & E & Hp & _);
      [set_solver|by vm_compute|done|done|].
    by exists self', l', ev.
Defined.

(** ** C3: the exit of the Up state *)

Section Exit.
Context {F : Type} `{!PyFloat F}.


End Exit.

Lemma M_sample_gated_stop :
  (λ s, (MaximizePnLBot.current_trend s.1,
         MaximizePnLBot.is_position_open s.1,
         MaximizePnLBot.gated s.1 volatile_falling_bar,
         exit_signal (MaximizePnLBot.params s.1)
           (MaximizePnLBot.last_extreme s.1)
           (py_max (MaximizePnLBot.max_overshoot s.1)
              (fdiv (high volatile_falling_bar - MaximizePnLBot.entry_price s.1)%py
                 (MaximizePnLBot.entry_price s.1)))
           volatile_falling_bar))
    <$> MaximizePnLBot.after 2 [flat_bar; rising_bar; volatile_falling_bar]
          (params_M FULL_AI)
  = Ok (1%Z, true, true, true).
Proof. by vm_compute. Qed.






(** ** C4: the confirmation tier of a configuration *)

Section Entry.
Context {F : Type} `{!PyFloat F}.

(** [MaximizePnLBot]: a reversal candidate of the Down state that the
    volatility filter lets through opens a position exactly when
    [classifier_pass] holds. *)
Lemma M_loop_body_candidate i row (self self' : MaximizePnLBot.Bot F) ev :
  MaximizePnLBot.current_trend self = (-1)%Z →
  MaximizePnLBot.gated self row = false →
  (MaximizePnLBot.use_volatility_filter self = false →
   MaximizePnLBot.is_trading_paused self = false) →
  reversal_candidate (MaximizePnLBot.params self)
    (MaximizePnLBot.last_extreme self) row = true →
  MaximizePnLBot.loop_body i row self = Ok (self', ev) →
  ev = [Entry i] ↔ MaximizePnLBot.classifier_pass self row = true.
Proof.
  intros Htr Hg Hpa Hcand H. split.
  - intros ->. apply M_loop_body_shape in H as (_ & _ & _ & Hcases).
    by destruct Hcases as [(? & _)|[(_ & _ & _ & _ & ? & _)|(? & _)]].
  - intros Hpass.
    unfold MaximizePnLBot.loop_body, MaximizePnLBot.trend_logic, py_div,
      MaximizePnLBot.gated, reversal_candidate in *.
    destruct (MaximizePnLBot.use_volatility_filter self); simpl in *.
    + rewrite Hg, Htr in H. simpl in H.
      destruct (low row <? MaximizePnLBot.last_extreme self)%py; simpl in *;
        rewrite Hcand in H; simpl in H.
      all: replace (MaximizePnLBot.classifier_pass _ row)
             with true in H by done.
      all: repeat (case_match; simplify_eq/=); done.
    + rewrite Htr in H. simpl in H.
      destruct (low row <? MaximizePnLBot.last_extreme self)%py; simpl in *;
        rewrite Hcand, (Hpa eq_refl) in H; simpl in H.
      all: replace (MaximizePnLBot.classifier_pass _ row)
             with true in H by done.
      all: repeat (case_match; simplify_eq/=); done.
Qed.

(** [AdvancedDCBot]: a reversal candidate of the Down state on a row
    whose SMA is defined and whose ATR does not pause trading opens a
    position exactly when [classifier_pass] holds. *)
Lemma A_loop_body_candidate i row (self self' : AdvancedDCBot.Bot F) l l' ev :
  AdvancedDCBot.current_trend l = (-1)%Z →
  fisnan (sma row) = false →
  AdvancedDCBot.use_volatility_filter self
  && (atr row >? volatility_threshold (AdvancedDCBot.params self))%py
  = false →
  (AdvancedDCBot.use_volatility_filter self = false →
   AdvancedDCBot.is_trading_paused l = false) →
  reversal_candidate (AdvancedDCBot.params self)
    (AdvancedDCBot.last_extreme_price l) row = true →
  AdvancedDCBot.loop_body i row self l = Ok (self', l', ev) →
  ev = [Entry i] ↔ AdvancedDCBot.classifier_pass self row = true.
Proof.
  intros Htr Hsma Hg Hpa Hcand H. split.
  - intros ->. apply A_loop_body_shape in H as (_ & _ & _ & Hcases).
    by destruct Hcases as [(? & _)|[(_ & _ & _ & _ & _ & ? & _)|(? & _)]].
  - intros Hpass.
    unfold AdvancedDCBot.loop_body, AdvancedDCBot.trend_logic, py_div,
      reversal_candidate in *.
    rewrite Hsma in H.
    destruct (AdvancedDCBot.use_volatility_filter self); simpl in *.
    + rewrite Hg in H. simpl in H.
      destruct (AdvancedDCBot.is_trading_paused l) eqn:Hp; simpl in H;
        rewrite Htr in H; simpl in H.
      all: destruct (low row <? AdvancedDCBot.last_extreme_price l)%py;
        simpl in *; rewrite Hcand, ?Hp in H; simpl in H.
      all: rewrite Hpass in H.
      all: repeat (case_match; simplify_eq/=); done.
    + rewrite Htr in H. simpl in H.
      destruct (low row <? AdvancedDCBot.last_extreme_price l)%py;
        simpl in *; rewrite Hcand, (Hpa eq_refl) in H; simpl in H.
      all: rewrite Hpass in H.
      all: repeat (case_match; simplify_eq/=); done.
Qed.
End Entry.

(** C4, as stated, fails on [AdvancedDCBot]: in mode BASELINE (classifier
    disabled, volatility filter disabled) the second row is a reversal
    candidate of the Down state that fails the relaxed tier on all three
    counts (high below the SMA, rsi 80, adx 5), and it opens a position. *)
Lemma C4_relaxed_tier_counterexample :
  AdvancedDCBot.use_classifier
    (AdvancedDCBot.__init__ [flat_bar; unconfirmed_rising_bar]
       (params_A BASELINE)) = false
  ∧ (λ s, (AdvancedDCBot.current_trend s.1.2,
           reversal_candidate (params_A BASELINE)
             (AdvancedDCBot.last_extreme_price s.1.2) unconfirmed_rising_bar,
           s.2))
      <$> AdvancedDCBot.after 1 flat_bar [unconfirmed_rising_bar]
            (params_A BASELINE)
    = Ok ((-1)%Z, true, [])
  ∧ relaxed_tier (params_A BASELINE) unconfirmed_rising_bar = false
  ∧ snd <$> AdvancedDCBot.after 2 flat_bar [unconfirmed_rising_bar]
              (params_A BASELINE)
    = Ok [Entry 1].
Proof. by vm_compute. Qed.

(** C4, amended: a Down-state reversal candidate that the volatility
    filter lets through opens a position if and only if the confirmation
    of the configuration holds.  In [MaximizePnLBot] that is the relaxed
    tier ((SMA undefined, or high > SMA) and rsi < rsi_overbought and
    adx > 10) when the classifier is disabled (NO_CLASSIFIER, BASELINE)
    and the strict tier over the floor 10 when it is enabled: exactly one
    tier per configuration.  In [AdvancedDCBot] it is the strict tier over
    the floor 25 when the classifier is enabled and no condition at all
    when it is disabled. *)
Theorem C4_one_tier_per_configuration {F : Type} `{!PyFloat F} :
  (∀ (df : list (Row F)) params n self evs row self' evs',
     MaximizePnLBot.after n df params = Ok (self, evs) →
     df !! n = Some row →
     MaximizePnLBot.current_trend self = (-1)%Z →
     MaximizePnLBot.gated self row = false →
     reversal_candidate params (MaximizePnLBot.last_extreme self) row = true →
     MaximizePnLBot.after (S n) df params = Ok (self', evs') →
     evs' = evs ++ [Entry n]
     ↔ (if bool_decide (mode params ∈ [NO_CLASSIFIER; BASELINE])
        then relaxed_tier params row
        else strict_tier (of_int 10) params row) = true)
  ∧ (∀ (row0 : Row F) rest params n self l evs row self' l' evs',
       AdvancedDCBot.after n row0 rest params = Ok (self, l, evs) →
       (row0 :: rest) !! n = Some row →
       AdvancedDCBot.current_trend l = (-1)%Z →
       fisnan (sma row) = false →
       AdvancedDCBot.use_volatility_filter self
       && (atr row >? volatility_threshold params)%py = false →
       reversal_candidate params (AdvancedDCBot.last_extreme_price l) row
       = true →
       AdvancedDCBot.after (S n) row0 rest params = Ok (self', l', evs') →
       evs' = evs ++ [Entry n]
       ↔ (if bool_decide (mode params ∈ [NO_CLASSIFIER; BASELINE])
          then true
          else strict_tier (of_int 25) params row) = true).
Proof.
  assert (∀ m, bool_decide (m ∈ [FULL_AI; NO_VOLATILITY_FILTER])
               = negb (bool_decide (m ∈ [NO_CLASSIFIER; BASELINE]))) as Hmodes
    by by intros [].
  split.
  - intros df params n self evs row self' evs' Haft Hrow Htr Hg Hcand Haft'.
    pose proof (M_after_Inv _ _ _ _ _ Haft) as [_ Hpar _ Hcl _ Hpa _ _].
    rewrite (M_after_S _ _ _ _ _ _ Hrow Haft) in Haft'.
    destruct (MaximizePnLBot.loop_body n row self) as [[s ev]|] eqn:E; [|done].
    simpl in Haft'. injection Haft' as <- <-.
    rewrite <- Hpar in Hcand.
    pose proof (M_loop_body_candidate _ _ _ _ _ Htr Hg Hpa Hcand E) as Hiff.
    rewrite M_classifier_pass_eq, Hcl, Hpar, Hmodes in Hiff.
    destruct (bool_decide (mode params ∈ [NO_CLASSIFIER; BASELINE]));
      simpl in Hiff; rewrite <- Hiff;
      (split; [by intros ->%app_inv_head|by intros ->]).
  - intros row0 rest params n self l evs row self' l' evs'
      Haft Hrow Htr Hsma Hg Hcand Haft'.
    pose proof (A_after_Inv _ _ _ _ _ _ _ Haft) as [_ Hpar _ Hcl _ Hpa _ _].
    rewrite (A_after_S _ _ _ _ _ _ _ _ Hrow Haft) in Haft'.
    destruct (AdvancedDCBot.loop_body n row self l) as [[[s l1] ev]|] eqn:E;
      [|done].
    simpl in Haft'. injection Haft' as <- <- <-.
    rewrite <- Hpar in Hcand, Hg.
    pose proof (A_loop_body_candidate _ _ _ _ _ _ _ Htr Hsma Hg Hpa Hcand E)
      as Hiff.
    rewrite A_classifier_pass_eq, Hcl, Hpar, Hmodes in Hiff.
    destruct (bool_decide (mode params ∈ [NO_CLASSIFIER; BASELINE]));
      simpl in Hiff; rewrite <- Hiff;
      (split; [by intros ->%app_inv_head|by intros ->]).
Qed.

Lemma M_sample_candidate :
  (λ s, (MaximizePnLBot.current_trend s.1,
         MaximizePnLBot.gated s.1 rising_bar,
         reversal_candidate (params_M BASELINE)
           (MaximizePnLBot.last_extreme s.1) rising_bar,
         s.2))
    <$> MaximizePnLBot.after 1 [flat_bar; rising_bar] (params_M BASELINE)
  = Ok ((-1)%Z, false, true, []).
Proof. by vm_compute. Qed.

Lemma M_sample_baseline :
  snd <$> MaximizePnLBot.after 2 [flat_bar; rising_bar] (params_M BASELINE)
  = Ok [Entry 1].
Proof. by vm_compute. Qed.

Lemma A_sample_candidate :
  (λ s, (AdvancedDCBot.current_trend s.1.2,
         AdvancedDCBot.use_volatility_filter s.1.1
         && (atr unconfirmed_rising_bar
             >? volatility_threshold (params_A BASELINE))%py,
         reversal_candidate (params_A BASELINE)
           (AdvancedDCBot.last_extreme_price s.1.2) unconfirmed_rising_bar,
         s.2))
    <$> AdvancedDCBot.after 1 flat_bar [unconfirmed_rising_bar]
          (params_A BASELINE)
  = Ok ((-1)%Z, false, true, []).
Proof. by vm_compute. Qed.

Lemma A_sample_baseline :
  snd <$> AdvancedDCBot.after 2 flat_bar [unconfirmed_rising_bar]
            (params_A BASELINE)
  = Ok [Entry 1].
Proof. by vm_compute. Qed.

Lemma C4_one_tier_per_configuration_witness :
  ([Entry 1] = [] ++ [Entry 1]
   ↔ (if bool_decide (mode (params_M BASELINE) ∈ [NO_CLASSIFIER; BASELINE])
      then relaxed_tier (params_M BASELINE) rising_bar
      else strict_tier (of_int 10) (params_M BASELINE) rising_bar) = true)
  ∧ ([Entry 1] = [] ++ [Entry 1]
     ↔ (if bool_decide (mode (params_A BASELINE) ∈ [NO_CLASSIFIER; BASELINE])
        then true
        else strict_tier (of_int 25) (params_A BASELINE)
               unconfirmed_rising_bar) = true).
Proof.
  split.
  - destruct (Result_fmap_inv _ _ _ M_sample_candidate)
      as ([self evs] & E & Hs).
    cbv beta in Hs. cbn [fst snd] in Hs. injection Hs as Htr Hg Hcand ->.
    destruct (Result_snd_inv _ _ M_sample_baseline) as [self' E'].
    exact (proj1 C4_one_tier_per_configuration
             [flat_bar; rising_bar] (params_M BASELINE) 1%nat self []
             rising_bar self' [Entry 1] E eq_refl Htr Hg Hcand E').
  - destruct (Result_fmap_inv _ _ _ A_sample_candidate)
      as ([[self l] evs] & E & Hs).
    cbv beta in Hs. cbn [fst snd] in Hs. injection Hs as Htr Hg Hcand ->.
    destruct (Result_snd_inv _ _ A_sample_baseline) as [[self' l'] E'].
    exact (proj2 C4_one_tier_per_configuration
             flat_bar [unconfirmed_rising_bar] (params_A BASELINE) 1%nat
             self l [] unconfirmed_rising_bar self' l' [Entry 1] E eq_refl
             Htr eq_refl Hg Hcand E').
Defined.

(** ** C5: the forced close *)

Section ForceClose.
Context {F : Type} `{!PyFloat F}.

Lemma M_iterrows_after (df0 : list (Row F)) params0 self0 :
  MaximizePnLBot.__init__ df0 params0 = Ok self0 →
  MaximizePnLBot.iterrows 0 (MaximizePnLBot.df self0) self0
  = MaximizePnLBot.after (length df0) df0 params0.
Proof.
  intros Hinit. unfold MaximizePnLBot.after. rewrite Hinit. simpl.
  rewrite firstn_all. destruct df0; [done|]. by injection Hinit as <-.
Qed.

Lemma A_iterrows_after (row0 : Row F) rest params0 :
  AdvancedDCBot.iterrows 0 (row0 :: rest)
    (AdvancedDCBot.__init__ (row0 :: rest) params0)
    (AdvancedDCBot.locals0 row0)
  = AdvancedDCBot.after (length (row0 :: rest)) row0 rest params0.
Proof. unfold AdvancedDCBot.after. by rewrite firstn_all. Qed.

Lemma last_cons_is_Some {A} (x : A) l : ∃ y, last (x :: l) = Some y.
Proof.
  revert x. induction l as [|z l IH]; intros x; simpl; [eauto|].
  apply (IH z).
Qed.

(** What the lines after the loop of [MaximizePnLBot] do to a bot that
    satisfies the invariant. *)
Lemma M_force_close_spec (df0 : list (Row F)) params0 self evs :
  df0 ≠ [] →
  M_Inv df0 params0 self evs →
  if MaximizePnLBot.is_position_open self then
    ∃ row ts i0 self',
      last df0 = Some row
      ∧ MaximizePnLBot.trades self
        = ts ++ [MaximizePnLBot.opened i0 (MaximizePnLBot.entry_price self)]
      ∧ MaximizePnLBot.force_close self = Ok (self', [ForceClose])
      ∧ MaximizePnLBot.total_pnl self'
        = (MaximizePnLBot.total_pnl self
           + (close row - MaximizePnLBot.entry_price self)
             * volume params0)%py
      ∧ MaximizePnLBot.trades self'
        = ts ++ [MaximizePnLBot.closing params0
                   (Z.of_nat (length df0) - 1)
                   (MaximizePnLBot.entry_price self) (close row)
                   (MaximizePnLBot.opened i0
                      (MaximizePnLBot.entry_price self))]
      ∧ M_Inv df0 params0
          (MaximizePnLBot.set_is_position_open false
             (MaximizePnLBot.set_current_trend (-1) self'))
          (evs ++ [ForceClose])
  else MaximizePnLBot.force_close self = Ok (self, []).
Proof.
  intros Hne [Hdf Hpar Hvf Hcl Htr Hpa Hev (ts & Hts & Htot & Hled)].
  unfold MaximizePnLBot.force_close.
  destruct (MaximizePnLBot.is_position_open self) eqn:Hop; [|done].
  destruct Hled as [i0 Hled].
  assert (∃ row, last df0 = Some row) as [row Hrow].
  { destruct df0 as [|r df0]; [done|apply last_cons_is_Some]. }
  subst df0 params0.
  exists row, ts, i0. unfold iloc_last. rewrite Hrow. simpl.
  rewrite Hled, update_last_snoc. simpl.
  eexists. split_and!; try done.
  split; simpl; try done.
  - by rewrite open_after_app, Hev.
  - exists (ts ++ [MaximizePnLBot.closing (MaximizePnLBot.params self)
                     (Z.of_nat (length (MaximizePnLBot.df self)) - 1)
                     (MaximizePnLBot.entry_price self) (close row)
                     (MaximizePnLBot.opened i0
                        (MaximizePnLBot.entry_price self))]).
    split_and!; [| |done].
    + apply Forall_app. split; [done|]. apply Forall_singleton.
      by eexists _, _, _, _.
    + by rewrite ledger_pnl_snoc, M_closing_pnl, Htot.
Qed.

(** The same for [AdvancedDCBot]. *)
Lemma A_force_close_spec (df0 : list (Row F)) params0 self l evs :
  df0 ≠ [] →
  A_Inv df0 params0 self l evs →
  if AdvancedDCBot.is_position_open l then
    ∃ row d0 self' l',
      last df0 = Some row
      ∧ AdvancedDCBot.trade l
        = AdvancedDCBot.opened d0 (AdvancedDCBot.entry_price l)
      ∧ AdvancedDCBot.force_close self l = Ok (self', l', [ForceClose])
      ∧ AdvancedDCBot.total_pnl self'
        = (AdvancedDCBot.total_pnl self
           + (close row - AdvancedDCBot.entry_price l) * volume params0)%py
      ∧ AdvancedDCBot.trades self'
        = AdvancedDCBot.trades self
          ++ [AdvancedDCBot.closing params0 (date row)
                (AdvancedDCBot.entry_price l) (close row)
                (AdvancedDCBot.opened d0 (AdvancedDCBot.entry_price l))]
      ∧ A_Inv df0 params0 self'
          (AdvancedDCBot.set_is_position_open false
             (AdvancedDCBot.set_current_trend (-1) l'))
          (evs ++ [ForceClose])
  else AdvancedDCBot.force_close self l = Ok (self, l, []).
Proof.
  intros Hne [Hdf Hpar Hvf Hcl Htr Hpa Hev (Hts & Htot & Hled)].
  unfold AdvancedDCBot.force_close.
  destruct (AdvancedDCBot.is_position_open l) eqn:Hop; [|done].
  destruct (Hled eq_refl) as [d0 Hd0].
  assert (∃ row, last df0 = Some row) as [row Hrow].
  { destruct df0 as [|r df0]; [done|apply last_cons_is_Some]. }
  subst df0 params0.
  exists row, d0. unfold iloc_last. rewrite Hrow. simpl.
  rewrite Hrow. simpl.
  eexists _, _. split_and!; try done.
  - by rewrite Hd0.
  - split; simpl; try done.
    + by rewrite open_after_app, Hev.
    + split_and!; [| |done].
      * apply Forall_app. split; [done|]. apply Forall_singleton.
        rewrite Hd0. by eexists _, _, _, _.
      * rewrite ledger_pnl_snoc, Htot. f_equal. symmetry.
        apply (A_closing_pnl _ (date row)).
Qed.

Lemma M_init_nonempty (df0 : list (Row F)) params0 self0 :
  MaximizePnLBot.__init__ df0 params0 = Ok self0 → df0 ≠ [].
Proof. by destruct df0. Qed.

(** The ledger and the total that a run of [MaximizePnLBot] leaves. *)
Lemma M_run_spec (df0 : list (Row F)) params0 self0 self' evs' :
  MaximizePnLBot.__init__ df0 params0 = Ok self0 →
  MaximizePnLBot.run self0 = Ok (self', evs') →
  Forall (MaximizePnLBot.closed_trade params0) (MaximizePnLBot.trades self')
  ∧ MaximizePnLBot.total_pnl self'
    = ledger_pnl (MaximizePnLBot.trades self')
  ∧ open_after false evs' = Some false.
Proof.
  intros Hinit Hrun. unfold MaximizePnLBot.run in Hrun.
  rewrite (M_iterrows_after _ _ _ Hinit) in Hrun.
  destruct (MaximizePnLBot.after _ df0 params0) as [[self evs]|] eqn:E;
    [|done].
  simpl in Hrun.
  pose proof (M_force_close_spec _ _ _ _ (M_init_nonempty _ _ _ Hinit)
                (M_after_Inv _ _ _ _ _ E)) as Hfc.
  destruct (MaximizePnLBot.is_position_open self) eqn:Hop.
  - destruct Hfc as (row & ts & i0 & s & _ & _ & Hfc & _ & _ & HI).
    rewrite Hfc in Hrun. simpl in Hrun. injection Hrun as <- <-.
    destruct HI as [_ _ _ _ _ _ Hev (ts' & Hts' & Htot' & Hled')].
    simpl in *. by subst.
  - rewrite Hfc in Hrun. simpl in Hrun. injection Hrun as <- <-.
    destruct (M_after_Inv _ _ _ _ _ E)
      as [_ _ _ _ _ _ Hev (ts' & Hts' & Htot' & Hled')].
    rewrite Hop in *. rewrite app_nil_r. by subst.
Qed.

(** The ledger and the total that a run of [AdvancedDCBot] leaves; the
    run never raises. *)
Lemma A_run_spec (row0 : Row F) rest params0 :
  ∃ self' l' evs',
    AdvancedDCBot.run (AdvancedDCBot.__init__ (row0 :: rest) params0) row0
    = Ok (self', l', evs')
    ∧ Forall (AdvancedDCBot.closed_trade params0)
        (AdvancedDCBot.trades self')
    ∧ AdvancedDCBot.total_pnl self'
      = ledger_pnl (AdvancedDCBot.trades self')
    ∧ open_after false evs' = Some false.
Proof.
  unfold AdvancedDCBot.run.
  change (AdvancedDCBot.df (AdvancedDCBot.__init__ (row0 :: rest) params0))
    with (row0 :: rest).
  rewrite A_iterrows_after.
  destruct (A_after_total (length (row0 :: rest)) row0 rest params0)
    as [[[self l] evs] E].
  rewrite E. simpl.
  pose proof (A_force_close_spec (row0 :: rest) _ _ _ _ ltac:(done)
                (A_after_Inv _ _ _ _ _ _ _ E)) as Hfc.
  destruct (AdvancedDCBot.is_position_open l) eqn:Hop.
  - destruct Hfc as (row & d0 & s & l' & _ & _ & Hfc & _ & _ & HI).
    rewrite Hfc. simpl. eexists _, _, _. split; [done|].
    by destruct HI as [_ _ _ _ _ _ Hev (Hts' & Htot' & _)].
  - rewrite Hfc. simpl. eexists _, _, _. split; [done|].
    destruct (A_after_Inv _ _ _ _ _ _ _ E)
      as [_ _ _ _ _ _ Hev (Hts' & Htot' & _)].
    rewrite Hop in Hev. by rewrite app_nil_r.
Qed.
End ForceClose.

(** C5, as stated, fails on both engines: no trade record carries a flag.
    Two runs of [MaximizePnLBot] that differ in the ATR of the last row
    only, one closed by force (the row is skipped by the volatility
    filter) and one closed by the trailing stop on that row, return the
    same total and the same ledger; and the one trade of a run of
    [AdvancedDCBot] that ends with a forced close has the keys of any
    other closed trade. *)
Lemma C5_forced_flag_counterexample :
  M_trace [flat_bar; rising_bar; volatile_falling_bar] (params_M FULL_AI)
  = Ok [Entry 1; ForceClose]
  ∧ M_trace [flat_bar; rising_bar; falling_bar] (params_M FULL_AI)
    = Ok [Entry 1; Exit 2]
  ∧ M_backtest [flat_bar; rising_bar; volatile_falling_bar] (params_M FULL_AI)
    = M_backtest [flat_bar; rising_bar; falling_bar] (params_M FULL_AI)
  ∧ trade_keys
      (M_backtest [flat_bar; rising_bar; volatile_falling_bar]
         (params_M FULL_AI))
    = Ok [ {[ "entry_price"; "entry_idx"; "exit_price"; "pnl"; "exit_idx" ]} ]
  ∧ A_trace flat_bar [rising_bar; holding_bar] (params_A FULL_AI)
    = Ok [Entry 1; ForceClose]
  ∧ trade_keys
      (A_backtest [flat_bar; rising_bar; holding_bar] (params_A FULL_AI))
    = Ok [ {[ "entry_date"; "entry_price"; "pnl"; "exit_date";
              "exit_price" ]} ].
Proof. repeat split; vm_compute; reflexivity. Qed.

(** C5, amended: after the last bar of every run, a position that is
    still open is closed at the final bar's close price with
    pnl = (final close - entry_price) * volume, which is added to the
    total, and the trade record receives exit_price, pnl and the exit
    index (the exit date in [AdvancedDCBot]), the same keys as on a signal
    exit; no flag marks the close as forced. *)
Theorem C5_forced_close {F : Type} `{!PyFloat F} :
  (∀ (df : list (Row F)) params self0 self evs,
     MaximizePnLBot.__init__ df params = Ok self0 →
     MaximizePnLBot.iterrows 0 df self0 = Ok (self, evs) →
     MaximizePnLBot.is_position_open self = true →
     let entry_price := MaximizePnLBot.entry_price self in
     ∃ row ts i0 self' t,
       last df = Some row
       ∧ MaximizePnLBot.trades self
         = ts ++ [MaximizePnLBot.opened i0 entry_price]
       ∧ MaximizePnLBot.run self0 = Ok (self', evs ++ [ForceClose])
       ∧ MaximizePnLBot.total_pnl self'
         = (MaximizePnLBot.total_pnl self
            + (close row - entry_price) * volume params)%py
       ∧ MaximizePnLBot.trades self' = ts ++ [t]
       ∧ t = MaximizePnLBot.closing params (Z.of_nat (length df) - 1)
               entry_price (close row)
               (MaximizePnLBot.opened i0 entry_price)
       ∧ dom t
         = {[ "entry_price"; "entry_idx"; "exit_price"; "pnl"; "exit_idx" ]})
  ∧ (∀ (row0 : Row F) rest params self l evs,
       AdvancedDCBot.iterrows 0 (row0 :: rest)
         (AdvancedDCBot.__init__ (row0 :: rest) params)
         (AdvancedDCBot.locals0 row0) = Ok (self, l, evs) →
       AdvancedDCBot.is_position_open l = true →
       let entry_price := AdvancedDCBot.entry_price l in
       ∃ row d0 self' l' t,
         last (row0 :: rest) = Some row
         ∧ AdvancedDCBot.trade l = AdvancedDCBot.opened d0 entry_price
         ∧ AdvancedDCBot.run (AdvancedDCBot.__init__ (row0 :: rest) params)
             row0 = Ok (self', l', evs ++ [ForceClose])
         ∧ AdvancedDCBot.total_pnl self'
           = (AdvancedDCBot.total_pnl self
              + (close row - entry_price) * volume params)%py
         ∧ AdvancedDCBot.trades self' = AdvancedDCBot.trades self ++ [t]
         ∧ t = AdvancedDCBot.closing params (date row) entry_price (close row)
                 (AdvancedDCBot.opened d0 entry_price)
         ∧ dom t
           = {[ "entry_date"; "entry_price"; "pnl"; "exit_date";
                "exit_price" ]}).
Proof.
  split.
  - intros df params self0 self evs Hinit Hloop Hop e.
    assert (MaximizePnLBot.df self0 = df) as Hdf.
    { destruct df; [done|]. by injection Hinit as <-. }
    rewrite <- Hdf in Hloop at 1.
    pose proof Hloop as Haft. rewrite (M_iterrows_after _ _ _ Hinit) in Haft.
    pose proof (M_force_close_spec _ _ _ _ (M_init_nonempty _ _ _ Hinit)
                  (M_after_Inv _ _ _ _ _ Haft)) as Hfc.
    rewrite Hop in Hfc.
    destruct Hfc as (row & ts & i0 & self' & Hrow & Hts & Hfc & Htot & Htrd & _).
    exists row, ts, i0, self'. eexists.
    split; [exact Hrow|]. split; [exact Hts|]. split.
    { unfold MaximizePnLBot.run. rewrite Hloop. simpl. by rewrite Hfc. }
    split; [exact Htot|]. split; [exact Htrd|]. split; [reflexivity|].
    apply (M_closed_trade_dom params). by eexists _, _, _, _.
  - intros row0 rest params self l evs Hloop Hop e.
    pose proof Hloop as Haft. rewrite A_iterrows_after in Haft.
    pose proof (A_force_close_spec (row0 :: rest) _ _ _ _ ltac:(done)
                  (A_after_Inv _ _ _ _ _ _ _ Haft)) as Hfc.
    rewrite Hop in Hfc.
    destruct Hfc as (row & d0 & self' & l' & Hrow & Hd0 & Hfc & Htot & Htrd & _).
    exists row, d0, self', l'. eexists.
    split; [exact Hrow|]. split; [exact Hd0|]. split.
    { unfold AdvancedDCBot.run.
      change (AdvancedDCBot.df (AdvancedDCBot.__init__ (row0 :: rest) params))
        with (row0 :: rest).
      rewrite Hloop. simpl. by rewrite Hfc. }
    split; [exact Htot|]. split; [exact Htrd|]. split; [reflexivity|].
    apply (A_closed_trade_dom params). by eexists _, _, _, _.
Qed.

Lemma M_sample_forced :
  MaximizePnLBot.__init__ [flat_bar; rising_bar; volatile_falling_bar]
    (params_M FULL_AI)
  ≫= (λ self0,
        (λ s, (MaximizePnLBot.is_position_open s.1, s.2))
          <$> MaximizePnLBot.iterrows 0
                [flat_bar; rising_bar; volatile_falling_bar] self0)
  = Ok (true, [Entry 1]).
Proof. vm_compute. reflexivity. Qed.

Lemma A_sample_forced :
  (λ s, (AdvancedDCBot.is_position_open s.1.2, s.2))
    <$> AdvancedDCBot.iterrows 0 [flat_bar; rising_bar; holding_bar]
          (AdvancedDCBot.__init__ [flat_bar; rising_bar; holding_bar]
             (params_A FULL_AI))
          (AdvancedDCBot.locals0 flat_bar)
  = Ok (true, [Entry 1]).
Proof. vm_compute. reflexivity. Qed.

Lemma C5_forced_close_witness :
  (∃ self0 self',
     MaximizePnLBot.__init__ [flat_bar; rising_bar; volatile_falling_bar]
       (params_M FULL_AI) = Ok self0
     ∧ MaximizePnLBot.run self0 = Ok (self', [Entry 1] ++ [ForceClose]))
  ∧ (∃ self' l',
       AdvancedDCBot.run
         (AdvancedDCBot.__init__ [flat_bar; rising_bar; holding_bar]
            (params_A FULL_AI)) flat_bar
       = Ok (self', l', [Entry 1] ++ [ForceClose])).
Proof.
  split.
  - destruct (Result_bind_inv _ _ _ M_sample_forced) as (self0 & Hinit & Hs).
    destruct (Result_fmap_inv _ _ _ Hs) as ([self evs] & Hloop & Hs').
    cbv beta in Hs'. cbn [fst snd] in Hs'. injection Hs' as Hop ->.
    destruct (proj1 C5_forced_close _ _ self0 self [Entry 1] Hinit Hloop Hop)
      as (row & ts & i0 & self' & t & _ & _ & Hrun & _).
    exists self0, self'. split; [exact Hinit|exact Hrun].
  - destruct (Result_fmap_inv _ _ _ A_sample_forced)
      as ([[self l] evs] & Hloop & Hs').
    cbv beta in Hs'. cbn [fst snd] in Hs'. injection Hs' as Hop ->.
    destruct (proj2 C5_forced_close _ _ _ self l [Entry 1] Hloop Hop)
      as (row & d0 & self' & l' & t & _ & _ & Hrun & _).
    exists self', l'. exact Hrun.
Defined.

(** ** C6: at most one open position *)

Lemma open_after_true_closes evs o' b j :
  open_after true evs = Some o' →
  evs !! b = Some (Entry j) →
  ∃ e, 0 < b ∧ evs !! 0 = Some e ∧ closes e.
Proof.
  destruct evs as [|e evs]; [done|]. destruct e as [i|k|]; [done|..].
  - intros _ Hb. exists (Exit k). destruct b; [done|].
    split_and!; [lia|done|right; eauto].
  - intros _ Hb. exists ForceClose. destruct b; [done|].
    split_and!; [lia|done|by left].
Qed.

(** A trace that [open_after] accepts has a closing event between any two
    entries. *)
Lemma open_after_no_double_entry evs : ∀ o o',
  open_after o evs = Some o' → no_double_entry evs.
Proof.
  induction evs as [|e evs IH]; intros o o' Hoa a b i j Hab Ha Hb.
  { done. }
  destruct b as [|b]; [lia|]. destruct a as [|a].
  - simpl in Ha. injection Ha as ->. destruct o; [done|]. simpl in Hoa, Hb.
    destruct (open_after_true_closes _ _ _ _ Hoa Hb) as (e & Hpos & He & Hc).
    exists 1, e. split_and!; [lia|lia|done|done].
  - simpl in Ha, Hb.
    assert (∃ o1, open_after o1 evs = Some o') as [o1 Ho1].
    { destruct e, o; simpl in Hoa; try done; eauto. }
    destruct (IH _ _ Ho1 a b i j ltac:(lia) Ha Hb) as (c & e' & Hc & He' & Hcl).
    exists (S c), e'. split_and!; [lia|lia|done|done].
Qed.

(** C6: for every bar sequence and configuration, at any point of the run
    at most one position is open: the trace of entries and exits
    alternates, starting with an entry, so no two entries occur without a
    closing event (a signal exit or the forced close) between them; and
    every trade of the ledger is closed except, in [MaximizePnLBot], the
    last one while the position is open ([AdvancedDCBot] appends a trade
    only when it closes).  After the run no open trade is left. *)
Theorem C6_single_position {F : Type} `{!PyFloat F} :
  (∀ (df : list (Row F)) params n self evs,
     MaximizePnLBot.after n df params = Ok (self, evs) →
     open_after false evs = Some (MaximizePnLBot.is_position_open self)
     ∧ no_double_entry evs
     ∧ ∃ ts, Forall (closed params) ts
             ∧ if MaximizePnLBot.is_position_open self
               then ∃ i, MaximizePnLBot.trades self
                         = ts ++ [MaximizePnLBot.opened i
                                    (MaximizePnLBot.entry_price self)]
               else MaximizePnLBot.trades self = ts)
  ∧ (∀ (df : list (Row F)) params self0 self' evs',
       MaximizePnLBot.__init__ df params = Ok self0 →
       MaximizePnLBot.run self0 = Ok (self', evs') →
       open_after false evs' = Some false
       ∧ no_double_entry evs'
       ∧ Forall (closed params) (MaximizePnLBot.trades self'))
  ∧ (∀ (row0 : Row F) rest params n self l evs,
       AdvancedDCBot.after n row0 rest params = Ok (self, l, evs) →
       open_after false evs = Some (AdvancedDCBot.is_position_open l)
       ∧ no_double_entry evs
       ∧ Forall (closed params) (AdvancedDCBot.trades self))
  ∧ (∀ (row0 : Row F) rest params,
       ∃ self' l' evs',
         AdvancedDCBot.run (AdvancedDCBot.__init__ (row0 :: rest) params) row0
         = Ok (self', l', evs')
         ∧ open_after false evs' = Some false
         ∧ no_double_entry evs'
         ∧ Forall (closed params) (AdvancedDCBot.trades self')).
Proof.
  split_and!.
  - intros df params n self evs Haft.
    destruct (M_after_Inv _ _ _ _ _ Haft)
      as [_ _ _ _ _ _ Hev (ts & Hts & _ & Hled)].
    split_and!; [done|by eapply open_after_no_double_entry|].
    exists ts. split; [|done].
    eapply Forall_impl; [done|]. apply M_closed_trade_closed.
  - intros df params self0 self' evs' Hinit Hrun.
    destruct (M_run_spec _ _ _ _ _ Hinit Hrun) as (Hts & _ & Hev).
    split_and!; [done|by eapply open_after_no_double_entry|].
    eapply Forall_impl; [done|]. apply M_closed_trade_closed.
  - intros row0 rest params n self l evs Haft.
    destruct (A_after_Inv _ _ _ _ _ _ _ Haft)
      as [_ _ _ _ _ _ Hev (Hts & _ & _)].
    split_and!; [done|by eapply open_after_no_double_entry|].
    eapply Forall_impl; [done|]. apply A_closed_trade_closed.
  - intros row0 rest params.
    destruct (A_run_spec row0 rest params)
      as (self' & l' & evs' & Hrun & Hts & _ & Hev).
    exists self', l', evs'.
    split_and!; [done|done|by eapply open_after_no_double_entry|].
    eapply Forall_impl; [done|]. apply A_closed_trade_closed.
Qed.

Lemma M_sample_round_trip :
  snd <$> MaximizePnLBot.after 3 [flat_bar; rising_bar; falling_bar]
            (params_M FULL_AI)
  = Ok [Entry 1; Exit 2].
Proof. by vm_compute. Qed.

Lemma C6_single_position_witness :
  (open_after false [Entry 1; Exit 2] = Some false
   ∧ no_double_entry [Entry 1; Exit 2])
  ∧ (open_after false [Entry 1; Exit 2] = Some false
     ∧ no_double_entry [Entry 1; Exit 2]).
Proof.
  split.
  - destruct (Result_snd_inv _ _ M_sample_round_trip) as [self E].
    destruct (proj1 C6_single_position _ _ _ _ _ E) as (Hev & Hnd & _).
    split; [|exact Hnd]. reflexivity.
  - destruct (Result_snd_inv _ _ A_sample_volatile_exit) as [[self l] E].
    destruct (proj1 (proj2 (proj2 C6_single_position)) _ _ _ _ _ _ _ E)
      as (Hev & Hnd & _).
    split; [|exact Hnd]. reflexivity.
Defined.

(** ** C7: the total and the ledger *)

Section Returns.
Context {F : Type} `{!PyFloat F}.

(** On a non-empty frame without zero prices, [MaximizePnLBot] is built
    and its [run_backtest] returns. *)
Lemma M_run_backtest_total (df : list (Row F)) params :
  df ≠ [] → nonzero_prices df →
  ∃ self0 r,
    MaximizePnLBot.__init__ df params = Ok self0
    ∧ MaximizePnLBot.run_backtest self0 = Ok r.
Proof.
  intros Hne Hnz.
  destruct (MaximizePnLBot.__init__ df params) as [self0|] eqn:Hinit;
    [|by destruct df].
  exists self0.
  destruct (M_after_total (length df) df params Hne Hnz) as [[self evs] E].
  unfold MaximizePnLBot.run_backtest, MaximizePnLBot.run.
  rewrite (M_iterrows_after _ _ _ Hinit), E. simpl.
  pose proof (M_force_close_spec _ _ _ _ Hne (M_after_Inv _ _ _ _ _ E))
    as Hfc.
  destruct (MaximizePnLBot.is_position_open self).
  - destruct Hfc as (row & ts & i0 & self' & _ & _ & -> & _). simpl. eauto.
  - rewrite Hfc. simpl. eauto.
Qed.
End Returns.

(** C7: the total PnL that [run_backtest] returns is the sum of the pnl of
    the trades of the ledger it returns, added up from 0 in ledger order,
    and every trade of that ledger is closed, with
    pnl = (exit_price - entry_price) * volume; so no open trade is left in
    the ledger.  [AdvancedDCBot.run_backtest] returns on every frame;
    [MaximizePnLBot.run_backtest] returns on every non-empty frame without
    a zero high or low (on others see C8 and C9). *)
Theorem C7_total_is_sum_of_closed_trades {F : Type} `{!PyFloat F} :
  (∀ (df : list (Row F)) params self0 total ts,
     MaximizePnLBot.__init__ df params = Ok self0 →
     MaximizePnLBot.run_backtest self0 = Ok (total, ts) →
     total = ledger_pnl ts ∧ Forall (closed params) ts)
  ∧ (∀ (df : list (Row F)) params,
       df ≠ [] → nonzero_prices df →
       ∃ self0 total ts,
         MaximizePnLBot.__init__ df params = Ok self0
         ∧ MaximizePnLBot.run_backtest self0 = Ok (total, ts))
  ∧ (∀ (df : list (Row F)) params,
       ∃ total ts,
         AdvancedDCBot.run_backtest (AdvancedDCBot.__init__ df params)
         = Ok (total, ts)
         ∧ total = ledger_pnl ts ∧ Forall (closed params) ts).
Proof.
  split_and!.
  - intros df params self0 total ts Hinit Hrun.
    unfold MaximizePnLBot.run_backtest in Hrun.
    destruct (MaximizePnLBot.run self0) as [[self' evs']|] eqn:E; [|done].
    simpl in Hrun. injection Hrun as <- <-.
    destruct (M_run_spec _ _ _ _ _ Hinit E) as (Hts & Htot & _).
    split; [done|]. eapply Forall_impl; [done|]. apply M_closed_trade_closed.
  - intros df params Hne Hnz.
    destruct (M_run_backtest_total df params Hne Hnz)
      as (self0 & [total ts] & Hinit & Hrun).
    by exists self0, total, ts.
  - intros [|row0 rest] params.
    + exists (of_int 0), []. by split_and!.
    + destruct (A_run_spec row0 rest params)
        as (self' & l' & evs' & Hrun & Hts & Htot & _).
      exists (AdvancedDCBot.total_pnl self'), (AdvancedDCBot.trades self').
      unfold AdvancedDCBot.run_backtest.
      change (AdvancedDCBot.df (AdvancedDCBot.__init__ (row0 :: rest) params))
        with (row0 :: rest).
      cbv iota. rewrite Hrun. split_and!; [done|done|].
      eapply Forall_impl; [done|]. apply A_closed_trade_closed.
Qed.

Lemma M_sample_backtest :
  fst <$> (MaximizePnLBot.__init__ [flat_bar; rising_bar; falling_bar]
             (params_M FULL_AI) ≫= MaximizePnLBot.run_backtest)
  = Ok ((0 + (0.9 - 1.01) * 10000)%float).
Proof. vm_compute. reflexivity. Qed.

Lemma C7_total_is_sum_of_closed_trades_witness :
  (∃ ts : list (Trade float),
     ((0 + (0.9 - 1.01) * 10000)%float : float) = ledger_pnl ts
     ∧ Forall (closed (params_M FULL_AI)) ts)
  ∧ (∃ self0 total ts,
       MaximizePnLBot.__init__ [flat_bar; rising_bar; falling_bar]
         (params_M FULL_AI) = Ok self0
       ∧ MaximizePnLBot.run_backtest self0 = Ok (total, ts)).
Proof.
  split.
  - destruct (Result_fmap_inv _ _ _ M_sample_backtest) as ([total ts] & E & Ht).
    cbn [fst] in Ht. subst total.
    destruct (Result_bind_inv _ _ _ E) as (self0 & Hinit & Hrun).
    exists ts.
    exact (proj1 C7_total_is_sum_of_closed_trades _ _ self0 _ ts Hinit Hrun).
  - apply (proj1 (proj2 C7_total_is_sum_of_closed_trades)
             [flat_bar; rising_bar; falling_bar] (params_M FULL_AI)).
    + discriminate.
    + repeat (apply Forall_cons; split; [split; vm_compute; reflexivity|]).
      apply Forall_nil_2.
Defined.

(** ** C8: guarded divisions *)

Section Guards.
Context {F : Type} `{!PyFloat F}.

(** [AdvancedDCBot.run_backtest] raises on no frame: both of its
    quotients are guarded. *)
Lemma A_run_backtest_total (df : list (Row F)) params :
  ∃ r, AdvancedDCBot.run_backtest (AdvancedDCBot.__init__ df params) = Ok r.
Proof.
  destruct df as [|row0 rest]; [by eexists|].
  destruct (A_run_spec row0 rest params) as (self' & l' & evs' & Hrun & _).
  unfold AdvancedDCBot.run_backtest.
  change (AdvancedDCBot.df (AdvancedDCBot.__init__ (row0 :: rest) params))
    with (row0 :: rest).
  cbv iota. rewrite Hrun. by eexists.
Qed.

(** [MaximizePnLBot]: an entry on an extremum of 0 raises. *)
Lemma M_entry_on_zero_extremum i row (self : MaximizePnLBot.Bot F) :
  MaximizePnLBot.current_trend self = (-1)%Z →
  MaximizePnLBot.gated self row = false →
  MaximizePnLBot.is_trading_paused self = false →
  (low row <? MaximizePnLBot.last_extreme self)%py = true →
  (low row ==? of_int 0)%py = true →
  reversal_candidate (MaximizePnLBot.params self)
    (MaximizePnLBot.last_extreme self) row = true →
  MaximizePnLBot.classifier_pass self row = true →
  MaximizePnLBot.loop_body i row self = Raise ZeroDivisionError.
Proof.
  unfold MaximizePnLBot.gated, reversal_candidate.
  intros Htr Hg Hpa Hlow Hz Hcand Hpass. rewrite Hlow in Hcand.
  unfold MaximizePnLBot.loop_body, MaximizePnLBot.trend_logic, py_div.
  destruct (MaximizePnLBot.use_volatility_filter self); simpl in Hg;
    rewrite ?Hg; simpl; rewrite Htr; simpl; rewrite Hlow; simpl;
    rewrite Hcand, ?Hpa; simpl.
  all: replace (MaximizePnLBot.classifier_pass _ row) with true by done.
  all: by rewrite Hz.
Qed.
End Guards.

(** C8 holds of [AdvancedDCBot] ([A_run_backtest_total]) and fails on
    [MaximizePnLBot], whose two quotients are not guarded: on a frame whose
    second bar has a low of 0 the Down-state extremum becomes 0, the bar is
    a confirmed reversal candidate, and the entry overshoot
    (high - old_extreme) / old_extreme raises ZeroDivisionError;
    [AdvancedDCBot] substitutes 0 on the same frame and goes on. *)
Theorem C8_unguarded_division_in_MaximizePnLBot :
  snd <$> MaximizePnLBot.after 1 [flat_bar; zero_low_bar] (params_M FULL_AI)
  = Ok []
  ∧ MaximizePnLBot.after 2 [flat_bar; zero_low_bar] (params_M FULL_AI)
    = Raise ZeroDivisionError
  ∧ M_backtest [flat_bar; zero_low_bar] (params_M FULL_AI)
    = Raise ZeroDivisionError
  ∧ A_trace flat_bar [zero_low_bar] (params_A FULL_AI)
    = Ok [Entry 1; ForceClose].
Proof. repeat split; vm_compute; reflexivity. Qed.

(** ** C9: the empty frame *)

(** C9, as stated, fails on [MaximizePnLBot]: its constructor raises
    ValueError on an empty frame, so there is no run. *)
Lemma C9_empty_frame_counterexample :
  MaximizePnLBot.__init__ [] (params_M FULL_AI) = Raise ValueError
  ∧ M_backtest [] (params_M FULL_AI) = Raise ValueError.
Proof. split; reflexivity. Qed.

(** C9, amended: on an empty bar sequence [AdvancedDCBot.run_backtest]
    completes as a no-op, returning a total of 0.0 and no trade without
    raising; [MaximizePnLBot] rejects the empty frame when the bot is
    built, with ValueError, in every configuration. *)
Theorem C9_empty_frame {F : Type} `{!PyFloat F} (params : Params F) :
  AdvancedDCBot.run_backtest (AdvancedDCBot.__init__ [] params)
  = Ok (of_int 0, [])
  ∧ MaximizePnLBot.__init__ [] params = Raise ValueError.
Proof. split; reflexivity. Qed.

(** ** C10: max_overshoot over a run *)

(** *** The laws, on binary64 and on the reals *)

Lemma SFltb_trans (x y z : spec_float) :
  SFltb x y = true → SFltb y z = true → SFltb x z = true.
Proof.
  unfold SFltb, SFcompare.
  destruct x as [sx|sx| |sx mx ex], y as [sy|sy| |sy my ey],
           z as [sz|sz| |sz mz ez]; try done.
  all: try (destruct sx, sy, sz; done).
  all: try (destruct sx, sy; done).
  all: try (destruct sy, sz; done).
  all: try (destruct sx, sz; done).
  change (PosDef.Pos.compare_cont Eq mx my) with (Pos.compare mx my).
  change (PosDef.Pos.compare_cont Eq my mz) with (Pos.compare my mz).
  change (PosDef.Pos.compare_cont Eq mx mz) with (Pos.compare mx mz).
  destruct sx, sy, sz; try done.
  all: destruct (Z.compare_spec ex ey), (Z.compare_spec ey ez),
      (Z.compare_spec ex ez); try done; try lia.
  all: destruct (Pos.compare_spec mx my), (Pos.compare_spec my mz),
      (Pos.compare_spec mx mz); try done; lia.
Qed.

#[export] Instance float_OrderLaws : OrderLaws float.
Proof.
  split. intros a b c. simpl. rewrite !ltb_spec. apply SFltb_trans.
Qed.

#[export] Instance R_OrderLaws : OrderLaws R.
Proof.
  split. intros a b c. simpl.
  rewrite !bool_decide_eq_true. apply Rlt_trans.
Qed.


Section Overshoot.
Context {F : Type} `{!PyFloat F} `{!OrderLaws F}.













End Overshoot.

(** *** Evaluating a run on the reals *)






(** * Further properties of the engines *)

Section Extreme.
Context {F : Type} `{!PyFloat F}.

Lemma M_loop_body_extreme i row (self self' : MaximizePnLBot.Bot F) ev :
  MaximizePnLBot.loop_body i row self = Ok (self', ev) →
  (MaximizePnLBot.gated self row = true ∧ ev = []
   ∧ MaximizePnLBot.last_extreme self' = MaximizePnLBot.last_extreme self)
  ∨ (MaximizePnLBot.gated self row = false
     ∧ ((ev = []
         ∧ MaximizePnLBot.last_extreme self'
           = if (MaximizePnLBot.current_trend self =? -1)%Z
             then (if (low row <? MaximizePnLBot.last_extreme self)%py
                   then low row else MaximizePnLBot.last_extreme self)
             else (if (high row >? MaximizePnLBot.last_extreme self)%py
                   then high row else MaximizePnLBot.last_extreme self))
        ∨ (ev = [Entry i] ∧ MaximizePnLBot.last_extreme self' = high row)
        ∨ (ev = [Exit i] ∧ MaximizePnLBot.last_extreme self' = low row))).
Proof.
  intros H.
  unfold MaximizePnLBot.loop_body, MaximizePnLBot.trend_logic, py_div,
    MaximizePnLBot.gated in *.
  repeat (case_match; simplify_eq/=).
  all: try (match type of H with context [update_last ?f ?l] =>
         destruct (update_last f l) eqn:? end; simplify_eq/=).
  all: first [ by left | right; split; [done|]; by eauto ].
Qed.

Lemma A_loop_body_extreme i row (self self' : AdvancedDCBot.Bot F) l l' ev :
  AdvancedDCBot.loop_body i row self l = Ok (self', l', ev) →
  (fisnan (sma row) = true ∧ ev = [] ∧ self' = self ∧ l' = l)
  ∨ (fisnan (sma row) = false
     ∧ ((ev = []
         ∧ AdvancedDCBot.last_extreme_price l'
           = if (AdvancedDCBot.current_trend l =? -1)%Z
             then (if (low row <? AdvancedDCBot.last_extreme_price l)%py
                   then low row else AdvancedDCBot.last_extreme_price l)
             else if (AdvancedDCBot.current_trend l =? 1)%Z
             then (if (high row >? AdvancedDCBot.last_extreme_price l)%py
                   then high row else AdvancedDCBot.last_extreme_price l)
             else AdvancedDCBot.last_extreme_price l)
        ∨ (ev = [Entry i] ∧ AdvancedDCBot.last_extreme_price l' = high row)
        ∨ (ev = [Exit i] ∧ AdvancedDCBot.last_extreme_price l' = low row))).
Proof.
  intros H.
  unfold AdvancedDCBot.loop_body, AdvancedDCBot.trend_logic, py_div in *.
  repeat (case_match; simplify_eq/=).
  all: first [ by left | right; split; [done|]; by eauto ].
Qed.
End Extreme.

Section Runs.
Context {F : Type} `{!PyFloat F}.

(** A run of [MaximizePnLBot] is the loop over the whole frame, then the
    lines after the loop. *)
Lemma M_run_inv (df0 : list (Row F)) params0 self0 self' evs' :
  MaximizePnLBot.__init__ df0 params0 = Ok self0 →
  MaximizePnLBot.run self0 = Ok (self', evs') →
  ∃ self evs ev,
    MaximizePnLBot.after (length df0) df0 params0 = Ok (self, evs)
    ∧ MaximizePnLBot.force_close self = Ok (self', ev)
    ∧ evs' = evs ++ ev
    ∧ (ev = [] ∨ ev = [ForceClose]).
Proof.
  intros Hinit Hrun. unfold MaximizePnLBot.run in Hrun.
  rewrite (M_iterrows_after _ _ _ Hinit) in Hrun.
  destruct (MaximizePnLBot.after _ df0 params0) as [[self evs]|] eqn:E;
    [|done].
  simpl in Hrun.
  destruct (MaximizePnLBot.force_close self) as [[s ev]|] eqn:E2; [|done].
  simpl in Hrun. injection Hrun as <- <-.
  exists self, evs, ev. split_and!; [done..|].
  unfold MaximizePnLBot.force_close in E2.
  destruct (MaximizePnLBot.is_position_open self); [|simplify_eq; auto].
  apply Result_bind_inv in E2 as (fp & _ & E2).
  apply Result_bind_inv in E2 as (ts & _ & E2). simplify_eq/=. auto.
Qed.

Lemma A_run_inv (row0 : Row F) rest params0 self' l' evs' :
  AdvancedDCBot.run (AdvancedDCBot.__init__ (row0 :: rest) params0) row0
  = Ok (self', l', evs') →
  ∃ self l evs ev,
    AdvancedDCBot.after (length (row0 :: rest)) row0 rest params0
    = Ok (self, l, evs)
    ∧ AdvancedDCBot.force_close self l = Ok (self', l', ev)
    ∧ evs' = evs ++ ev
    ∧ (ev = [] ∨ ev = [ForceClose]).
Proof.
  intros Hrun. unfold AdvancedDCBot.run in Hrun.
  change (AdvancedDCBot.df (AdvancedDCBot.__init__ (row0 :: rest) params0))
    with (row0 :: rest) in Hrun.
  rewrite A_iterrows_after in Hrun.
  destruct (AdvancedDCBot.after _ row0 rest params0) as [[[self l] evs]|] eqn:E;
    [|done].
  simpl in Hrun.
  destruct (AdvancedDCBot.force_close self l) as [[[s l1] ev]|] eqn:E2;
    [|done].
  simpl in Hrun. injection Hrun as <- <- <-.
  exists self, l, evs, ev. split_and!; [done..|].
  unfold AdvancedDCBot.force_close in E2.
  destruct (AdvancedDCBot.is_position_open l); [|simplify_eq; auto].
  apply Result_bind_inv in E2 as (fp & _ & E2).
  apply Result_bind_inv in E2 as (fd & _ & E2). simplify_eq/=. auto.
Qed.

(** In the Down state the extremum of [MaximizePnLBot] is the low of a
    bar of the frame, the next one at the latest. *)
Lemma M_down_extreme_is_low (df0 : list (Row F)) params0 n self evs :
  n ≤ length df0 →
  MaximizePnLBot.after n df0 params0 = Ok (self, evs) →
  MaximizePnLBot.current_trend self = (-1)%Z →
  ∃ j rj, j ≤ n ∧ df0 !! j = Some rj
          ∧ MaximizePnLBot.last_extreme self = low rj.
Proof.
  revert n self evs.
  apply (M_after_ind (λ n self _,
    MaximizePnLBot.current_trend self = (-1)%Z →
    ∃ j rj, j ≤ n ∧ df0 !! j = Some rj
            ∧ MaximizePnLBot.last_extreme self = low rj)).
  - intros self Hinit _. destruct df0 as [|row0 df0]; [done|].
    injection Hinit as <-. by exists 0, row0.
  - intros n row self evs self' ev Hrow _ IH Hbody Hdown.
    pose proof (M_loop_body_shape _ _ _ _ _ Hbody) as (_ & _ & _ & Hcases).
    apply M_loop_body_extreme in Hbody
      as [(_ & -> & ->)|(_ & [(-> & ->)|[(-> & _)|(-> & ->)]])].
    + destruct Hcases as [(_ & Etr & _)|[(? & _)|(? & _)]]; [|done..].
      rewrite Etr in Hdown.
      destruct (IH Hdown) as (j & rj & ? & ? & ?).
      exists j, rj. split_and!; [lia|done..].
    + destruct Hcases as [(_ & Etr & _)|[(? & _)|(? & _)]]; [|done..].
      rewrite Etr in Hdown. rewrite Hdown. simpl.
      destruct (IH Hdown) as (j & rj & ? & ? & ?).
      destruct (low row <? _)%py.
      * by exists n, row; split_and!; [lia|..].
      * exists j, rj. split_and!; [lia|done..].
    + destruct Hcases as [(? & _)|[(_ & _ & _ & _ & _ & Etr & _)|(? & _)]];
        [done| |done].
      rewrite Etr in Hdown. done.
    + exists n, row. split_and!; [lia|done..].
Qed.

Lemma A_down_extreme_is_low (row0 : Row F) rest params0 n self l evs :
  n ≤ length (row0 :: rest) →
  AdvancedDCBot.after n row0 rest params0 = Ok (self, l, evs) →
  AdvancedDCBot.current_trend l = (-1)%Z →
  ∃ j rj, j ≤ n ∧ (row0 :: rest) !! j = Some rj
          ∧ AdvancedDCBot.last_extreme_price l = low rj.
Proof.
  revert n self l evs.
  apply (A_after_ind (λ n _ l _,
    AdvancedDCBot.current_trend l = (-1)%Z →
    ∃ j rj, j ≤ n ∧ (row0 :: rest) !! j = Some rj
            ∧ AdvancedDCBot.last_extreme_price l = low rj)).
  - intros _. by exists 0, row0.
  - intros n row self l evs self' l' ev Hrow _ IH Hbody Hdown.
    pose proof (A_loop_body_shape _ _ _ _ _ _ _ Hbody) as (_ & _ & _ & Hcases).
    apply A_loop_body_extreme in Hbody
      as [(_ & -> & -> & ->)|(_ & [(-> & ->)|[(-> & _)|(-> & ->)]])].
    + destruct (IH Hdown) as (j & rj & ? & ? & ?).
      exists j, rj. split_and!; [lia|done..].
    + destruct Hcases as [(_ & Etr & _)|[(? & _)|(? & _)]]; [|done..].
      rewrite Etr in Hdown. rewrite Hdown. simpl.
      destruct (IH Hdown) as (j & rj & ? & ? & ?).
      destruct (low row <? _)%py.
      * by exists n, row; split_and!; [lia|..].
      * exists j, rj. split_and!; [lia|done..].
    + destruct Hcases as [(? & _)|[(_ & _ & _ & _ & _ & _ & Etr & _)|(? & _)]];
        [done| |done].
      rewrite Etr in Hdown. done.
    + exists n, row. split_and!; [lia|done..].
Qed.
End Runs.

Section Rise.
Context {F : Type} `{!PyFloat F}.

Lemma no_rise_spec params (df : list (Row F)) i j ri rj :
  no_rise params df = true →
  j ≤ i → df !! i = Some ri → df !! j = Some rj →
  (high ri >=? low rj * (of_int 1 + dc_threshold params))%py = false.
Proof.
  intros Hno Hji Hi Hj. unfold no_rise in Hno.
  rewrite forallb_forall in Hno.
  specialize (Hno i). rewrite forallb_forall in Hno.
  apply lookup_lt_Some in Hi as Hlt.
  specialize (Hno ltac:(apply in_seq; lia) j ltac:(apply in_seq; lia)).
  rewrite Hi, Hj in Hno. by apply negb_true_iff in Hno.
Qed.

Lemma M_entry_rise (df0 : list (Row F)) params0 n self evs i :
  n ≤ length df0 →
  MaximizePnLBot.after n df0 params0 = Ok (self, evs) →
  Entry i ∈ evs →
  ∃ j ri rj, j ≤ i ∧ df0 !! i = Some ri ∧ df0 !! j = Some rj
    ∧ (high ri >=? low rj * (of_int 1 + dc_threshold params0))%py = true.
Proof.
  intros Hn Haft. revert i. revert n self evs Hn Haft.
  apply (M_after_ind (λ _ _ evs, ∀ i, Entry i ∈ evs → _)).
  - intros _ _ i Hi. by apply elem_of_nil in Hi.
  - intros n row self evs self' ev Hrow Haft IH Hbody i Hi.
    apply elem_of_app in Hi as [Hi|Hi]; [by apply IH|].
    pose proof (M_after_Inv _ _ _ _ _ Haft) as [_ Hpar _ _ _ _ _ _].
    apply M_loop_body_shape in Hbody as (_ & _ & _ & Hcases).
    destruct Hcases as [(-> & _)|[(-> & Hdown & _ & Hcand & _)|(-> & _)]].
    + by apply elem_of_nil in Hi.
    + apply list_elem_of_singleton in Hi as [= ->].
      apply lookup_lt_Some in Hrow as Hlt.
      destruct (M_down_extreme_is_low _ _ _ _ _ (Nat.lt_le_incl _ _ Hlt)
                  Haft Hdown) as (j & rj & Hj & Hrj & Hext).
      unfold reversal_candidate in Hcand. rewrite Hpar in Hcand.
      destruct (low row <? _)%py.
      * exists n, row, row. by split_and!.
      * exists j, row, rj. rewrite <- Hext. by split_and!.
    + by apply list_elem_of_singleton in Hi.
Qed.

Lemma A_entry_rise (row0 : Row F) rest params0 n self l evs i :
  n ≤ length (row0 :: rest) →
  AdvancedDCBot.after n row0 rest params0 = Ok (self, l, evs) →
  Entry i ∈ evs →
  ∃ j ri rj, j ≤ i ∧ (row0 :: rest) !! i = Some ri
    ∧ (row0 :: rest) !! j = Some rj
    ∧ (high ri >=? low rj * (of_int 1 + dc_threshold params0))%py = true.
Proof.
  intros Hn Haft. revert i. revert n self l evs Hn Haft.
  apply (A_after_ind (λ _ _ _ evs, ∀ i, Entry i ∈ evs → _)).
  - intros i Hi. by apply elem_of_nil in Hi.
  - intros n row self l evs self' l' ev Hrow Haft IH Hbody i Hi.
    apply elem_of_app in Hi as [Hi|Hi]; [by apply IH|].
    pose proof (A_after_Inv _ _ _ _ _ _ _ Haft) as [_ Hpar _ _ _ _ _ _].
    apply A_loop_body_shape in Hbody as (_ & _ & _ & Hcases).
    destruct Hcases as [(-> & _)|[(-> & Hdown & _ & _ & Hcand & _)|(-> & _)]].
    + by apply elem_of_nil in Hi.
    + apply list_elem_of_singleton in Hi as [= ->].
      apply lookup_lt_Some in Hrow as Hlt.
      destruct (A_down_extreme_is_low _ _ _ _ _ _ _ (Nat.lt_le_incl _ _ Hlt)
                  Haft Hdown) as (j & rj & Hj & Hrj & Hext).
      unfold reversal_candidate in Hcand. rewrite Hpar in Hcand.
      destruct (low row <? _)%py.
      * exists n, row, row. by split_and!.
      * exists j, row, rj. rewrite <- Hext. by split_and!.
    + by apply list_elem_of_singleton in Hi.
Qed.
End Rise.

(** X1: an entry needs a rise.  In a run of either engine a position is
    opened on bar [i] only if the high of that bar reaches
    (1 + dc_threshold) times the low of bar [i] or of a bar before it. *)
Theorem X1_entry_needs_rise {F : Type} `{!PyFloat F} :
  (∀ (df : list (Row F)) params self0 self' evs i,
     MaximizePnLBot.__init__ df params = Ok self0 →
     MaximizePnLBot.run self0 = Ok (self', evs) →
     Entry i ∈ evs →
     ∃ j ri rj, j ≤ i ∧ df !! i = Some ri ∧ df !! j = Some rj
       ∧ (high ri >=? low rj * (of_int 1 + dc_threshold params))%py = true)
  ∧ (∀ (row0 : Row F) rest params self' l' evs i,
       AdvancedDCBot.run (AdvancedDCBot.__init__ (row0 :: rest) params) row0
       = Ok (self', l', evs) →
       Entry i ∈ evs →
       ∃ j ri rj, j ≤ i ∧ (row0 :: rest) !! i = Some ri
         ∧ (row0 :: rest) !! j = Some rj
         ∧ (high ri >=? low rj * (of_int 1 + dc_threshold params))%py = true).
Proof.
  split.
  - intros df params self0 self' evs i Hinit Hrun Hi.
    destruct (M_run_inv _ _ _ _ _ Hinit Hrun)
      as (self & evs0 & ev & Haft & _ & -> & Hev).
    apply elem_of_app in Hi as [Hi|Hi].
    + by eapply M_entry_rise.
    + destruct Hev as [->| ->]; [by apply elem_of_nil in Hi|].
      by apply list_elem_of_singleton in Hi.
  - intros row0 rest params self' l' evs i Hrun Hi.
    destruct (A_run_inv _ _ _ _ _ _ Hrun)
      as (self & l & evs0 & ev & Haft & _ & -> & Hev).
    apply elem_of_app in Hi as [Hi|Hi].
    + by eapply A_entry_rise.
    + destruct Hev as [->| ->]; [by apply elem_of_nil in Hi|].
      by apply list_elem_of_singleton in Hi.
Qed.

(** A round trip on binary64: flat, rising, falling. *)
Lemma M_sample_trip :
  snd <$> (MaximizePnLBot.__init__ [flat_bar; rising_bar; falling_bar]
             (params_M FULL_AI) ≫= MaximizePnLBot.run)
  = Ok [Entry 1; Exit 2].
Proof. by vm_compute. Qed.

Lemma A_sample_trip :
  snd <$> AdvancedDCBot.run
            (AdvancedDCBot.__init__ (flat_bar :: [rising_bar; falling_bar])
               (params_A FULL_AI)) flat_bar
  = Ok [Entry 1; Exit 2].
Proof. by vm_compute. Qed.

Lemma X1_entry_needs_rise_witness :
  (∃ j ri rj,
     j ≤ 1 ∧ [flat_bar; rising_bar; falling_bar] !! 1%nat = Some ri
     ∧ [flat_bar; rising_bar; falling_bar] !! j = Some rj
     ∧ (high ri >=? low rj * (of_int 1 + dc_threshold (params_M FULL_AI)))%py
       = true)
  ∧ (∃ j ri rj,
       j ≤ 1 ∧ (flat_bar :: [rising_bar; falling_bar]) !! 1%nat = Some ri
       ∧ (flat_bar :: [rising_bar; falling_bar]) !! j = Some rj
       ∧ (high ri >=? low rj * (of_int 1 + dc_threshold (params_A FULL_AI)))%py
         = true).
Proof.
  split.
  - destruct (Result_snd_inv _ _ M_sample_trip) as [self' E].
    destruct (Result_bind_inv _ _ _ E) as (self0 & E0 & E1).
    apply (proj1 X1_entry_needs_rise
             [flat_bar; rising_bar; falling_bar] (params_M FULL_AI)
             self0 self' [Entry 1; Exit 2] 1%nat E0 E1).
    constructor.
  - destruct (Result_snd_inv _ _ A_sample_trip) as [[self' l'] E].
    apply (proj2 X1_entry_needs_rise
             flat_bar [rising_bar; falling_bar] (params_A FULL_AI)
             self' l' [Entry 1; Exit 2] 1%nat E).
    constructor.
Defined.

Section NoRise.
Context {F : Type} `{!PyFloat F}.

Lemma M_no_rise_after (df0 : list (Row F)) params0 n :
  df0 ≠ [] → no_rise params0 df0 = true → n ≤ length df0 →
  ∃ self,
    MaximizePnLBot.after n df0 params0 = Ok (self, [])
    ∧ MaximizePnLBot.is_position_open self = false
    ∧ MaximizePnLBot.trades self = []
    ∧ MaximizePnLBot.total_pnl self = of_int 0.
Proof.
  intros Hne Hno. induction n as [|n IH]; intros Hn.
  - destruct df0 as [|row0 df0]; [done|].
    eexists. unfold MaximizePnLBot.after. simpl. by split_and!.
  - destruct IH as (self & Haft & Hop & Htrd & Htot); [lia|].
    destruct (lookup_lt_is_Some_2 df0 n) as [row Hrow]; [lia|].
    rewrite (M_after_S _ _ _ _ _ _ Hrow Haft).
    pose proof (M_after_Inv _ _ _ _ _ Haft) as [_ Hpar _ _ Htr _ _ _].
    rewrite Hop in Htr.
    assert (n ≤ length df0) as Hn' by lia.
    destruct (M_down_extreme_is_low _ _ _ _ _ Hn' Haft Htr)
      as (j & rj & Hj & Hrj & Hext).
    assert (reversal_candidate params0 (MaximizePnLBot.last_extreme self) row
            = false) as Hcand.
    { unfold reversal_candidate. destruct (low row <? _)%py.
      - by apply (no_rise_spec _ df0 n n).
      - rewrite Hext. by apply (no_rise_spec _ df0 n j). }
    unfold reversal_candidate in Hcand. rewrite <- Hpar in Hcand.
    unfold MaximizePnLBot.loop_body, MaximizePnLBot.trend_logic.
    destruct (MaximizePnLBot.use_volatility_filter self); simpl.
    + destruct (atr row >? _)%py; simpl.
      * eexists. by split_and!.
      * rewrite Htr. simpl.
        destruct (low row <? _)%py; simpl in *; rewrite Hcand; simpl;
          eexists; by split_and!.
    + rewrite Htr. simpl.
      destruct (low row <? _)%py; simpl in *; rewrite Hcand; simpl;
        eexists; by split_and!.
Qed.

Lemma A_no_rise_after (row0 : Row F) rest params0 n :
  no_rise params0 (row0 :: rest) = true → n ≤ length (row0 :: rest) →
  ∃ self l,
    AdvancedDCBot.after n row0 rest params0 = Ok (self, l, [])
    ∧ AdvancedDCBot.is_position_open l = false
    ∧ AdvancedDCBot.trades self = []
    ∧ AdvancedDCBot.total_pnl self = of_int 0.
Proof.
  intros Hno. induction n as [|n IH]; intros Hn.
  - eexists _, _. unfold AdvancedDCBot.after. simpl. by split_and!.
  - destruct IH as (self & l & Haft & Hop & Htrd & Htot); [lia|].
    destruct (lookup_lt_is_Some_2 (row0 :: rest) n) as [row Hrow]; [lia|].
    rewrite (A_after_S _ _ _ _ _ _ _ _ Hrow Haft).
    pose proof (A_after_Inv _ _ _ _ _ _ _ Haft) as [_ Hpar _ _ Htr _ _ _].
    rewrite Hop in Htr.
    assert (n ≤ length (row0 :: rest)) as Hn' by lia.
    destruct (A_down_extreme_is_low _ _ _ _ _ _ _ Hn' Haft Htr)
      as (j & rj & Hj & Hrj & Hext).
    assert (reversal_candidate params0 (AdvancedDCBot.last_extreme_price l)
              row = false) as Hcand.
    { unfold reversal_candidate. destruct (low row <? _)%py.
      - by apply (no_rise_spec _ (row0 :: rest) n n).
      - rewrite Hext. by apply (no_rise_spec _ (row0 :: rest) n j). }
    unfold reversal_candidate in Hcand.
    destruct (AdvancedDCBot.loop_body n row self l) as [[[self' l'] ev]|]
      eqn:Hbody;
      [|destruct (A_loop_body_total n row self l) as [r Hr]; congruence].
    simpl.
    pose proof (A_loop_body_shape _ _ _ _ _ _ _ Hbody) as (_ & _ & _ & Hcases).
    destruct Hcases as
      [(-> & _ & Eop & _ & _ & Etrd & Etot)
      |[(_ & _ & _ & _ & Hc & _)|(_ & Hup & _)]].
    + exists self', l'. rewrite Eop, Etrd, Etot. by split_and!.
    + unfold reversal_candidate in Hc. rewrite Hpar in Hc. congruence.
    + congruence.
Qed.
End NoRise.

(** X2: a market that never rises is never traded.  On a frame where no
    bar's high reaches (1 + dc_threshold) times the low of that bar or of
    a bar before it, both engines return a total of 0 and an empty
    ledger; [MaximizePnLBot] does so without raising, provided the frame
    is not empty. *)
Theorem X2_no_rise_no_trade {F : Type} `{!PyFloat F}
    (df : list (Row F)) (params : Params F) :
  no_rise params df = true →
  (df ≠ [] →
   MaximizePnLBot.__init__ df params ≫= MaximizePnLBot.run_backtest
   = Ok (of_int 0, []))
  ∧ AdvancedDCBot.run_backtest (AdvancedDCBot.__init__ df params)
    = Ok (of_int 0, []).
Proof.
  intros Hno. split.
  - intros Hne.
    destruct (M_no_rise_after df params (length df) Hne Hno (le_n _))
      as (self & Haft & Hop & Htrd & Htot).
    destruct (MaximizePnLBot.__init__ df params) as [self0|] eqn:Hinit;
      [|by destruct df].
    simpl. unfold MaximizePnLBot.run_backtest, MaximizePnLBot.run.
    rewrite (M_iterrows_after _ _ _ Hinit), Haft. simpl.
    unfold MaximizePnLBot.force_close. rewrite Hop. simpl.
    by rewrite Htot, Htrd.
  - destruct df as [|row0 rest]; [done|].
    destruct (A_no_rise_after row0 rest params (length (row0 :: rest)) Hno
                (le_n _)) as (self & l & Haft & Hop & Htrd & Htot).
    unfold AdvancedDCBot.run_backtest, AdvancedDCBot.run.
    change (AdvancedDCBot.df (AdvancedDCBot.__init__ (row0 :: rest) params))
      with (row0 :: rest).
    cbv iota beta. rewrite A_iterrows_after, Haft. simpl.
    unfold AdvancedDCBot.force_close. rewrite Hop. simpl.
    by rewrite Htot, Htrd.
Qed.

Lemma X2_no_rise_no_trade_witness :
  MaximizePnLBot.__init__ sliding_frame (params_M FULL_AI)
    ≫= MaximizePnLBot.run_backtest
  = Ok (of_int 0, [])
  ∧ AdvancedDCBot.run_backtest
      (AdvancedDCBot.__init__ sliding_frame (params_M FULL_AI))
    = Ok (of_int 0, []).
Proof.
  destruct (X2_no_rise_no_trade sliding_frame (params_M FULL_AI))
    as [HM HA]; [vm_compute; reflexivity|].
  split; [apply HM; discriminate|exact HA].
Defined.

Lemma chronological_nil : chronological [].
Proof. intros a b ea eb _ Ha. by rewrite lookup_nil in Ha. Qed.

Lemma chronological_snoc n evs e :
  Forall (λ e, ∃ i, bar_of e = Some i ∧ i < n) evs →
  chronological evs →
  (∀ j, bar_of e = Some j → n ≤ j) →
  chronological (evs ++ [e]).
Proof.
  intros Hall Hch He a b ea eb Hab Ha Hb.
  apply lookup_lt_Some in Hb as Hlb. rewrite length_app in Hlb. simpl in Hlb.
  rewrite lookup_app_l in Ha by lia.
  destruct (decide (b < length evs)) as [Hlt|Hge].
  - rewrite lookup_app_l in Hb by done. exact (Hch a b ea eb Hab Ha Hb).
  - rewrite lookup_app_r in Hb by lia.
    replace (b - length evs) with 0 in Hb by lia. injection Hb as <-.
    rewrite Forall_lookup in Hall.
    destruct (Hall _ _ Ha) as (i & Hi & Hlt).
    exists i. split; [done|]. intros j Hj. specialize (He _ Hj). lia.
Qed.

Section Chronology.
Context {F : Type} `{!PyFloat F}.

Lemma M_after_chronological (df0 : list (Row F)) params0 n self evs :
  n ≤ length df0 →
  MaximizePnLBot.after n df0 params0 = Ok (self, evs) →
  Forall (λ e, ∃ i, bar_of e = Some i ∧ i < n) evs ∧ chronological evs.
Proof.
  revert n self evs.
  apply (M_after_ind (λ n _ evs,
    Forall (λ e, ∃ i, bar_of e = Some i ∧ i < n) evs ∧ chronological evs)).
  - intros _ _. split; [constructor|apply chronological_nil].
  - intros n row self evs self' ev _ _ [Hall Hch] Hbody.
    assert (Forall (λ e, ∃ i, bar_of e = Some i ∧ i < S n) evs) as Hall'.
    { eapply Forall_impl; [done|]. intros e (i & ? & ?). exists i.
      split; [done|lia]. }
    apply M_loop_body_shape in Hbody as (_ & _ & _ & Hcases).
    destruct Hcases as [(-> & _)|[(-> & _)|(-> & _)]].
    + by rewrite app_nil_r.
    + split.
      * apply Forall_app. split; [done|]. apply Forall_singleton.
        exists n. split; [done|lia].
      * apply (chronological_snoc n); [done..|]. by intros j [= ->].
    + split.
      * apply Forall_app. split; [done|]. apply Forall_singleton.
        exists n. split; [done|lia].
      * apply (chronological_snoc n); [done..|]. by intros j [= ->].
Qed.

Lemma A_after_chronological (row0 : Row F) rest params0 n self l evs :
  n ≤ length (row0 :: rest) →
  AdvancedDCBot.after n row0 rest params0 = Ok (self, l, evs) →
  Forall (λ e, ∃ i, bar_of e = Some i ∧ i < n) evs ∧ chronological evs.
Proof.
  revert n self l evs.
  apply (A_after_ind (λ n _ _ evs,
    Forall (λ e, ∃ i, bar_of e = Some i ∧ i < n) evs ∧ chronological evs)).
  - split; [constructor|apply chronological_nil].
  - intros n row self l evs self' l' ev _ _ [Hall Hch] Hbody.
    assert (Forall (λ e, ∃ i, bar_of e = Some i ∧ i < S n) evs) as Hall'.
    { eapply Forall_impl; [done|]. intros e (i & ? & ?). exists i.
      split; [done|lia]. }
    apply A_loop_body_shape in Hbody as (_ & _ & _ & Hcases).
    destruct Hcases as [(-> & _)|[(-> & _)|(-> & _)]].
    + by rewrite app_nil_r.
    + split.
      * apply Forall_app. split; [done|]. apply Forall_singleton.
        exists n. split; [done|lia].
      * apply (chronological_snoc n); [done..|]. by intros j [= ->].
    + split.
      * apply Forall_app. split; [done|]. apply Forall_singleton.
        exists n. split; [done|lia].
      * apply (chronological_snoc n); [done..|]. by intros j [= ->].
Qed.

Lemma run_trace_chronological n (evs ev : list Event) :
  Forall (λ e, ∃ i, bar_of e = Some i ∧ i < n) evs → chronological evs →
  ev = [] ∨ ev = [ForceClose] →
  (∀ a e i, (evs ++ ev) !! a = Some e → bar_of e = Some i → i < n)
  ∧ chronological (evs ++ ev).
Proof.
  intros Hall Hch [->| ->].
  - rewrite app_nil_r. split; [|done].
    intros a e i Ha Hi. rewrite Forall_lookup in Hall.
    destruct (Hall _ _ Ha) as (i' & ? & ?). congruence.
  - split.
    + intros a e i Ha Hi. apply lookup_app_Some in Ha as [Ha|[_ Ha]].
      * rewrite Forall_lookup in Hall.
        destruct (Hall _ _ Ha) as (i' & ? & ?). congruence.
      * apply list_lookup_singleton_Some in Ha as [_ <-]. done.
    + by apply (chronological_snoc n).
Qed.
End Chronology.

(** X3: at most one event per bar, in bar order.  In the trace of a run
    of either engine every entry and exit is on a bar of the frame, the
    bars of successive events go up strictly (a position is not closed on
    the bar that opened it and not reopened on the bar that closed it),
    and a forced close is the last event. *)
Theorem X3_one_event_per_bar {F : Type} `{!PyFloat F} :
  (∀ (df : list (Row F)) params self0 self' evs,
     MaximizePnLBot.__init__ df params = Ok self0 →
     MaximizePnLBot.run self0 = Ok (self', evs) →
     (∀ a e i, evs !! a = Some e → bar_of e = Some i → i < length df)
     ∧ chronological evs)
  ∧ (∀ (row0 : Row F) rest params self' l' evs,
       AdvancedDCBot.run (AdvancedDCBot.__init__ (row0 :: rest) params) row0
       = Ok (self', l', evs) →
       (∀ a e i, evs !! a = Some e → bar_of e = Some i →
                 i < length (row0 :: rest))
       ∧ chronological evs).
Proof.
  split.
  - intros df params self0 self' evs Hinit Hrun.
    destruct (M_run_inv _ _ _ _ _ Hinit Hrun)
      as (self & evs0 & ev & Haft & _ & -> & Hev).
    destruct (M_after_chronological _ _ _ _ _ (le_n _) Haft) as [Hall Hch].
    by apply run_trace_chronological.
  - intros row0 rest params self' l' evs Hrun.
    destruct (A_run_inv _ _ _ _ _ _ Hrun)
      as (self & l & evs0 & ev & Haft & _ & -> & Hev).
    destruct (A_after_chronological _ _ _ _ _ _ _ (le_n _) Haft) as [Hall Hch].
    by apply run_trace_chronological.
Qed.

Lemma X3_one_event_per_bar_witness :
  ((∀ a e i, [Entry 1; Exit 2] !! a = Some e → bar_of e = Some i →
             i < length [flat_bar; rising_bar; falling_bar])
   ∧ chronological [Entry 1; Exit 2])
  ∧ ((∀ a e i, [Entry 1; Exit 2] !! a = Some e → bar_of e = Some i →
               i < length (flat_bar :: [rising_bar; falling_bar]))
     ∧ chronological [Entry 1; Exit 2]).
Proof.
  split.
  - destruct (Result_snd_inv _ _ M_sample_trip) as [self' E].
    destruct (Result_bind_inv _ _ _ E) as (self0 & E0 & E1).
    exact (proj1 X3_one_event_per_bar
             [flat_bar; rising_bar; falling_bar] (params_M FULL_AI)
             self0 self' [Entry 1; Exit 2] E0 E1).
  - destruct (Result_snd_inv _ _ A_sample_trip) as [[self' l'] E].
    exact (proj2 X3_one_event_per_bar
             flat_bar [rising_bar; falling_bar] (params_A FULL_AI)
             self' l' [Entry 1; Exit 2] E).
Defined.

Lemma spans_end_snoc lo spans s :
  spans_end lo (spans ++ [s]) = S s.2.
Proof. unfold spans_end. by rewrite foldl_app. Qed.

Lemma spans_from_snoc spans : ∀ lo i j,
  spans_from lo spans → spans_end lo spans ≤ i → i ≤ j →
  spans_from lo (spans ++ [(i, j)]).
Proof.
  induction spans as [|[i0 j0] spans IH]; intros lo i j Hs Hi Hij; simpl.
  - done.
  - destruct Hs as (? & ? & Hs). split_and!; [done..|]. by apply IH.
Qed.

Section Ledger_lemmas.
Context {F : Type} `{!PyFloat F}.

Lemma M_closing_round_trip (df0 : list (Row F)) params0 i j ri rj x :
  df0 !! i = Some ri → df0 !! j = Some rj →
  (i < j ∧ x = low rj) ∨ (S j = length df0 ∧ x = close rj) →
  M_round_trip df0 params0 (i, j)
    (MaximizePnLBot.closing params0 (Z.of_nat j) (high ri) x
       (MaximizePnLBot.opened i (high ri))).
Proof.
  intros Hi Hj Hx. exists ri, rj, x.
  unfold MaximizePnLBot.closing, MaximizePnLBot.opened. simpl.
  split_and!; try done; by simplify_map_eq.
Qed.

Lemma A_closing_round_trip (df0 : list (Row F)) params0 i j ri rj x :
  df0 !! i = Some ri → df0 !! j = Some rj →
  (i < j ∧ x = low rj) ∨ (S j = length df0 ∧ x = close rj) →
  A_round_trip df0 params0 (i, j)
    (AdvancedDCBot.closing params0 (date rj) (high ri) x
       (AdvancedDCBot.opened (date ri) (high ri))).
Proof.
  intros Hi Hj Hx. exists ri, rj, x.
  unfold AdvancedDCBot.closing, AdvancedDCBot.opened. simpl.
  split_and!; try done; by simplify_map_eq.
Qed.

(** The ledger of [MaximizePnLBot] after [n] rows: round trips over
    successive spans, then the trade of the open position. *)
Lemma M_after_ledger (df0 : list (Row F)) params0 n self evs :
  n ≤ length df0 →
  MaximizePnLBot.after n df0 params0 = Ok (self, evs) →
  ∃ spans ts,
    Forall2 (M_round_trip df0 params0) spans ts
    ∧ spans_from 0 spans ∧ spans_end 0 spans ≤ n
    ∧ if MaximizePnLBot.is_position_open self
      then ∃ i ri, spans_end 0 spans ≤ i ∧ i < n ∧ df0 !! i = Some ri
                   ∧ MaximizePnLBot.entry_price self = high ri
                   ∧ MaximizePnLBot.trades self
                     = ts ++ [MaximizePnLBot.opened i (high ri)]
      else MaximizePnLBot.trades self = ts.
Proof.
  revert n self evs.
  apply (M_after_ind (λ n self _,
    ∃ spans ts,
      Forall2 (M_round_trip df0 params0) spans ts
      ∧ spans_from 0 spans ∧ spans_end 0 spans ≤ n
      ∧ if MaximizePnLBot.is_position_open self
        then ∃ i ri, spans_end 0 spans ≤ i ∧ i < n ∧ df0 !! i = Some ri
                     ∧ MaximizePnLBot.entry_price self = high ri
                     ∧ MaximizePnLBot.trades self
                       = ts ++ [MaximizePnLBot.opened i (high ri)]
        else MaximizePnLBot.trades self = ts)).
  - intros self Hinit. exists [], [].
    destruct df0 as [|row0 df0]; [done|]. injection Hinit as <-. simpl.
    split_and!; try done.
  - intros n row self evs self' ev Hrow Haft (spans & ts & H2 & Hsp & Hend & Hled)
      Hbody.
    pose proof (M_after_Inv _ _ _ _ _ Haft) as [_ Hpar _ _ Htr _ _ _].
    apply M_loop_body_shape in Hbody as (_ & _ & _ & Hcases).
    destruct Hcases as
      [(-> & _ & Eop & Een & Etrd & _)
      |[(-> & Hdown & _ & _ & _ & _ & Eop & Een & Etrd & _)
       |(-> & _ & _ & Hop & _ & Eop & _ & Etrd & _)]].
    + exists spans, ts. rewrite Eop, Een, Etrd.
      split_and!; [done|done|lia|].
      destruct (MaximizePnLBot.is_position_open self); [|done].
      destruct Hled as (i & ri & ? & ? & ? & ? & ?).
      exists i, ri. split_and!; [lia|lia|done..].
    + assert (MaximizePnLBot.is_position_open self = false) as Hop.
      { destruct (MaximizePnLBot.is_position_open self); [congruence|done]. }
      rewrite Hop in Hled. exists spans, ts. rewrite Eop, Een, Etrd, Hled.
      split_and!; [done|done|lia|].
      exists n, row. split_and!; [lia|lia|done..].
    + rewrite Hop in Hled.
      destruct Hled as (i & ri & Hlo & Hin & Hri & Hent & Htrd).
      rewrite Htrd, update_last_snoc, Hent, Hpar in Etrd.
      injection Etrd as <-.
      exists (spans ++ [(i, n)]), 
        (ts ++ [MaximizePnLBot.closing params0 (Z.of_nat n) (high ri)
                  (low row) (MaximizePnLBot.opened i (high ri))]).
      rewrite Eop, spans_end_snoc. simpl.
      split_and!; [|by apply spans_from_snoc; [| |lia]|lia|done].
      apply Forall2_app; [done|]. apply Forall2_cons; split; [|constructor].
      apply (M_closing_round_trip _ _ i n ri row); [done..|]. left. done.
Qed.

Lemma A_after_ledger (row0 : Row F) rest params0 n self l evs :
  n ≤ length (row0 :: rest) →
  AdvancedDCBot.after n row0 rest params0 = Ok (self, l, evs) →
  ∃ spans,
    Forall2 (A_round_trip (row0 :: rest) params0) spans
      (AdvancedDCBot.trades self)
    ∧ spans_from 0 spans ∧ spans_end 0 spans ≤ n
    ∧ (AdvancedDCBot.is_position_open l = true →
       ∃ i ri, spans_end 0 spans ≤ i ∧ i < n
               ∧ (row0 :: rest) !! i = Some ri
               ∧ AdvancedDCBot.entry_price l = high ri
               ∧ AdvancedDCBot.trade l
                 = AdvancedDCBot.opened (date ri) (high ri)).
Proof.
  revert n self l evs.
  apply (A_after_ind (λ n self l _,
    ∃ spans,
      Forall2 (A_round_trip (row0 :: rest) params0) spans
        (AdvancedDCBot.trades self)
      ∧ spans_from 0 spans ∧ spans_end 0 spans ≤ n
      ∧ (AdvancedDCBot.is_position_open l = true →
         ∃ i ri, spans_end 0 spans ≤ i ∧ i < n
                 ∧ (row0 :: rest) !! i = Some ri
                 ∧ AdvancedDCBot.entry_price l = high ri
                 ∧ AdvancedDCBot.trade l
                   = AdvancedDCBot.opened (date ri) (high ri)))).
  - exists []. simpl. split_and!; try done.
  - intros n row self l evs self' l' ev Hrow Haft
      (spans & H2 & Hsp & Hend & Hled) Hbody.
    pose proof (A_after_Inv _ _ _ _ _ _ _ Haft) as [_ Hpar _ _ Htr _ _ _].
    apply A_loop_body_shape in Hbody as (_ & _ & _ & Hcases).
    destruct Hcases as
      [(-> & _ & Eop & Een & Etra & Etrd & _)
      |[(-> & Hdown & _ & _ & _ & _ & _ & Eop & Een & Etra & Etrd & _)
       |(-> & _ & _ & Hop & _ & Eop & _ & Etrd & _)]].
    + exists spans. rewrite Eop, Een, Etra, Etrd.
      split_and!; [done|done|lia|].
      intros Ho. destruct (Hled Ho) as (i & ri & ? & ? & ? & ? & ?).
      exists i, ri. split_and!; [lia|lia|done..].
    + exists spans. rewrite Een, Etra, Etrd.
      split_and!; [done|done|lia|]. intros _.
      exists n, row. split_and!; [lia|lia|done..].
    + destruct (Hled Hop) as (i & ri & Hlo & Hin & Hri & Hent & Htra).
      rewrite Htra, Hent, Hpar in Etrd.
      exists (spans ++ [(i, n)]).
      rewrite Eop, Etrd, spans_end_snoc. simpl.
      split_and!; [|by apply spans_from_snoc; [| |lia]|lia|done].
      apply Forall2_app; [done|]. apply Forall2_cons; split; [|constructor].
      apply (A_closing_round_trip _ _ i n ri row); [done..|]. left. done.
Qed.
End Ledger_lemmas.

Lemma last_lookup_pred {A} (l : list A) x :
  last l = Some x → l !! (length l - 1) = Some x ∧ S (length l - 1) = length l.
Proof.
  rewrite last_lookup. intros Hx. apply lookup_lt_Some in Hx as Hlt.
  replace (length l - 1) with (pred (length l)) by lia. split; [done|lia].
Qed.

(** X4: the ledger of MaximizePnLBot accounts for itself on the frame.
    The trades that [run_backtest] returns are round trips over successive
    spans of bars that do not overlap: each one records the index and the
    high of the bar that opened it and the index of the bar that closed
    it, with as exit price the low of that later bar, or the close of the
    last bar of the frame, and as pnl (exit_price - entry_price) * volume. *)
Theorem X4_M_ledger_round_trips {F : Type} `{!PyFloat F}
    (df : list (Row F)) (params : Params F) self0 total trades :
  MaximizePnLBot.__init__ df params = Ok self0 →
  MaximizePnLBot.run_backtest self0 = Ok (total, trades) →
  ∃ spans, spans_from 0 spans ∧ Forall2 (M_round_trip df params) spans trades.
Proof.
  intros Hinit Hrun. unfold MaximizePnLBot.run_backtest in Hrun.
  apply Result_bind_inv in Hrun as ([self' evs'] & Hrun & Hres).
  injection Hres as <- <-.
  destruct (M_run_inv _ _ _ _ _ Hinit Hrun)
    as (self & evs & ev & Haft & Hfc & _ & _).
  destruct (M_after_ledger _ _ _ _ _ (le_n _) Haft)
    as (spans & ts & H2 & Hsp & Hend & Hled).
  pose proof (M_force_close_spec df params self evs
                (M_init_nonempty _ _ _ Hinit) (M_after_Inv _ _ _ _ _ Haft))
    as Hspec.
  destruct (MaximizePnLBot.is_position_open self).
  - destruct Hled as (i & ri & Hlo & Hin & Hri & Hent & Htrd).
    destruct Hspec as (rl & ts' & i0 & s' & Hlast & Htrd' & Hfc' & _ & Htrds & _).
    rewrite Hfc in Hfc'. injection Hfc' as <-.
    rewrite Htrd in Htrd'. apply app_inj_tail in Htrd' as [<- Ho].
    rewrite <- Ho, Hent in Htrds. rewrite Htrds.
    destruct (last_lookup_pred _ _ Hlast) as [Hl HS].
    exists (spans ++ [(i, length df - 1)]). split.
    + apply spans_from_snoc; [done|done|lia].
    + apply Forall2_app; [done|]. apply Forall2_cons; split; [|constructor].
      replace (Z.of_nat (length df) - 1)%Z with (Z.of_nat (length df - 1))
        by lia.
      apply (M_closing_round_trip _ _ i (length df - 1) ri rl); [done..|].
      right. done.
  - rewrite Hfc in Hspec. injection Hspec as <-. rewrite Hled.
    by exists spans.
Qed.

Lemma X4_M_ledger_round_trips_witness :
  ∃ ts spans,
    MaximizePnLBot.__init__ [flat_bar; rising_bar; falling_bar]
      (params_M FULL_AI) ≫= MaximizePnLBot.run_backtest
    = Ok ((0 + (0.9 - 1.01) * 10000)%float, ts)
    ∧ spans_from 0 spans
    ∧ Forall2 (M_round_trip [flat_bar; rising_bar; falling_bar]
                 (params_M FULL_AI)) spans ts.
Proof.
  destruct (Result_fmap_inv _ _ _ M_sample_backtest) as ([total ts] & E & Ht).
  cbn [fst] in Ht. subst total.
  destruct (Result_bind_inv _ _ _ E) as (self0 & Hinit & Hrun).
  destruct (X4_M_ledger_round_trips _ _ self0 _ ts Hinit Hrun)
    as (spans & Hsp & H2).
  exists ts, spans. split; [exact E|split; [exact Hsp|exact H2]].
Defined.

(** X5: the ledger of AdvancedDCBot accounts for itself on the frame.
    The trades that [run_backtest] returns are round trips over successive
    spans of bars that do not overlap: each one records the date and the
    high of the bar that opened it and the date of the bar that closed
    it, with as exit price the low of that later bar, or the close of the
    last bar of the frame, and as pnl (exit_price - entry_price) * volume. *)
Theorem X5_A_ledger_round_trips {F : Type} `{!PyFloat F}
    (df : list (Row F)) (params : Params F) total trades :
  AdvancedDCBot.run_backtest (AdvancedDCBot.__init__ df params)
  = Ok (total, trades) →
  ∃ spans, spans_from 0 spans ∧ Forall2 (A_round_trip df params) spans trades.
Proof.
  destruct df as [|row0 rest].
  { intros [= <- <-]. by exists []. }
  intros Hrun. unfold AdvancedDCBot.run_backtest in Hrun.
  change (AdvancedDCBot.df (AdvancedDCBot.__init__ (row0 :: rest) params))
    with (row0 :: rest) in Hrun.
  cbv iota beta in Hrun.
  apply Result_bind_inv in Hrun as ([[self' l'] evs'] & Hrun & Hres).
  injection Hres as <- <-.
  destruct (A_run_inv _ _ _ _ _ _ Hrun)
    as (self & l & evs & ev & Haft & Hfc & _ & _).
  destruct (A_after_ledger _ _ _ _ _ _ _ (le_n _) Haft)
    as (spans & H2 & Hsp & Hend & Hled).
  pose proof (A_force_close_spec (row0 :: rest) params self l evs
                ltac:(done) (A_after_Inv _ _ _ _ _ _ _ Haft)) as Hspec.
  destruct (AdvancedDCBot.is_position_open l).
  - destruct (Hled eq_refl) as (i & ri & Hlo & Hin & Hri & Hent & Htra).
    destruct Hspec as (rl & d0 & s' & l1 & Hlast & Htra' & Hfc' & _ & Htrds & _).
    rewrite Hfc in Hfc'. injection Hfc' as <- <-.
    rewrite Htra in Htra'. rewrite <- Htra', Hent in Htrds. rewrite Htrds.
    destruct (last_lookup_pred _ _ Hlast) as [Hl HS].
    exists (spans ++ [(i, length (row0 :: rest) - 1)]). split.
    + apply spans_from_snoc; [done|done|lia].
    + apply Forall2_app; [done|]. apply Forall2_cons; split; [|constructor].
      apply (A_closing_round_trip _ _ i (length (row0 :: rest) - 1) ri rl);
        [done..|].
      right. done.
  - rewrite Hfc in Hspec. injection Hspec as <- <-. by exists spans.
Qed.

Lemma A_sample_backtest :
  fst <$> AdvancedDCBot.run_backtest
            (AdvancedDCBot.__init__ [flat_bar; rising_bar; falling_bar]
               (params_A FULL_AI))
  = Ok ((0 + (0.9 - 1.01) * 10000)%float).
Proof. vm_compute. reflexivity. Qed.

Lemma X5_A_ledger_round_trips_witness :
  ∃ ts spans,
    AdvancedDCBot.run_backtest
      (AdvancedDCBot.__init__ [flat_bar; rising_bar; falling_bar]
         (params_A FULL_AI))
    = Ok ((0 + (0.9 - 1.01) * 10000)%float, ts)
    ∧ spans_from 0 spans
    ∧ Forall2 (A_round_trip [flat_bar; rising_bar; falling_bar]
                 (params_A FULL_AI)) spans ts.
Proof.
  destruct (Result_fmap_inv _ _ _ A_sample_backtest) as ([total ts] & E & Ht).
  cbn [fst] in Ht. subst total.
  destruct (X5_A_ledger_round_trips _ _ _ ts E) as (spans & Hsp & H2).
  exists ts, spans. split; [exact E|split; [exact Hsp|exact H2]].
Defined.

Ltac M_reduce :=
  cbv beta iota zeta delta
    [MaximizePnLBot.set_total_pnl MaximizePnLBot.set_trades
     MaximizePnLBot.set_current_trend MaximizePnLBot.set_last_extreme
     MaximizePnLBot.set_max_overshoot MaximizePnLBot.set_is_position_open
     MaximizePnLBot.set_entry_price MaximizePnLBot.set_is_trading_paused
     MaximizePnLBot.df MaximizePnLBot.params MaximizePnLBot.total_pnl
     MaximizePnLBot.trades MaximizePnLBot.use_volatility_filter
     MaximizePnLBot.use_classifier MaximizePnLBot.current_trend
     MaximizePnLBot.last_extreme MaximizePnLBot.max_overshoot
     MaximizePnLBot.is_position_open MaximizePnLBot.entry_price
     MaximizePnLBot.is_trading_paused
     mbind mret Result_bind Result_ret].

Section Sim.
Context {F : Type} `{!PyFloat F}.

Lemma M_loop_body_sim i (r1 r2 : Row F) s1 s2 :
  M_sim s1 s2 →
  high r1 = high r2 → low r1 = low r2 →
  sma r1 = sma r2 → rsi r1 = rsi r2 → adx r1 = adx r2 →
  (MaximizePnLBot.use_volatility_filter s1 = true → atr r1 = atr r2) →
  (MaximizePnLBot.use_classifier s1 = true →
   macd r1 = macd r2 ∧ macdsignal r1 = macdsignal r2
   ∧ stoch_k r1 = stoch_k r2 ∧ stoch_d r1 = stoch_d r2) →
  M_sim_result (MaximizePnLBot.loop_body i r1 s1)
    (MaximizePnLBot.loop_body i r2 s2).
Proof.
  destruct s1 as [df1 p1 tot1 ts1 vf1 cl1 tr1 ext1 mo1 op1 en1 pa1],
    s2 as [df2 p2 tot2 ts2 vf2 cl2 tr2 ext2 mo2 op2 en2 pa2].
  destruct r1 as [d1 h1 l1 c1 a1 sm1 rs1 ma1 ms1 sk1 sd1 ad1],
    r2 as [d2 h2 l2 c2 a2 sm2 rs2 ma2 ms2 sk2 sd2 ad2].
  unfold M_sim. simpl.
  intros (-> & -> & -> & -> & -> & -> & -> & -> & -> & -> & ->).
  intros -> -> -> -> -> Hatr Hcl.
  unfold M_sim_result, MaximizePnLBot.loop_body, MaximizePnLBot.trend_logic,
    MaximizePnLBot.classifier_pass, py_div, M_sim.
  simpl.
  destruct vf2; [rewrite (Hatr eq_refl)|]; clear Hatr.
  all: destruct cl2;
    [destruct (Hcl eq_refl) as (-> & -> & -> & ->)|]; clear Hcl.
  all: M_reduce.
  all: repeat (match goal with
         | |- context [if ?c then _ else _] =>
             lazymatch c with
             | context [if _ then _ else _] => fail
             | _ => destruct c eqn:?; M_reduce
             end
         | |- context [update_last ?f ?l] =>
             destruct (update_last f l) eqn:?; M_reduce
         end); done.
Qed.
End Sim.

Section Sim_run.
Context {F : Type} `{!PyFloat F}.

Lemma M_iterrows_frame rows : ∀ i (s s' : MaximizePnLBot.Bot F) evs,
  MaximizePnLBot.iterrows i rows s = Ok (s', evs) →
  MaximizePnLBot.df s' = MaximizePnLBot.df s
  ∧ MaximizePnLBot.use_volatility_filter s'
    = MaximizePnLBot.use_volatility_filter s
  ∧ MaximizePnLBot.use_classifier s' = MaximizePnLBot.use_classifier s.
Proof.
  induction rows as [|row rows IH]; intros i s s' evs H; simpl in H.
  - by injection H as <- <-.
  - apply Result_bind_inv in H as ([s1 ev] & H1 & H).
    apply Result_bind_inv in H as ([s2 evs2] & H2 & H).
    injection H as <- <-.
    apply M_loop_body_shape in H1 as ((E1 & _ & E2 & E3) & _).
    apply IH in H2 as (-> & -> & ->). done.
Qed.

Lemma M_iterrows_sim (m : StrategyMode) rows1 : ∀ rows2 i
    (s1 s2 : MaximizePnLBot.Bot F),
  Forall2 (M_same_reads m) rows1 rows2 →
  M_sim s1 s2 →
  MaximizePnLBot.use_volatility_filter s1
  = bool_decide (m ∈ [FULL_AI; NO_CLASSIFIER]) →
  MaximizePnLBot.use_classifier s1
  = bool_decide (m ∈ [FULL_AI; NO_VOLATILITY_FILTER]) →
  M_sim_result (MaximizePnLBot.iterrows i rows1 s1)
    (MaximizePnLBot.iterrows i rows2 s2).
Proof.
  induction rows1 as [|r1 rows1 IH]; intros rows2 i s1 s2 Hrows Hsim Hvf Hcl.
  - apply Forall2_nil_inv_l in Hrows as ->. done.
  - apply Forall2_cons_inv_l in Hrows
      as (r2 & rows2' & (Hh & Hl & Hsma & Hrsi & Hadx & Hatr & Hind)
          & Hrows & ->).
    simpl.
    assert (M_sim_result (MaximizePnLBot.loop_body i r1 s1)
              (MaximizePnLBot.loop_body i r2 s2)) as Hstep.
    { apply M_loop_body_sim; try done.
      - rewrite Hvf. intros Hm%bool_decide_eq_true. auto.
      - rewrite Hcl. intros Hm%bool_decide_eq_true. auto. }
    destruct (MaximizePnLBot.loop_body i r1 s1) as [[a e1]|x1] eqn:E1,
      (MaximizePnLBot.loop_body i r2 s2) as [[b e2]|x2] eqn:E2;
      simpl in Hstep; try done; simpl.
    apply M_loop_body_shape in E1 as ((_ & _ & Evf & Ecl) & _).
    specialize (IH rows2' (S i) a b Hrows Hstep).
    rewrite Evf, Ecl in IH. specialize (IH Hvf Hcl).
    destruct (MaximizePnLBot.iterrows (S i) rows1 a) as [[a' e1']|],
      (MaximizePnLBot.iterrows (S i) rows2' b) as [[b' e2']|];
      simpl in IH; done.
Qed.

Lemma M_force_close_sim (s1 s2 : MaximizePnLBot.Bot F) :
  M_sim s1 s2 →
  length (MaximizePnLBot.df s1) = length (MaximizePnLBot.df s2) →
  close <$> last (MaximizePnLBot.df s1)
  = close <$> last (MaximizePnLBot.df s2) →
  M_sim_result (MaximizePnLBot.force_close s1) (MaximizePnLBot.force_close s2).
Proof.
  destruct s1 as [df1 p1 tot1 ts1 vf1 cl1 tr1 ext1 mo1 op1 en1 pa1],
    s2 as [df2 p2 tot2 ts2 vf2 cl2 tr2 ext2 mo2 op2 en2 pa2].
  unfold M_sim. simpl.
  intros (-> & -> & -> & -> & -> & -> & -> & -> & -> & -> & ->) Hlen Hlast.
  unfold M_sim_result, MaximizePnLBot.force_close, iloc_last, M_sim. simpl.
  destruct op2; [|done]. rewrite Hlen.
  destruct (last df1) as [rl1|], (last df2) as [rl2|]; simplify_eq/=;
    [|done].
  rewrite Hlast.
  match goal with |- context [update_last ?f ?l] =>
    destruct (update_last f l) eqn:? end; done.
Qed.
End Sim_run.

(** X6: MaximizePnLBot reads only the columns of its mode.  Two frames
    whose rows agree on high, low, sma, rsi and adx, on atr where the mode
    enables the volatility filter, on macd, macdsignal, stoch_k and stoch_d
    where it enables the classifier, and whose last rows agree on close,
    give the same result: the same total and ledger, or the same
    exception.  The date column and the close of every bar but the last
    have no influence in any mode. *)
Theorem X6_M_reads_only_its_columns {F : Type} `{!PyFloat F}
    (df1 df2 : list (Row F)) (params : Params F) :
  Forall2 (M_same_reads (mode params)) df1 df2 →
  close <$> last df1 = close <$> last df2 →
  MaximizePnLBot.__init__ df1 params ≫= MaximizePnLBot.run_backtest
  = MaximizePnLBot.__init__ df2 params ≫= MaximizePnLBot.run_backtest.
Proof.
  intros Hrows Hlast.
  pose proof (Forall2_length _ _ _ Hrows) as Hlen.
  destruct df1 as [|r1 df1], df2 as [|r2 df2]; try done.
  pose proof Hrows as Hrows'.
  apply Forall2_cons_1 in Hrows' as [(_ & Hlow & _) _].
  unfold MaximizePnLBot.__init__. simpl.
  unfold MaximizePnLBot.run_backtest, MaximizePnLBot.run.
  match goal with |- context [MaximizePnLBot.iterrows 0 (MaximizePnLBot.df ?a) ?a] =>
    set (s1 := a) end.
  match goal with |- context [MaximizePnLBot.iterrows 0 (MaximizePnLBot.df ?a) ?a] =>
    lazymatch a with s1 => fail | _ => set (s2 := a) end end.
  assert (M_sim s1 s2) as Hsim.
  { unfold M_sim, s1, s2. simpl. by rewrite Hlow. }
  pose proof (M_iterrows_sim (mode params) (r1 :: df1) (r2 :: df2) 0 s1 s2
                Hrows Hsim eq_refl eq_refl) as Hloop.
  change (MaximizePnLBot.df s1) with (r1 :: df1).
  change (MaximizePnLBot.df s2) with (r2 :: df2).
  destruct (MaximizePnLBot.iterrows 0 (r1 :: df1) s1) as [[a e1]|x1] eqn:E1,
    (MaximizePnLBot.iterrows 0 (r2 :: df2) s2) as [[b e2]|x2] eqn:E2;
    simpl in Hloop; try done; simpl; try by subst.
  apply M_iterrows_frame in E1 as (Ed1 & _), E2 as (Ed2 & _).
  pose proof (M_force_close_sim a b Hloop) as Hfc.
  rewrite Ed1, Ed2 in Hfc. specialize (Hfc Hlen Hlast).
  destruct (MaximizePnLBot.force_close a) as [[a' e1']|],
    (MaximizePnLBot.force_close b) as [[b' e2']|]; simpl in Hfc; try done;
    simpl; try by subst.
  destruct Hfc as (_ & -> & -> & _). done.
Qed.

Ltac A_reduce :=
  cbv beta iota zeta delta
    [AdvancedDCBot.set_total_pnl AdvancedDCBot.set_trades
     AdvancedDCBot.set_current_trend AdvancedDCBot.set_last_extreme_price
     AdvancedDCBot.set_max_overshoot AdvancedDCBot.set_is_position_open
     AdvancedDCBot.set_entry_price AdvancedDCBot.set_is_trading_paused
     AdvancedDCBot.set_trade
     AdvancedDCBot.df AdvancedDCBot.params AdvancedDCBot.total_pnl
     AdvancedDCBot.trades AdvancedDCBot.use_volatility_filter
     AdvancedDCBot.use_classifier AdvancedDCBot.current_trend
     AdvancedDCBot.last_extreme_price AdvancedDCBot.max_overshoot
     AdvancedDCBot.is_position_open AdvancedDCBot.entry_price
     AdvancedDCBot.is_trading_paused AdvancedDCBot.trade
     mbind mret Result_bind Result_ret].

Section A_sim_lemmas.
Context {F : Type} `{!PyFloat F}.

Lemma A_loop_body_sim i j (r1 r2 : Row F) s1 s2 l :
  A_sim s1 s2 →
  date r1 = date r2 → high r1 = high r2 → low r1 = low r2 →
  fisnan (sma r1) = fisnan (sma r2) →
  (AdvancedDCBot.use_volatility_filter s1 = true → atr r1 = atr r2) →
  (AdvancedDCBot.use_classifier s1 = true →
   sma r1 = sma r2 ∧ rsi r1 = rsi r2
   ∧ macd r1 = macd r2 ∧ macdsignal r1 = macdsignal r2
   ∧ stoch_k r1 = stoch_k r2 ∧ stoch_d r1 = stoch_d r2
   ∧ adx r1 = adx r2) →
  A_sim_result (AdvancedDCBot.loop_body i r1 s1 l)
    (AdvancedDCBot.loop_body j r2 s2 l).
Proof.
  destruct s1 as [df1 p1 ts1 tot1 vf1 cl1], s2 as [df2 p2 ts2 tot2 vf2 cl2].
  destruct r1 as [d1 h1 l1 c1 a1 sm1 rs1 ma1 ms1 sk1 sd1 ad1],
    r2 as [d2 h2 l2 c2 a2 sm2 rs2 ma2 ms2 sk2 sd2 ad2].
  destruct l as [tr ext mo op en pa t].
  unfold A_sim. simpl.
  intros (-> & -> & -> & -> & ->).
  intros -> -> -> Hnan Hatr Hcl.
  unfold A_sim_result, AdvancedDCBot.loop_body, AdvancedDCBot.trend_logic,
    AdvancedDCBot.classifier_pass, py_div, py_all, A_sim.
  simpl. rewrite Hnan.
  destruct vf2; [rewrite (Hatr eq_refl)|]; clear Hatr.
  all: destruct cl2;
    [destruct (Hcl eq_refl) as (-> & -> & -> & -> & -> & -> & ->)|];
    clear Hcl.
  all: A_reduce.
  all: repeat (match goal with
         | |- context [if ?c then _ else _] =>
             lazymatch c with
             | context [if _ then _ else _] => fail
             | _ => destruct c eqn:?; A_reduce
             end
         end); done.
Qed.

Lemma A_iterrows_frame rows : ∀ i (s s' : AdvancedDCBot.Bot F) l l' evs,
  AdvancedDCBot.iterrows i rows s l = Ok (s', l', evs) →
  AdvancedDCBot.df s' = AdvancedDCBot.df s
  ∧ AdvancedDCBot.use_volatility_filter s'
    = AdvancedDCBot.use_volatility_filter s
  ∧ AdvancedDCBot.use_classifier s' = AdvancedDCBot.use_classifier s.
Proof.
  induction rows as [|row rows IH]; intros i s s' l l' evs H; simpl in H.
  - by injection H as <- <- <-.
  - apply Result_bind_inv in H as ([[s1 l1] ev] & H1 & H).
    apply Result_bind_inv in H as ([[s2 l2] evs2] & H2 & H).
    injection H as <- <- <-.
    apply A_loop_body_shape in H1 as ((E1 & _ & E2 & E3) & _).
    apply IH in H2 as (-> & -> & ->). done.
Qed.

Lemma A_iterrows_sim (m : StrategyMode) rows1 : ∀ rows2 i j
    (s1 s2 : AdvancedDCBot.Bot F) l,
  Forall2 (A_same_reads m) rows1 rows2 →
  A_sim s1 s2 →
  AdvancedDCBot.use_volatility_filter s1
  = bool_decide (m ∈ [FULL_AI; NO_CLASSIFIER]) →
  AdvancedDCBot.use_classifier s1
  = bool_decide (m ∈ [FULL_AI; NO_VOLATILITY_FILTER]) →
  A_sim_result (AdvancedDCBot.iterrows i rows1 s1 l)
    (AdvancedDCBot.iterrows j rows2 s2 l).
Proof.
  induction rows1 as [|r1 rows1 IH];
    intros rows2 i j s1 s2 l Hrows Hsim Hvf Hcl.
  - apply Forall2_nil_inv_l in Hrows as ->. done.
  - apply Forall2_cons_inv_l in Hrows
      as (r2 & rows2' & (Hd & Hh & Hl & Hnan & Hatr & Hind) & Hrows & ->).
    simpl.
    assert (A_sim_result (AdvancedDCBot.loop_body i r1 s1 l)
              (AdvancedDCBot.loop_body j r2 s2 l)) as Hstep.
    { apply A_loop_body_sim; try done.
      - rewrite Hvf. intros Hm%bool_decide_eq_true. auto.
      - rewrite Hcl. intros Hm%bool_decide_eq_true. auto. }
    destruct (AdvancedDCBot.loop_body i r1 s1 l) as [[[a la] e1]|x1] eqn:E1,
      (AdvancedDCBot.loop_body j r2 s2 l) as [[[b lb] e2]|x2] eqn:E2;
      simpl in Hstep; try done; simpl.
    destruct Hstep as [Hstep <-].
    apply A_loop_body_shape in E1 as ((_ & _ & Evf & Ecl) & _).
    specialize (IH rows2' (S i) (S j) a b la Hrows Hstep).
    rewrite Evf, Ecl in IH. specialize (IH Hvf Hcl).
    destruct (AdvancedDCBot.iterrows (S i) rows1 a la) as [[[a' la'] e1']|],
      (AdvancedDCBot.iterrows (S j) rows2' b la) as [[[b' lb'] e2']|];
      simpl in IH; done.
Qed.

Lemma A_force_close_sim (s1 s2 : AdvancedDCBot.Bot F) l :
  A_sim s1 s2 →
  close <$> last (AdvancedDCBot.df s1) = close <$> last (AdvancedDCBot.df s2) →
  date <$> last (AdvancedDCBot.df s1) = date <$> last (AdvancedDCBot.df s2) →
  A_sim_result (AdvancedDCBot.force_close s1 l)
    (AdvancedDCBot.force_close s2 l).
Proof.
  destruct s1 as [df1 p1 ts1 tot1 vf1 cl1], s2 as [df2 p2 ts2 tot2 vf2 cl2].
  unfold A_sim. simpl.
  intros (-> & -> & -> & -> & ->) Hlast Hdate.
  unfold A_sim_result, AdvancedDCBot.force_close, iloc_last, A_sim. simpl.
  destruct (AdvancedDCBot.is_position_open l); [|done].
  destruct (last df1) as [rl1|], (last df2) as [rl2|]; simplify_eq/=;
    [|done].
  rewrite Hlast, Hdate. done.
Qed.

(** Two runs of [AdvancedDCBot] from bots in the same state, over frames
    that agree where the mode reads them. *)
Lemma A_run_sim (m : StrategyMode) (s1 s2 : AdvancedDCBot.Bot F) rows1 rows2
    row0 :
  Forall2 (A_same_reads m) rows1 rows2 →
  A_sim s1 s2 →
  AdvancedDCBot.use_volatility_filter s1
  = bool_decide (m ∈ [FULL_AI; NO_CLASSIFIER]) →
  AdvancedDCBot.use_classifier s1
  = bool_decide (m ∈ [FULL_AI; NO_VOLATILITY_FILTER]) →
  close <$> last (AdvancedDCBot.df s1) = close <$> last (AdvancedDCBot.df s2) →
  date <$> last (AdvancedDCBot.df s1) = date <$> last (AdvancedDCBot.df s2) →
  ('(self, l, evs) ← AdvancedDCBot.iterrows 0 rows1 s1
                       (AdvancedDCBot.locals0 row0);
   '(self, _, _) ← AdvancedDCBot.force_close self l;
   Ok (AdvancedDCBot.total_pnl self, AdvancedDCBot.trades self))
  = ('(self, l, evs) ← AdvancedDCBot.iterrows 0 rows2 s2
                         (AdvancedDCBot.locals0 row0);
     '(self, _, _) ← AdvancedDCBot.force_close self l;
     Ok (AdvancedDCBot.total_pnl self, AdvancedDCBot.trades self)).
Proof.
  intros Hrows Hsim Hvf Hcl Hlast Hdate.
  pose proof (A_iterrows_sim m rows1 rows2 0 0 s1 s2
                (AdvancedDCBot.locals0 row0) Hrows Hsim Hvf Hcl) as Hloop.
  destruct (AdvancedDCBot.iterrows 0 rows1 s1 _) as [[[a la] e1]|x1] eqn:E1,
    (AdvancedDCBot.iterrows 0 rows2 s2 _) as [[[b lb] e2]|x2] eqn:E2;
    simpl in Hloop; try done; simpl; try by subst.
  destruct Hloop as [Hloop <-].
  apply A_iterrows_frame in E1 as (Ed1 & _), E2 as (Ed2 & _).
  pose proof (A_force_close_sim a b la Hloop) as Hfc.
  rewrite Ed1, Ed2 in Hfc. specialize (Hfc Hlast Hdate).
  destruct (AdvancedDCBot.force_close a la) as [[[a' la'] e1']|],
    (AdvancedDCBot.force_close b la) as [[[b' lb'] e2']|]; simpl in Hfc;
    try done; simpl; try by subst.
  destruct Hfc as [(_ & -> & -> & _) _]. done.
Qed.
End A_sim_lemmas.

(** X7: AdvancedDCBot reads only the columns of its mode.  Two frames
    whose rows agree on date, high and low and on whether the sma is
    defined, on atr where the mode enables the volatility filter, on sma,
    rsi, macd, macdsignal, stoch_k, stoch_d and adx where it enables the
    classifier, and whose last rows agree on close, give the same total
    and the same ledger.  The close of every bar but the last has no
    influence in any mode. *)
Theorem X7_A_reads_only_its_columns {F : Type} `{!PyFloat F}
    (df1 df2 : list (Row F)) (params : Params F) :
  Forall2 (A_same_reads (mode params)) df1 df2 →
  close <$> last df1 = close <$> last df2 →
  AdvancedDCBot.run_backtest (AdvancedDCBot.__init__ df1 params)
  = AdvancedDCBot.run_backtest (AdvancedDCBot.__init__ df2 params).
Proof.
  intros Hrows Hlast.
  assert (date <$> last df1 = date <$> last df2) as Hdate.
  { clear Hlast. induction Hrows as [|r1 r2 l1 l2 Hr Hrows IH]; [done|].
    destruct Hrows as [|r1' r2' l1' l2' Hr' Hrows'].
    - simpl. by destruct Hr as (-> & _).
    - exact IH. }
  destruct df1 as [|r1 df1], df2 as [|r2 df2];
    try (by apply Forall2_length in Hrows).
  pose proof Hrows as Hrows'.
  apply Forall2_cons_1 in Hrows' as [(_ & _ & Hlow & _) _].
  unfold AdvancedDCBot.run_backtest, AdvancedDCBot.run.
  change (AdvancedDCBot.df (AdvancedDCBot.__init__ (r1 :: df1) params))
    with (r1 :: df1).
  change (AdvancedDCBot.df (AdvancedDCBot.__init__ (r2 :: df2) params))
    with (r2 :: df2).
  cbv iota beta.
  assert (AdvancedDCBot.locals0 r2 = AdvancedDCBot.locals0 r1) as ->.
  { unfold AdvancedDCBot.locals0. by rewrite Hlow. }
  pose proof (A_run_sim (mode params)
                (AdvancedDCBot.__init__ (r1 :: df1) params)
                (AdvancedDCBot.__init__ (r2 :: df2) params)
                (r1 :: df1) (r2 :: df2) r1 Hrows) as Hrun.
  specialize (Hrun ltac:(done) eq_refl eq_refl Hlast Hdate).
  destruct (AdvancedDCBot.iterrows 0 (r1 :: df1) _ _) as [[[a la] e1]|x1],
    (AdvancedDCBot.iterrows 0 (r2 :: df2) _ _) as [[[b lb] e2]|x2];
    simpl in *; try done.
  - destruct (AdvancedDCBot.force_close a la) as [[[a' la'] e1']|],
      (AdvancedDCBot.force_close b lb) as [[[b' lb'] e2']|]; simpl in *; done.
  - by destruct (AdvancedDCBot.force_close a la) as [[[a' la'] e1']|].
  - by destruct (AdvancedDCBot.force_close b lb) as [[[b' lb'] e2']|].
Qed.

Section Drop.
Context {F : Type} `{!PyFloat F}.

Lemma A_loop_body_undefined i (row : Row F) s l :
  fisnan (sma row) = true →
  AdvancedDCBot.loop_body i row s l = Ok (s, l, []).
Proof. unfold AdvancedDCBot.loop_body. by intros ->. Qed.

Lemma A_sim_refl (s : AdvancedDCBot.Bot F) : A_sim s s.
Proof. by repeat split. Qed.

Lemma A_iterrows_drop rows : ∀ i j (s1 s2 : AdvancedDCBot.Bot F) l,
  A_sim s1 s2 →
  A_sim_result (AdvancedDCBot.iterrows i rows s1 l)
    (AdvancedDCBot.iterrows j (drop_undefined_sma rows) s2 l).
Proof.
  unfold drop_undefined_sma.
  induction rows as [|row rows IH]; intros i j s1 s2 l Hsim; [done|].
  destruct (fisnan (sma row)) eqn:Hnan.
  - rewrite filter_cons_False by (by rewrite Hnan).
    simpl. rewrite (A_loop_body_undefined _ _ _ _ Hnan). simpl.
    specialize (IH (S i) j s1 s2 l Hsim).
    destruct (AdvancedDCBot.iterrows (S i) rows s1 l) as [[[a la] e1]|],
      (AdvancedDCBot.iterrows j _ s2 l) as [[[b lb] e2]|]; done.
  - rewrite filter_cons_True by done. simpl.
    pose proof (A_loop_body_sim i j row row s1 s2 l Hsim eq_refl eq_refl
                  eq_refl eq_refl (λ _, eq_refl)) as Hstep.
    specialize (Hstep ltac:(by intros _; split_and!)).
    destruct (AdvancedDCBot.loop_body i row s1 l) as [[[a la] e1]|x1],
      (AdvancedDCBot.loop_body j row s2 l) as [[[b lb] e2]|x2];
      simpl in Hstep; try done; simpl.
    destruct Hstep as [Hstep <-].
    specialize (IH (S i) (S j) a b la Hstep).
    destruct (AdvancedDCBot.iterrows (S i) rows a la) as [[[a' la'] e1']|],
      (AdvancedDCBot.iterrows (S j) _ b la) as [[[b' lb'] e2']|]; done.
Qed.

Lemma last_drop_undefined_sma (df : list (Row F)) r :
  last df = Some r → fisnan (sma r) = false →
  last (drop_undefined_sma df) = Some r.
Proof.
  intros [l' ->]%last_Some Hr. unfold drop_undefined_sma.
  rewrite filter_app, filter_cons_True, filter_nil by done.
  by rewrite last_snoc.
Qed.
End Drop.

(** X8: AdvancedDCBot skips the rows whose sma is undefined.  On a frame
    whose first and last rows have a defined sma, [run_backtest] returns
    the same total and the same ledger as on the frame from which the rows
    with an undefined sma have been dropped. *)
Theorem X8_A_undefined_sma_rows_are_skipped {F : Type} `{!PyFloat F}
    (row0 : Row F) (rest : list (Row F)) (params : Params F) :
  fisnan (sma row0) = false →
  (∀ r, last (row0 :: rest) = Some r → fisnan (sma r) = false) →
  AdvancedDCBot.run_backtest (AdvancedDCBot.__init__ (row0 :: rest) params)
  = AdvancedDCBot.run_backtest
      (AdvancedDCBot.__init__ (drop_undefined_sma (row0 :: rest)) params).
Proof.
  intros Hfirst Hlast.
  destruct (last_cons_is_Some row0 rest) as [rl Hrl].
  pose proof (last_drop_undefined_sma _ _ Hrl (Hlast _ Hrl)) as Hrl'.
  assert (drop_undefined_sma (row0 :: rest)
          = row0 :: drop_undefined_sma rest) as Hdrop.
  { unfold drop_undefined_sma. by rewrite filter_cons_True. }
  unfold AdvancedDCBot.run_backtest, AdvancedDCBot.run.
  change (AdvancedDCBot.df (AdvancedDCBot.__init__ ?d params)) with d.
  rewrite Hdrop at 1. cbv iota beta.
  pose proof (A_iterrows_drop (row0 :: rest) 0 0
                (AdvancedDCBot.__init__ (row0 :: rest) params)
                (AdvancedDCBot.__init__ (drop_undefined_sma (row0 :: rest))
                   params)
                (AdvancedDCBot.locals0 row0) ltac:(done)) as Hloop.
  destruct (AdvancedDCBot.iterrows 0 (row0 :: rest) _ _)
    as [[[a la] e1]|x1] eqn:E1,
    (AdvancedDCBot.iterrows 0 (drop_undefined_sma (row0 :: rest)) _ _)
    as [[[b lb] e2]|x2] eqn:E2;
    simpl in Hloop; try done; simpl; try by subst.
  destruct Hloop as [Hloop <-].
  apply A_iterrows_frame in E1 as (Ed1 & _), E2 as (Ed2 & _).
  pose proof (A_force_close_sim a b la Hloop) as Hfc.
  rewrite Ed1, Ed2 in Hfc.
  change (AdvancedDCBot.df (AdvancedDCBot.__init__ ?d params)) with d in Hfc.
  rewrite Hrl, Hrl' in Hfc. specialize (Hfc eq_refl eq_refl).
  destruct (AdvancedDCBot.force_close a la) as [[[a' la'] e1']|],
    (AdvancedDCBot.force_close b la) as [[[b' lb'] e2']|]; simpl in Hfc;
    try done; simpl; try by subst.
  destruct Hfc as [(_ & -> & -> & _) _]. done.
Qed.

Lemma X6_M_reads_only_its_columns_witness :
  MaximizePnLBot.__init__ [flat_bar; rising_bar; falling_bar]
    (params_M BASELINE) ≫= MaximizePnLBot.run_backtest
  = MaximizePnLBot.__init__
      [M_other_columns flat_bar; M_other_columns rising_bar;
       with_close (close falling_bar) (M_other_columns falling_bar)]
      (params_M BASELINE) ≫= MaximizePnLBot.run_backtest.
Proof.
  apply (X6_M_reads_only_its_columns
           [flat_bar; rising_bar; falling_bar]
           [M_other_columns flat_bar; M_other_columns rising_bar;
            with_close (close falling_bar) (M_other_columns falling_bar)]
           (params_M BASELINE)).
  - repeat (apply Forall2_cons; split; [|]); [| | |apply Forall2_nil_2].
    all: repeat (split; [reflexivity|]).
    all: split; intros Hm;
      match type of Hm with
      | ?P => exact (False_ind _ (bool_decide_eq_false_1 P eq_refl Hm))
      end.
  - reflexivity.
Defined.

Lemma X7_A_reads_only_its_columns_witness :
  AdvancedDCBot.run_backtest
    (AdvancedDCBot.__init__ [flat_bar; rising_bar; falling_bar]
       (params_A BASELINE))
  = AdvancedDCBot.run_backtest
      (AdvancedDCBot.__init__
         [A_other_columns flat_bar; A_other_columns rising_bar;
          with_close (close falling_bar) (A_other_columns falling_bar)]
         (params_A BASELINE)).
Proof.
  apply (X7_A_reads_only_its_columns
           [flat_bar; rising_bar; falling_bar]
           [A_other_columns flat_bar; A_other_columns rising_bar;
            with_close (close falling_bar) (A_other_columns falling_bar)]
           (params_A BASELINE)).
  - repeat (apply Forall2_cons; split; [|]); [| | |apply Forall2_nil_2].
    all: repeat (split; [reflexivity|]).
    all: split; intros Hm;
      match type of Hm with
      | ?P => exact (False_ind _ (bool_decide_eq_false_1 P eq_refl Hm))
      end.
  - reflexivity.
Defined.

Lemma X8_A_undefined_sma_rows_are_skipped_witness :
  AdvancedDCBot.run_backtest
    (AdvancedDCBot.__init__
       (flat_bar :: [undefined_sma_bar; rising_bar; falling_bar])
       (params_A FULL_AI))
  = AdvancedDCBot.run_backtest
      (AdvancedDCBot.__init__
         (drop_undefined_sma
            (flat_bar :: [undefined_sma_bar; rising_bar; falling_bar]))
         (params_A FULL_AI)).
Proof.
  apply (X8_A_undefined_sma_rows_are_skipped
           flat_bar [undefined_sma_bar; rising_bar; falling_bar]
           (params_A FULL_AI)).
  - reflexivity.
  - intros r Hr. injection Hr as <-. reflexivity.
Defined.

Lemma SFcompare_nan_l (x y : spec_float) :
  SFeqb x x = false → SFltb x y = false.
Proof.
  unfold SFeqb, SFltb, SFcompare.
  destruct x as [sx|sx| |sx mx ex]; try done.
  all: destruct sx; try done.
  all: rewrite Z.compare_refl;
    change (PosDef.Pos.compare_cont Eq mx mx) with (Pos.compare mx mx);
    by rewrite Pos.compare_refl.
Qed.

Lemma SFltb_irrefl (x : spec_float) : SFltb x x = false.
Proof.
  unfold SFltb, SFcompare.
  destruct x as [sx|sx| |sx mx ex]; try done.
  all: destruct sx; try done.
  all: rewrite Z.compare_refl;
    change (PosDef.Pos.compare_cont Eq mx mx) with (Pos.compare mx mx);
    by rewrite Pos.compare_refl.
Qed.

#[export] Instance float_NanLaws : NanLaws float.
Proof.
  split. intros a b. simpl. unfold PrimFloat.is_nan.
  rewrite FloatAxioms.ltb_spec, FloatAxioms.eqb_spec. intros Hn%negb_true_iff.
  by apply SFcompare_nan_l.
Qed.

#[export] Instance R_NanLaws : NanLaws R.
Proof. split. intros a b. by simpl. Qed.

#[export] Instance float_IrreflLaws : IrreflLaws float.
Proof. split. intros a. simpl. rewrite ltb_spec. apply SFltb_irrefl. Qed.

#[export] Instance R_IrreflLaws : IrreflLaws R.
Proof.
  split. intros a. simpl. apply bool_decide_eq_false. apply Rlt_irrefl.
Qed.

Section Unconfirmed.
Context {F : Type} `{!PyFloat F}.

(** [MaximizePnLBot] in the Down state, on a row that the classifier
    does not pass: nothing is opened and nothing raises. *)
Lemma M_loop_body_unconfirmed i row (s : MaximizePnLBot.Bot F) :
  MaximizePnLBot.current_trend s = (-1)%Z →
  MaximizePnLBot.classifier_pass s row = false →
  ∃ s', MaximizePnLBot.loop_body i row s = Ok (s', [])
        ∧ MaximizePnLBot.current_trend s' = (-1)%Z
        ∧ MaximizePnLBot.is_position_open s' = MaximizePnLBot.is_position_open s
        ∧ MaximizePnLBot.trades s' = MaximizePnLBot.trades s
        ∧ MaximizePnLBot.total_pnl s' = MaximizePnLBot.total_pnl s
        ∧ MaximizePnLBot.use_classifier s' = MaximizePnLBot.use_classifier s
        ∧ MaximizePnLBot.params s' = MaximizePnLBot.params s.
Proof.
  destruct s as [df1 p1 tot1 ts1 vf1 cl1 tr1 ext1 mo1 op1 en1 pa1].
  simpl. intros -> Hpass.
  unfold MaximizePnLBot.loop_body, MaximizePnLBot.trend_logic,
    MaximizePnLBot.classifier_pass in *.
  M_reduce. simpl in Hpass.
  repeat (match goal with
          | |- context [if ?c then _ else _] =>
              lazymatch c with
              | context [if _ then _ else _] => fail
              | _ => destruct c eqn:?; try discriminate; M_reduce
              end
          end); eexists; split_and!; reflexivity.
Qed.

Lemma M_iterrows_unconfirmed rows : ∀ i (s : MaximizePnLBot.Bot F),
  MaximizePnLBot.current_trend s = (-1)%Z →
  Forall (λ row,
    (if MaximizePnLBot.use_classifier s
     then strict_tier (of_int 10) (MaximizePnLBot.params s) row
     else relaxed_tier (MaximizePnLBot.params s) row) = false) rows →
  ∃ s', MaximizePnLBot.iterrows i rows s = Ok (s', [])
        ∧ MaximizePnLBot.is_position_open s' = MaximizePnLBot.is_position_open s
        ∧ MaximizePnLBot.trades s' = MaximizePnLBot.trades s
        ∧ MaximizePnLBot.total_pnl s' = MaximizePnLBot.total_pnl s.
Proof.
  induction rows as [|row rows IH]; intros i s Htr Hrows; simpl.
  - by exists s.
  - apply Forall_cons in Hrows as [Hrow Hrows].
    rewrite <- M_classifier_pass_eq in Hrow.
    destruct (M_loop_body_unconfirmed i row s Htr Hrow)
      as (s1 & -> & Htr1 & Eop & Etrd & Etot & Ecl & Epar).
    simpl. rewrite <- Ecl, <- Epar in Hrows.
    destruct (IH (S i) s1 Htr1 Hrows) as (s2 & -> & Eop2 & Etrd2 & Etot2).
    simpl. exists s2. split_and!; [done|congruence..].
Qed.

Lemma A_iterrows_all_undefined rows : ∀ i (s : AdvancedDCBot.Bot F) l,
  Forall (λ row, fisnan (sma row) = true) rows →
  AdvancedDCBot.iterrows i rows s l = Ok (s, l, []).
Proof.
  induction rows as [|row rows IH]; intros i s l Hrows; simpl; [done|].
  apply Forall_cons in Hrows as [Hrow Hrows].
  rewrite (A_loop_body_undefined _ _ _ _ Hrow). simpl.
  by rewrite IH.
Qed.
End Unconfirmed.

(** X9: a frame without a defined sma is never traded under the
    classifier.  When the sma is NaN on every row, [AdvancedDCBot] returns
    a total of 0 and an empty ledger in every mode, and so does
    [MaximizePnLBot], without raising, in the modes that enable the
    classifier (FULL_AI, NO_VOLATILITY_FILTER), a comparison with NaN being
    false. *)
Theorem X9_undefined_sma_no_trade {F : Type} `{!PyFloat F} `{!NanLaws F}
    (df : list (Row F)) (params : Params F) :
  Forall (λ row, fisnan (sma row) = true) df →
  (df ≠ [] → mode params ∈ [FULL_AI; NO_VOLATILITY_FILTER] →
   MaximizePnLBot.__init__ df params ≫= MaximizePnLBot.run_backtest
   = Ok (of_int 0, []))
  ∧ AdvancedDCBot.run_backtest (AdvancedDCBot.__init__ df params)
    = Ok (of_int 0, []).
Proof.
  intros Hnan. split.
  - intros Hne Hmode. destruct df as [|row0 rest]; [done|].
    unfold MaximizePnLBot.__init__. simpl.
    unfold MaximizePnLBot.run_backtest, MaximizePnLBot.run.
    match goal with
    | |- context [MaximizePnLBot.iterrows 0 (MaximizePnLBot.df ?a) ?a] =>
        set (s0 := a)
    end.
    destruct (M_iterrows_unconfirmed (MaximizePnLBot.df s0) 0 s0 eq_refl)
      as (s' & -> & Eop & Etrd & Etot).
    { unfold s0. simpl. rewrite bool_decide_eq_true_2 by done.
      eapply Forall_impl; [exact Hnan|]. intros row Hrow. simpl in Hrow.
      unfold strict_tier. by rewrite (flt_nan _ _ Hrow). }
    simpl. unfold MaximizePnLBot.force_close. rewrite Eop. simpl.
    by rewrite Etrd, Etot.
  - destruct df as [|row0 rest]; [done|].
    unfold AdvancedDCBot.run_backtest, AdvancedDCBot.run.
    change (AdvancedDCBot.df (AdvancedDCBot.__init__ (row0 :: rest) params))
      with (row0 :: rest).
    cbv iota beta. rewrite A_iterrows_all_undefined by done. done.
Qed.

Lemma X9_undefined_sma_no_trade_witness :
  MaximizePnLBot.__init__ undefined_sma_frame (params_M FULL_AI)
    ≫= MaximizePnLBot.run_backtest
  = Ok (of_int 0, [])
  ∧ AdvancedDCBot.run_backtest
      (AdvancedDCBot.__init__ undefined_sma_frame (params_M FULL_AI))
    = Ok (of_int 0, []).
Proof.
  destruct (X9_undefined_sma_no_trade undefined_sma_frame (params_M FULL_AI))
    as [HM HA].
  - repeat (apply Forall_cons; split; [reflexivity|]). apply Forall_nil_2.
  - split; [apply HM|exact HA].
    + discriminate.
    + constructor.
Defined.

Lemma leg_start_snoc evs e i : bar_of e = Some i → leg_start (evs ++ [e]) = i.
Proof. unfold leg_start. rewrite last_snoc. by intros ->. Qed.

Section Extremum.
Context {F : Type} `{!PyFloat F} `{!OrderLaws F} `{!IrreflLaws F}.

Lemma running_extremum_reset up (df : list (Row F)) seen n row :
  df !! n = Some row →
  running_extremum up df seen n (S n) ((if up then high else low) row).
Proof.
  intros Hrow. split.
  - exists n, row. split_and!; [lia|lia|done..].
  - intros k rk Hs Hk Hrk _. assert (k = n) as -> by lia.
    rewrite Hrow in Hrk. injection Hrk as <-.
    destruct up; apply flt_irrefl.
Qed.

Lemma running_extremum_skip up (df : list (Row F)) seen s n row x :
  df !! n = Some row → seen row = false →
  running_extremum up df seen s n x →
  running_extremum up df seen s (S n) x.
Proof.
  intros Hrow Hseen [(j & rj & ? & ? & ? & ?) Hall]. split.
  - exists j, rj. split_and!; [lia|lia|done..].
  - intros k rk Hs Hk Hrk Hsk.
    destruct (decide (k = n)) as [->|Hne].
    + rewrite Hrow in Hrk. injection Hrk as <-. congruence.
    + apply (Hall k rk); [lia|lia|done..].
Qed.

Lemma running_extremum_step up (df : list (Row F)) seen s n row x :
  df !! n = Some row → s ≤ n →
  running_extremum up df seen s n x →
  running_extremum up df seen s (S n)
    (if up then (if (high row >? x)%py then high row else x)
     else (if (low row <? x)%py then low row else x)).
Proof.
  intros Hrow Hsn [(j & rj & ? & ? & ? & ?) Hall].
  destruct up.
  - destruct (high row >? x)%py eqn:Hc.
    + split.
      * exists n, row. split_and!; [lia|lia|done..].
      * intros k rk Hs Hk Hrk Hsk.
        destruct (decide (k = n)) as [->|Hne].
        -- rewrite Hrow in Hrk. injection Hrk as <-. apply flt_irrefl.
        -- specialize (Hall k rk Hs ltac:(lia) Hrk Hsk). simpl in Hall.
           destruct (high rk >? high row)%py eqn:Hc'; [|done].
           by rewrite (flt_trans _ _ _ Hc Hc') in Hall.
    + split.
      * exists j, rj. split_and!; [lia|lia|done..].
      * intros k rk Hs Hk Hrk Hsk.
        destruct (decide (k = n)) as [->|Hne].
        -- rewrite Hrow in Hrk. by injection Hrk as <-.
        -- apply (Hall k rk); [lia|lia|done..].
  - destruct (low row <? x)%py eqn:Hc.
    + split.
      * exists n, row. split_and!; [lia|lia|done..].
      * intros k rk Hs Hk Hrk Hsk.
        destruct (decide (k = n)) as [->|Hne].
        -- rewrite Hrow in Hrk. injection Hrk as <-. apply flt_irrefl.
        -- specialize (Hall k rk Hs ltac:(lia) Hrk Hsk). simpl in Hall.
           destruct (low rk <? low row)%py eqn:Hc'; [|done].
           by rewrite (flt_trans _ _ _ Hc' Hc) in Hall.
    + split.
      * exists j, rj. split_and!; [lia|lia|done..].
      * intros k rk Hs Hk Hrk Hsk.
        destruct (decide (k = n)) as [->|Hne].
        -- rewrite Hrow in Hrk. by injection Hrk as <-.
        -- apply (Hall k rk); [lia|lia|done..].
Qed.
End Extremum.

Section Extremum_runs.
Context {F : Type} `{!PyFloat F} `{!OrderLaws F} `{!IrreflLaws F}.

Lemma M_after_extremum (df0 : list (Row F)) params0 n self evs :
  n ≤ length df0 →
  MaximizePnLBot.after n df0 params0 = Ok (self, evs) →
  running_extremum (MaximizePnLBot.is_position_open self) df0
    (M_seen params0) (leg_start evs) n (MaximizePnLBot.last_extreme self).
Proof.
  revert n self evs.
  apply (M_after_ind (λ n self evs,
    running_extremum (MaximizePnLBot.is_position_open self) df0
      (M_seen params0) (leg_start evs) n (MaximizePnLBot.last_extreme self))).
  - intros self Hinit. destruct df0 as [|row0 df0]; [done|].
    injection Hinit as <-. simpl. split.
    + exists 0, row0. unfold leg_start. simpl. split_and!; [lia|lia|done..].
    + intros k rk _ Hk. lia.
  - intros n row self evs self' ev Hrow Haft IH Hbody.
    pose proof (M_after_Inv _ _ _ _ _ Haft) as [_ Hpar Hvf _ Htr _ _ _].
    pose proof (M_loop_body_shape _ _ _ _ _ Hbody) as (_ & _ & _ & Hcases).
    assert (leg_start evs ≤ n) as Hsn.
    { destruct IH as [(j & rj & ? & ? & _) _]. lia. }
    assert (M_seen params0 row = negb (MaximizePnLBot.gated self row))
      as Hseen.
    { unfold M_seen, MaximizePnLBot.gated. by rewrite Hvf, Hpar. }
    apply M_loop_body_extreme in Hbody
      as [(Hg & -> & ->)|(Hg & [(-> & ->)|[(-> & ->)|(-> & ->)]])].
    + destruct Hcases as [(_ & _ & -> & _)|[(? & _)|(? & _)]]; [|done..].
      rewrite app_nil_r. apply (running_extremum_skip _ _ _ _ _ row); try done.
      by rewrite Hseen, Hg.
    + destruct Hcases as [(_ & _ & -> & _)|[(? & _)|(? & _)]]; [|done..].
      rewrite app_nil_r. rewrite Htr.
      destruct (MaximizePnLBot.is_position_open self); simpl;
        [by apply (running_extremum_step true _ _ _ _ row)
        |by apply (running_extremum_step false _ _ _ _ row)].
    + destruct Hcases as [(? & _)|[(_ & _ & _ & _ & _ & _ & -> & _)|(? & _)]];
        [done| |done].
      rewrite (leg_start_snoc _ _ n) by done.
      by apply (running_extremum_reset true).
    + destruct Hcases as [(? & _)|[(? & _)|(_ & _ & _ & _ & _ & -> & _)]];
        [done|done|].
      rewrite (leg_start_snoc _ _ n) by done.
      by apply (running_extremum_reset false).
Qed.

Lemma A_after_extremum (row0 : Row F) rest params0 n self l evs :
  n ≤ length (row0 :: rest) →
  AdvancedDCBot.after n row0 rest params0 = Ok (self, l, evs) →
  running_extremum (AdvancedDCBot.is_position_open l) (row0 :: rest)
    A_seen (leg_start evs) n (AdvancedDCBot.last_extreme_price l).
Proof.
  revert n self l evs.
  apply (A_after_ind (λ n self l evs,
    running_extremum (AdvancedDCBot.is_position_open l) (row0 :: rest)
      A_seen (leg_start evs) n (AdvancedDCBot.last_extreme_price l))).
  - simpl. split.
    + exists 0, row0. unfold leg_start. simpl. split_and!; [lia|lia|done..].
    + intros k rk _ Hk. lia.
  - intros n row self l evs self' l' ev Hrow Haft IH Hbody.
    pose proof (A_after_Inv _ _ _ _ _ _ _ Haft) as [_ _ _ _ Htr _ _ _].
    pose proof (A_loop_body_shape _ _ _ _ _ _ _ Hbody) as (_ & _ & _ & Hcases).
    assert (leg_start evs ≤ n) as Hsn.
    { destruct IH as [(j & rj & ? & ? & _) _]. lia. }
    apply A_loop_body_extreme in Hbody
      as [(Hg & -> & -> & ->)|(Hg & [(-> & ->)|[(-> & ->)|(-> & ->)]])].
    + rewrite app_nil_r. apply (running_extremum_skip _ _ _ _ _ row); try done.
      unfold A_seen. by rewrite Hg.
    + destruct Hcases as [(_ & _ & -> & _)|[(? & _)|(? & _)]]; [|done..].
      rewrite app_nil_r. rewrite Htr.
      destruct (AdvancedDCBot.is_position_open l); simpl;
        [by apply (running_extremum_step true _ _ _ _ row)
        |by apply (running_extremum_step false _ _ _ _ row)].
    + destruct Hcases
        as [(? & _)|[(_ & _ & _ & _ & _ & _ & _ & -> & _)|(? & _)]];
        [done| |done].
      rewrite (leg_start_snoc _ _ n) by done.
      by apply (running_extremum_reset true).
    + destruct Hcases as [(? & _)|[(? & _)|(_ & _ & _ & _ & _ & -> & _)]];
        [done|done|].
      rewrite (leg_start_snoc _ _ n) by done.
      by apply (running_extremum_reset false).
Qed.
End Extremum_runs.

(** X10: the tracked extremum is the running extremum of the leg.  After
    any number of rows of a run of either engine, the extremum is the low
    (position closed) or the high (position open) of a bar of the current
    leg, which began on the bar of the last entry or exit, and no bar of
    the leg whose prices the engine looked at has a lower low (position
    closed) or a higher high (position open).  [MaximizePnLBot] does not
    look at the bars that its volatility filter skips, [AdvancedDCBot] not
    at those with an undefined sma.  The order laws used are those of
    binary64 and of the reals: [<] is transitive and irreflexive. *)
Theorem X10_extremum_is_running_extremum
    {F : Type} `{!PyFloat F} `{!OrderLaws F} `{!IrreflLaws F} :
  (∀ (df : list (Row F)) params n self evs,
     n ≤ length df →
     MaximizePnLBot.after n df params = Ok (self, evs) →
     running_extremum (MaximizePnLBot.is_position_open self) df
       (M_seen params) (leg_start evs) n (MaximizePnLBot.last_extreme self))
  ∧ (∀ (row0 : Row F) rest params n self l evs,
       n ≤ length (row0 :: rest) →
       AdvancedDCBot.after n row0 rest params = Ok (self, l, evs) →
       running_extremum (AdvancedDCBot.is_position_open l) (row0 :: rest)
         A_seen (leg_start evs) n (AdvancedDCBot.last_extreme_price l)).
Proof.
  split.
  - intros df params n self evs. apply M_after_extremum.
  - intros row0 rest params n self l evs. apply A_after_extremum.
Qed.

Lemma M_sample_after_trip :
  snd <$> MaximizePnLBot.after 3 [flat_bar; rising_bar; falling_bar]
            (params_M FULL_AI)
  = Ok [Entry 1; Exit 2].
Proof. by vm_compute. Qed.

Lemma A_sample_after_trip :
  snd <$> AdvancedDCBot.after 3 flat_bar [rising_bar; falling_bar]
            (params_A FULL_AI)
  = Ok [Entry 1; Exit 2].
Proof. by vm_compute. Qed.

Lemma X10_extremum_is_running_extremum_witness :
  (∃ self,
     running_extremum (MaximizePnLBot.is_position_open self)
       [flat_bar; rising_bar; falling_bar] (M_seen (params_M FULL_AI))
       (leg_start [Entry 1; Exit 2]) 3 (MaximizePnLBot.last_extreme self))
  ∧ (∃ l,
       running_extremum (AdvancedDCBot.is_position_open l)
         (flat_bar :: [rising_bar; falling_bar]) A_seen
         (leg_start [Entry 1; Exit 2]) 3 (AdvancedDCBot.last_extreme_price l)).
Proof.
  split.
  - destruct (Result_snd_inv _ _ M_sample_after_trip) as [self E].
    exists self.
    apply (proj1 X10_extremum_is_running_extremum
             [flat_bar; rising_bar; falling_bar] (params_M FULL_AI) 3%nat
             self [Entry 1; Exit 2]); [apply le_n|exact E].
  - destruct (Result_snd_inv _ _ A_sample_after_trip) as [[self l] E].
    exists l.
    apply (proj2 X10_extremum_is_running_extremum
             flat_bar [rising_bar; falling_bar] (params_A FULL_AI) 3%nat
             self l [Entry 1; Exit 2]); [apply le_n|exact E].
Defined.

Section FXGraph_lemmas.
Import FXGraph.

Lemma quote_of_init a b : quote_of __init__ a b = None.
Proof. done. Qed.

Lemma quote_of_update base quote x y g a b :
  quote_of (update base quote x y g) a b
  = if decide (a = base ∧ b = quote) then Some (x, y) else quote_of g a b.
Proof.
  unfold quote_of, update, defaultdict_getitem.
  destruct (bid g !! base) as [ib|] eqn:Hb,
    (ask g !! base) as [ia|] eqn:Ha; simpl.
  all: destruct (decide (a = base)) as [->|Hne];
    [destruct (decide (b = quote)) as [->|Hne']|].
  all: simplify_map_eq; repeat case_decide; destruct_and?; done.
Qed.
End FXGraph_lemmas.

Section Cycles.
Import FXGraph.

Lemma get_cross_rate_spec a b g v g' :
  get_cross_rate a b g = (v, g') →
  v = mid (quote_of g a b)
  ∧ ∀ a' b', quote_of g' a' b' = quote_of g a' b'.
Proof.
  unfold get_cross_rate, quote_of, mid, defaultdict_getitem.
  destruct (bid g !! a) as [ib|] eqn:Hb; simpl.
  - destruct (ib !! b) as [x|] eqn:Hx; simpl.
    + try (rewrite decide_True by done). rewrite ?Hb, ?Hx. simpl.
      destruct (ask g !! a) as [ia|] eqn:Ha; simpl.
      * destruct (ia !! b) as [y|] eqn:Hy; intros [= <- <-]; simpl.
        -- split; [done|]. intros a' b'.
           destruct (decide (a' = a)) as [->|]; by simplify_map_eq.
        -- split; [done|]. intros a' b'.
           destruct (decide (a' = a)) as [->|]; simplify_map_eq; [|done].
           destruct (ib !! b'); [simpl|done].
           destruct (decide (b' = b)) as [->|]; by simplify_map_eq.
      * intros [= <- <-]; simpl. split; [by simplify_map_eq|].
        intros a' b'.
        destruct (decide (a' = a)) as [->|]; simplify_map_eq; [|done].
        destruct (ib !! b'); [simpl|done].
        destruct (decide (b' = b)) as [->|]; by simplify_map_eq.
    + try (rewrite decide_False by (by intros [? ?])). intros [= <- <-]. done.
  - rewrite ?lookup_empty. try (rewrite decide_False by (by intros [? ?])).
    intros [= <- <-]. split; [done|]. intros a' b'. simpl.
    destruct (decide (a' = a)) as [->|]; by simplify_map_eq.
Qed.

Lemma cycle_pnl_ext g1 g2 abc :
  (∀ a b, quote_of g1 a b = quote_of g2 a b) →
  cycle_pnl g1 abc = cycle_pnl g2 abc.
Proof. intros H. destruct abc as [[a b] c]. simpl. by rewrite !H. Qed.

Lemma detected_ext thr g1 g2 abc :
  (∀ a b, quote_of g1 a b = quote_of g2 a b) →
  detected thr g1 abc = detected thr g2 abc.
Proof.
  intros H. destruct abc as [[a b] c]. unfold detected.
  by rewrite (cycle_pnl_ext _ _ _ H), !H.
Qed.

Lemma find_cycles_body_spec thr cycles g abc cycles' g' :
  find_cycles_body thr (cycles, g) abc = (cycles', g') →
  (∀ a b, quote_of g' a b = quote_of g a b)
  ∧ cycles' = cycles ++ (if detected thr g abc
                         then [(abc, cycle_pnl g abc)] else []).
Proof.
  destruct abc as [[a b] c]. unfold find_cycles_body, detected.
  destruct (String.ltb a b && String.ltb b c); simpl;
    [|intros [= <- <-]; by rewrite app_nil_r].
  destruct (get_cross_rate a b g) as [r1 g1] eqn:E1.
  destruct (get_cross_rate b c g1) as [r2 g2] eqn:E2.
  destruct (get_cross_rate c a g2) as [r3 g3] eqn:E3.
  apply get_cross_rate_spec in E1 as [-> H1], E2 as [-> H2], E3 as [-> H3].
  rewrite !H2, !H1.
  assert (∀ a' b', quote_of g3 a' b' = quote_of g a' b') as H.
  { intros a' b'. by rewrite H3, H2, H1. }
  destruct (negb _); simpl; [|intros [= <- <-]; by rewrite app_nil_r].
  destruct (_ <? _)%float; intros [= <- <-]; by rewrite ?app_nil_r.
Qed.

Lemma find_cycles_fold thr l : ∀ cycles g cycles' g',
  foldl (find_cycles_body thr) (cycles, g) l = (cycles', g') →
  (∀ a b, quote_of g' a b = quote_of g a b)
  ∧ cycles' = cycles ++ ((λ abc, (abc, cycle_pnl g abc))
                           <$> filter (λ abc, detected thr g abc = true) l).
Proof.
  induction l as [|abc l IH]; intros cycles g cycles' g' H; cbn [foldl] in H.
  - injection H as <- <-. by rewrite app_nil_r.
  - destruct (find_cycles_body thr (cycles, g) abc) as [cycles1 g1] eqn:E1.
    apply find_cycles_body_spec in E1 as [H1 ->].
    apply IH in H as [H2 ->]. split.
    + intros a b. by rewrite H2, H1.
    + rewrite <- app_assoc. f_equal.
      rewrite (list_filter_iff _ (λ abc, detected thr g abc = true))
        by (by intros; rewrite (detected_ext _ _ _ _ H1)).
      rewrite (list_fmap_ext _ (λ abc, (abc, cycle_pnl g abc)))
        by (by intros; rewrite (cycle_pnl_ext _ _ _ H1)).
      destruct (detected thr g abc) eqn:Hd.
      * by rewrite filter_cons_True.
      * rewrite filter_cons_False; [done|]. by rewrite Hd.
Qed.
End Cycles.

Lemma rate_mid g a b : rate g a b = mid (quote_of g a b).
Proof.
  unfold rate. destruct (FXGraph.get_cross_rate a b g) as [v g'] eqn:E.
  by apply get_cross_rate_spec in E as [-> _].
Qed.

Lemma quote_of_call g c a b :
  quote_of (call g c) a b
  = match c with
    | Update base quote x y =>
        if decide (a = base ∧ b = quote) then Some (x, y) else quote_of g a b
    | Query _ _ => quote_of g a b
    end.
Proof.
  destruct c as [base quote x y|a' b']; simpl.
  - apply quote_of_update.
  - destruct (FXGraph.get_cross_rate a' b' g) as [v g'] eqn:E.
    by apply get_cross_rate_spec in E as [_ ->].
Qed.

(** X11: the graph answers with the latest quote.  After any series of
    [update] and [get_cross_rate] calls on a new [FXGraph], in any order,
    [get_cross_rate(a, b)] returns 0.5 * (bid + ask) for the bid and the
    ask of the last [update(a, b, bid, ask)] of the series, and NaN when
    the series has none: a quote of another pair, or of the pair the other
    way round, does not show, and the entries that the reads leave in the
    default dicts change no answer. *)
Theorem X11_get_cross_rate_answers_latest_quote (calls : list Call) (a b : string) :
  rate (foldl call FXGraph.__init__ calls) a b = mid (last_quote a b calls).
Proof.
  rewrite rate_mid. f_equal. unfold last_quote.
  assert (∀ g q, quote_of g a b = q →
            quote_of (foldl call g calls) a b
            = foldl (λ q c, match c with
                            | Update base quote bid_ ask_ =>
                                if decide (a = base ∧ b = quote)
                                then Some (bid_, ask_) else q
                            | Query _ _ => q
                            end) q calls) as H.
  { induction calls as [|c calls IH]; intros g q Hq; simpl; [done|].
    apply IH. rewrite quote_of_call, Hq. by destruct c. }
  by apply H.
Qed.

Lemma String_ltb_neq (a b : string) : String.ltb a b = true → a ≠ b.
Proof.
  unfold String.ltb. intros H ->.
  pose proof (String.compare_antisym b b) as Ha.
  by destruct (String.compare b b).
Qed.

Lemma String_ltb_asym (a b : string) :
  String.ltb a b = true → String.ltb b a = false.
Proof.
  unfold String.ltb. rewrite (String.compare_antisym b a).
  by destruct (String.compare a b).
Qed.

Lemma elem_of_permutations3 {A} (l : list A) a b c :
  (a, b, c) ∈ permutations3 l
  ↔ ∃ i j k, i ≠ j ∧ i ≠ k ∧ j ≠ k
             ∧ l !! i = Some a ∧ l !! j = Some b ∧ l !! k = Some c.
Proof.
  unfold permutations3. split.
  - intros H.
    apply list_elem_of_bind in H as ([i a'] & H & Hi).
    apply list_elem_of_bind in H as ([j b'] & H & Hj).
    apply list_elem_of_bind in H as ([k c'] & H & Hk).
    apply elem_of_lookup_imap in Hi as (? & ? & [= <- <-] & Hi).
    apply elem_of_lookup_imap in Hj as (? & ? & [= <- <-] & Hj).
    apply elem_of_lookup_imap in Hk as (? & ? & [= <- <-] & Hk).
    destruct (decide _) as [(? & ? & ?)|]; [|by apply elem_of_nil in H].
    apply list_elem_of_singleton in H as [= -> -> ->].
    by exists i, j, k.
  - intros (i & j & k & ? & ? & ? & Hi & Hj & Hk).
    apply list_elem_of_bind. exists (i, a). split;
      [|apply elem_of_lookup_imap; by exists i, a].
    apply list_elem_of_bind. exists (j, b). split;
      [|apply elem_of_lookup_imap; by exists j, b].
    apply list_elem_of_bind. exists (k, c). split;
      [|apply elem_of_lookup_imap; by exists k, c].
    rewrite decide_True by done. by apply list_elem_of_singleton.
Qed.

Lemma fst_fmap_pair {A B} (f : A → B) (l : list A) :
  fst <$> ((λ x, (x, f x)) <$> l) = l.
Proof. induction l as [|x l IH]; [done|]. rewrite !fmap_cons, IH. done. Qed.

Lemma sorted_triples_length : length sorted_triples = 120.
Proof. vm_compute. reflexivity. Qed.

Lemma sorted_triples_NoDup : NoDup sorted_triples.
Proof. apply (bool_decide_unpack (NoDup sorted_triples)). vm_compute. exact I. Qed.

Lemma find_cycles_fold_sorted thr g (l : list (string * string * string)) :
  (foldl (find_cycles_body thr) ([], g) l).1
  = (λ abc, (abc, cycle_pnl g abc))
      <$> filter (λ abc, detected thr g abc = true)
            (filter (λ abc, String.ltb abc.1.1 abc.1.2
                            && String.ltb abc.1.2 abc.2 = true) l)
  ∧ ∀ a b, quote_of (foldl (find_cycles_body thr) ([], g) l).2 a b
           = quote_of g a b.
Proof.
  destruct (foldl (find_cycles_body thr) ([], g) l) as [cycles g'] eqn:E.
  apply find_cycles_fold in E as [Hq ->]. split; [|exact Hq].
  cbn [fst app]. f_equal.
  rewrite list_filter_filter.
  apply list_filter_iff. intros [[a b] c]. unfold detected. cbn [fst snd].
  split; [|by intros [? ?]]. intros H. split; [done|].
  apply andb_true_iff in H as [H _]. by apply andb_true_iff in H as [H _].
Qed.

Lemma find_cycles_eq g thr :
  (find_cycles g thr).1
  = (λ abc, (abc, cycle_pnl g abc))
      <$> filter (λ abc, detected thr g abc = true) sorted_triples.
Proof. exact (proj1 (find_cycles_fold_sorted thr g (permutations3 CURRENCIES))). Qed.

Lemma find_cycles_quotes g thr a b :
  quote_of (find_cycles g thr).2 a b = quote_of g a b.
Proof.
  exact (proj2 (find_cycles_fold_sorted thr g (permutations3 CURRENCIES)) a b).
Qed.

Lemma find_cycles_elem_of (g : FXGraph.t) (threshold : float) a b c pnl :
  (a, b, c, pnl) ∈ (find_cycles g threshold).1
  ↔ a ∈ CURRENCIES ∧ b ∈ CURRENCIES ∧ c ∈ CURRENCIES
    ∧ String.ltb a b = true ∧ String.ltb b c = true
    ∧ PrimFloat.is_nan (rate g a b) = false
    ∧ PrimFloat.is_nan (rate g b c) = false
    ∧ PrimFloat.is_nan (rate g c a) = false
    ∧ pnl = (rate g a b * rate g b c * rate g c a - 1)%float
    ∧ (threshold <? PrimFloat.abs pnl)%float = true.
Proof.
  rewrite find_cycles_eq, !rate_mid.
  rewrite list_elem_of_fmap. split.
  - intros ([[a' b'] c'] & [= -> -> -> ->] & H).
    apply list_elem_of_filter in H as [Hd H].
    unfold sorted_triples in H. apply list_elem_of_filter in H as [_ H].
    apply elem_of_permutations3 in H
      as (i & j & k & _ & _ & _ & Hi & Hj & Hk).
    unfold detected in Hd. cbn [fst snd] in Hd.
    apply andb_true_iff in Hd as [Hd Hthr].
    apply andb_true_iff in Hd as [Hd Hnan].
    apply andb_true_iff in Hd as [Hab Hbc].
    apply negb_true_iff in Hnan.
    apply orb_false_iff in Hnan as [Hnan H3].
    apply orb_false_iff in Hnan as [H1 H2].
    split_and!; try done; by eapply list_elem_of_lookup_2.
  - intros (Ha & Hb & Hc & Hab & Hbc & H1 & H2 & H3 & -> & Hthr).
    exists (a, b, c). split; [done|].
    apply list_elem_of_filter. split.
    + unfold detected, cycle_pnl. by rewrite Hab, Hbc, H1, H2, H3, Hthr.
    + unfold sorted_triples. apply list_elem_of_filter. cbn [fst snd].
      split; [by rewrite Hab, Hbc|].
      apply list_elem_of_lookup_1 in Ha as [i Hi], Hb as [j Hj], Hc as [k Hk].
      apply elem_of_permutations3. exists i, j, k.
      split_and!; try done.
      * intros ->. apply String_ltb_neq in Hab. congruence.
      * intros ->. apply String_ltb_asym in Hab.
        assert (a = c) as -> by congruence. congruence.
      * intros ->. apply String_ltb_neq in Hbc. congruence.
Qed.

(** X12: what the scan reports.  [find_cycles] changes no rate of the
    graph.  It reports a triple (a, b, c) with the pnl exactly when the
    three are currencies of CURRENCIES in increasing order a < b < c, the
    rates a -> b, b -> c and c -> a are all defined (not NaN), the pnl is
    rate(a, b) * rate(b, c) * rate(c, a) - 1, and its absolute value is
    above the threshold.  No triple is reported twice, and at most 120
    are: only one orientation of each triangle is looked at. *)
Theorem X12_find_cycles_reports (g : FXGraph.t) (threshold : float) :
  (∀ a b, rate (find_cycles g threshold).2 a b = rate g a b)
  ∧ (∀ a b c pnl,
       (a, b, c, pnl) ∈ (find_cycles g threshold).1
       ↔ a ∈ CURRENCIES ∧ b ∈ CURRENCIES ∧ c ∈ CURRENCIES
         ∧ String.ltb a b = true ∧ String.ltb b c = true
         ∧ PrimFloat.is_nan (rate g a b) = false
         ∧ PrimFloat.is_nan (rate g b c) = false
         ∧ PrimFloat.is_nan (rate g c a) = false
         ∧ pnl = (rate g a b * rate g b c * rate g c a - 1)%float
         ∧ (threshold <? PrimFloat.abs pnl)%float = true)
  ∧ NoDup (fst <$> (find_cycles g threshold).1)
  ∧ length (find_cycles g threshold).1 ≤ 120.
Proof.
  split_and!.
  - intros a b. by rewrite !rate_mid, find_cycles_quotes.
  - intros a b c pnl. apply find_cycles_elem_of.
  - rewrite find_cycles_eq, fst_fmap_pair.
    apply NoDup_filter, sorted_triples_NoDup.
  - rewrite find_cycles_eq, length_fmap.
    etrans; [apply length_filter|]. by rewrite sorted_triples_length.
Qed.

(** X13: the features of a reported cycle.  For every cycle that
    [find_cycles] reports, [cycle_to_features] returns abs(pnl), which is
    above the threshold, the sign of the pnl, and 3: the three currencies
    of a reported cycle are different, so that the last feature is the
    same for all of them. *)
Theorem X13_features_of_reported_cycles (g : FXGraph.t) (threshold : float)
    (a b c : string) (pnl : float) :
  (a, b, c, pnl) ∈ (find_cycles g threshold).1 →
  cycle_to_features (a, b, c) pnl
  = [VFloat (PrimFloat.abs pnl); VFloat (np_sign pnl); VInt 3]
  ∧ (threshold <? PrimFloat.abs pnl)%float = true.
Proof.
  intros H.
  apply find_cycles_elem_of in H
    as (_ & _ & _ & Hab & Hbc & _ & _ & _ & _ & Hthr).
  split; [|done]. unfold cycle_to_features. do 3 f_equal.
  rewrite size_list_to_set; [done|].
  apply NoDup_cons. split.
  - intros [->|[->|[]%elem_of_nil]%elem_of_cons]%elem_of_cons.
    + by apply String_ltb_neq in Hab.
    + apply String_ltb_asym in Hab. congruence.
  - apply NoDup_cons. split; [|apply NoDup_singleton].
    intros ->%list_elem_of_singleton. by apply String_ltb_neq in Hbc.
Qed.

Lemma sample_cycle_reported :
  ("CAD", "EUR", "USD", cycle_pnl sample_graph ("CAD", "EUR", "USD"))
  ∈ (find_cycles sample_graph 1e-5).1.
Proof.
  assert ((find_cycles sample_graph 1e-5).1
          = [("CAD", "EUR", "USD", cycle_pnl sample_graph ("CAD", "EUR", "USD"))])
    as -> by (vm_compute; reflexivity).
  constructor.
Qed.

Lemma X13_features_of_reported_cycles_witness :
  cycle_to_features ("CAD", "EUR", "USD")
    (cycle_pnl sample_graph ("CAD", "EUR", "USD"))
  = [VFloat (PrimFloat.abs (cycle_pnl sample_graph ("CAD", "EUR", "USD")));
     VFloat (np_sign (cycle_pnl sample_graph ("CAD", "EUR", "USD")));
     VInt 3]
  ∧ (1e-5 <? PrimFloat.abs (cycle_pnl sample_graph ("CAD", "EUR", "USD")))%float
    = true.
Proof.
  exact (X13_features_of_reported_cycles sample_graph 1e-5 "CAD" "EUR" "USD"
           (cycle_pnl sample_graph ("CAD", "EUR", "USD"))
           sample_cycle_reported).
Defined.

Section Agreement_lemmas.
Context {F : Type} `{!PyFloat F}.

Lemma same_prices_closing (params : Params F) j i d d0 e x :
  same_prices
    (MaximizePnLBot.closing params j e x (MaximizePnLBot.opened i e))
    (AdvancedDCBot.closing params d e x (AdvancedDCBot.opened d0 e)).
Proof.
  unfold same_prices, MaximizePnLBot.closing, MaximizePnLBot.opened,
    AdvancedDCBot.closing, AdvancedDCBot.opened.
  split_and!; by simplify_map_eq.
Qed.

Lemma MA_loop_body_in_step i row sM sA l (tier : bool) :
  in_step sM sA l →
  fisnan (sma row) = false →
  (low row ==? of_int 0)%py = false →
  (high row ==? of_int 0)%py = false →
  (MaximizePnLBot.use_volatility_filter sM = true →
   (atr row >? volatility_threshold (MaximizePnLBot.params sM))%py = false) →
  MaximizePnLBot.classifier_pass sM row = tier →
  AdvancedDCBot.classifier_pass sA row = tier →
  ∃ sM' sA' l' ev,
    MaximizePnLBot.loop_body i row sM = Ok (sM', ev)
    ∧ AdvancedDCBot.loop_body i row sA l = Ok (sA', l', ev)
    ∧ in_step sM' sA' l'.
Proof.
  intros Hstep Hnan Hlow Hhigh Hatr HtM HtA.
  destruct sM as [dfM pM totM tsM vfM clM trM extM moM opM enM paM],
    sA as [dfA pA tsA totA vfA clA], l as [trA extA moA opA enA paA tA].
  unfold in_step, M_nonzero in Hstep.
  unfold MaximizePnLBot.classifier_pass in HtM.
  unfold AdvancedDCBot.classifier_pass in HtA.
  cbv beta iota zeta delta
    [MaximizePnLBot.use_classifier MaximizePnLBot.params] in HtM.
  cbv beta iota zeta delta
    [AdvancedDCBot.use_classifier AdvancedDCBot.params] in HtA.
  rewrite Hnan in HtM. cbn [negb] in HtM.
  simpl in Hstep, Hatr.
  destruct Hstep as (-> & -> & -> & -> & -> & -> & -> & -> & -> & -> & ->
                     & -> & [Hnz1 Hnz2] & ts & Hts & Hled).
  unfold MaximizePnLBot.loop_body, AdvancedDCBot.loop_body,
    MaximizePnLBot.trend_logic, AdvancedDCBot.trend_logic,
    MaximizePnLBot.classifier_pass, AdvancedDCBot.classifier_pass, py_div.
  M_reduce; A_reduce. rewrite !Hnan. cbn [negb].
  destruct vfA; [rewrite (Hatr eq_refl)|]; cbn [andb negb].
  all: destruct opA; cbn [Z.eqb Pos.eqb].
  all: try (destruct Hled as (i0 & d0 & -> & ->)); try subst tsM.
  all: first [specialize (Hnz2 eq_refl); clear Hnz1
             |specialize (Hnz1 eq_refl); clear Hnz2].
  all: repeat (match goal with
         | |- context [if ?c then _ else _] =>
             lazymatch c with
             | context [if _ then _ else _] => fail
             | _ => destruct c eqn:?
             end
         end; rewrite ?HtM, ?HtA, ?update_last_snoc;
         repeat match goal with
                | H : (_ ==? of_int 0)%py = false |- _ => rewrite H
                end;
         cbn [negb]; M_reduce; A_reduce).
  all: try discriminate.
  all: eexists _, _, _, _; split; [reflexivity|]; split; [reflexivity|].
  all: unfold in_step, M_nonzero; M_reduce; A_reduce.
  all: split_and!; try done; try (intros; congruence).
  all: try (eexists; split; [exact Hts|]; by eexists _, _).
  all: try (exists ts; split; [exact Hts|reflexivity]).
  all: try (eexists; split; [|reflexivity]; apply Forall2_app; [done|];
            apply Forall2_cons; split; [|constructor];
            apply same_prices_closing).
Qed.
End Agreement_lemmas.

Section Agreement_runs.
Context {F : Type} `{!PyFloat F}.

Lemma MA_iterrows_in_step (params0 : Params F) rows : ∀ i sM sA l,
  in_step sM sA l →
  MaximizePnLBot.params sM = params0 →
  MaximizePnLBot.use_volatility_filter sM
  = bool_decide (mode params0 ∈ [FULL_AI; NO_CLASSIFIER]) →
  MaximizePnLBot.use_classifier sM
  = bool_decide (mode params0 ∈ [FULL_AI; NO_VOLATILITY_FILTER]) →
  Forall (agreeable params0) rows →
  ∃ sM' sA' l' evs,
    MaximizePnLBot.iterrows i rows sM = Ok (sM', evs)
    ∧ AdvancedDCBot.iterrows i rows sA l = Ok (sA', l', evs)
    ∧ in_step sM' sA' l'.
Proof.
  induction rows as [|row rows IH]; intros i sM sA l Hstep Hpar Hvf Hcl Hrows.
  - by exists sM, sA, l, [].
  - apply Forall_cons in Hrows
      as [(Hnan & Hlow & Hhigh & Hatr & Htier) Hrows].
    destruct (MA_loop_body_in_step i row sM sA l
                (MaximizePnLBot.classifier_pass sM row) Hstep Hnan Hlow Hhigh)
      as (sM1 & sA1 & l1 & ev & EM & EA & Hstep1).
    + rewrite Hvf, Hpar. intros Hm%bool_decide_eq_true. auto.
    + done.
    + rewrite M_classifier_pass_eq, A_classifier_pass_eq.
      destruct Hstep as (HparA & _ & HclA & _).
      rewrite <- HclA, <- HparA, Hcl, Hpar. done.
    + pose proof (M_loop_body_shape _ _ _ _ _ EM)
        as ((_ & Epar & Evf & Ecl) & _).
      destruct (IH (S i) sM1 sA1 l1 Hstep1) as (sM2 & sA2 & l2 & evs & E2M & E2A & Hstep2);
        [congruence..|done|].
      exists sM2, sA2, l2, (ev ++ evs). simpl.
      rewrite EM, EA. simpl. rewrite E2M, E2A. done.
Qed.
End Agreement_runs.

(** X14: where the two engines agree.  On a non-empty frame on which the
    sma is defined and no price is 0 on any row, no atr exceeds the
    threshold where the mode enables the volatility filter, and the
    confirmation of MaximizePnLBot answers as that of AdvancedDCBot on
    every row (the strict tiers over adx > 10 and adx > 25 with the
    classifier; the relaxed tier holding without), the two engines, run
    with the same parameters, both return, open and close on the same
    bars, return the same total, and their ledgers list trades with the
    same entry price, exit price and pnl. *)
Theorem X14_engines_agree {F : Type} `{!PyFloat F}
    (row0 : Row F) (rest : list (Row F)) (params : Params F) :
  Forall (agreeable params) (row0 :: rest) →
  ∃ sM sA l evs,
    MaximizePnLBot.__init__ (row0 :: rest) params ≫= MaximizePnLBot.run
    = Ok (sM, evs)
    ∧ AdvancedDCBot.run (AdvancedDCBot.__init__ (row0 :: rest) params) row0
      = Ok (sA, l, evs)
    ∧ MaximizePnLBot.total_pnl sM = AdvancedDCBot.total_pnl sA
    ∧ Forall2 same_prices (MaximizePnLBot.trades sM) (AdvancedDCBot.trades sA).
Proof.
  intros Hrows.
  pose proof Hrows as Hrow0. apply Forall_cons in Hrow0 as [(_ & Hlow0 & _) _].
  destruct (MaximizePnLBot.__init__ (row0 :: rest) params) as [s0|] eqn:Hinit;
    [|done].
  pose proof Hinit as Hinit'. injection Hinit' as Hs0.
  assert (in_step s0 (AdvancedDCBot.__init__ (row0 :: rest) params)
            (AdvancedDCBot.locals0 row0)) as Hstep0.
  { subst s0. unfold in_step, M_nonzero. simpl.
    split_and!; try done. by exists []. }
  destruct (MA_iterrows_in_step params (row0 :: rest) 0 s0 _ _ Hstep0)
    as (sM & sA & l & evs & EM & EA & Hstep); [by subst s0..|done|].
  simpl. unfold MaximizePnLBot.run, AdvancedDCBot.run.
  change (AdvancedDCBot.df (AdvancedDCBot.__init__ (row0 :: rest) params))
    with (row0 :: rest).
  replace (MaximizePnLBot.df s0) with (row0 :: rest) by (by subst s0).
  rewrite EM, EA. simpl.
  apply M_iterrows_frame in EM as (EdM & _).
  apply A_iterrows_frame in EA as (EdA & _).
  replace (MaximizePnLBot.df s0) with (row0 :: rest) in EdM by (by subst s0).
  change (AdvancedDCBot.df (AdvancedDCBot.__init__ (row0 :: rest) params))
    with (row0 :: rest) in EdA.
  destruct Hstep as (Hpar & _ & _ & Htot & Hop & _ & _ & _ & _ & Hen & _ & _ & _
                     & ts & Hts & Hled).
  unfold MaximizePnLBot.force_close, AdvancedDCBot.force_close, iloc_last.
  rewrite <- Hop, EdM, EdA.
  destruct (MaximizePnLBot.is_position_open sM).
  - destruct (last_cons_is_Some row0 rest) as [rl Hlast]. rewrite Hlast. simpl.
    rewrite EdA, Hlast. simpl.
    destruct Hled as (i0 & d0 & -> & HtA). rewrite update_last_snoc. simpl.
    eexists _, _, _, _. split; [reflexivity|]. split; [reflexivity|]. simpl.
    rewrite <- Htot, <- Hen, <- Hpar. split; [done|].
    apply Forall2_app; [done|]. apply Forall2_cons; split; [|constructor].
    rewrite HtA. apply same_prices_closing.
  - simpl. rewrite app_nil_r. eexists _, _, _, _.
    split; [reflexivity|]. split; [reflexivity|]. by rewrite Hled.
Qed.

Lemma X14_engines_agree_witness :
  ∃ sM sA l evs,
    MaximizePnLBot.__init__ (flat_bar :: [rising_bar; falling_bar])
      (params_M FULL_AI) ≫= MaximizePnLBot.run
    = Ok (sM, evs)
    ∧ AdvancedDCBot.run
        (AdvancedDCBot.__init__ (flat_bar :: [rising_bar; falling_bar])
           (params_M FULL_AI)) flat_bar
      = Ok (sA, l, evs)
    ∧ MaximizePnLBot.total_pnl sM = AdvancedDCBot.total_pnl sA
    ∧ Forall2 same_prices (MaximizePnLBot.trades sM) (AdvancedDCBot.trades sA).
Proof.
  apply (X14_engines_agree flat_bar [rising_bar; falling_bar]
           (params_M FULL_AI)).
  repeat (apply Forall_cons; split;
          [split_and!; [reflexivity..|intros _; reflexivity|reflexivity]|]).
  apply Forall_nil_2.
Defined.

Ltac P_reduce :=
  cbv beta iota zeta delta
    [mode dc_threshold volume y_value rsi_overbought volatility_threshold
     fst snd].

Section Modes_lemmas.
Context {F : Type} `{!PyFloat F}.

Lemma M_loop_body_calm i (row : Row F) s1 s2 :
  M_calm_sim s1 s2 →
  (atr row >? volatility_threshold (MaximizePnLBot.params s1))%py = false →
  Result_rel (λ a b, M_calm_sim a.1 b.1)
    (MaximizePnLBot.loop_body i row s1) (MaximizePnLBot.loop_body i row s2).
Proof.
  destruct s1 as [df1 p1 tot1 ts1 vf1 cl1 tr1 ext1 mo1 op1 en1 pa1],
    s2 as [df2 p2 tot2 ts2 vf2 cl2 tr2 ext2 mo2 op2 en2 pa2].
  destruct p1 as [m1 dc1 vol1 y1 ro1 vt1], p2 as [m2 dc2 vol2 y2 ro2 vt2].
  unfold M_calm_sim, same_numbers. simpl.
  intros (-> & (-> & -> & -> & -> & ->) & -> & -> & -> & -> & -> & -> & ->
          & -> & -> & ->) Hatr.
  unfold Result_rel, MaximizePnLBot.loop_body, MaximizePnLBot.trend_logic,
    MaximizePnLBot.classifier_pass, py_div, M_calm_sim, same_numbers.
  M_reduce. P_reduce. rewrite Hatr.
  destruct vf1, vf2.
  all: repeat (match goal with
         | |- context [if ?c then _ else _] =>
             lazymatch c with
             | context [if _ then _ else _] => fail
             | _ => destruct c eqn:?; M_reduce
             end
         | |- context [update_last ?f ?l] =>
             destruct (update_last f l) eqn:?; M_reduce
         end); P_reduce; M_reduce; done.
Qed.
End Modes_lemmas.

Section Modes_runs.
Context {F : Type} `{!PyFloat F}.

Lemma M_iterrows_calm (vt : F) rows : ∀ i (s1 s2 : MaximizePnLBot.Bot F),
  M_calm_sim s1 s2 →
  volatility_threshold (MaximizePnLBot.params s1) = vt →
  Forall (λ row, (atr row >? vt)%py = false) rows →
  Result_rel (λ a b, M_calm_sim a.1 b.1)
    (MaximizePnLBot.iterrows i rows s1) (MaximizePnLBot.iterrows i rows s2).
Proof.
  induction rows as [|row rows IH]; intros i s1 s2 Hsim Hvt Hrows; [done|].
  apply Forall_cons in Hrows as [Hrow Hrows]. simpl.
  pose proof (M_loop_body_calm i row s1 s2 Hsim) as Hstep.
  rewrite Hvt in Hstep. specialize (Hstep Hrow).
  destruct (MaximizePnLBot.loop_body i row s1) as [[a e1]|x1] eqn:E1,
    (MaximizePnLBot.loop_body i row s2) as [[b e2]|x2] eqn:E2;
    simpl in Hstep; try done; simpl.
  apply M_loop_body_shape in E1 as ((_ & Epar & _) & _).
  specialize (IH (S i) a b Hstep). rewrite Epar in IH.
  specialize (IH Hvt Hrows).
  destruct (MaximizePnLBot.iterrows (S i) rows a) as [[a' e1']|],
    (MaximizePnLBot.iterrows (S i) rows b) as [[b' e2']|];
    simpl in IH; done.
Qed.

Lemma M_force_close_calm (s1 s2 : MaximizePnLBot.Bot F) :
  M_calm_sim s1 s2 →
  Result_rel (λ a b, MaximizePnLBot.total_pnl a.1 = MaximizePnLBot.total_pnl b.1
                     ∧ MaximizePnLBot.trades a.1 = MaximizePnLBot.trades b.1)
    (MaximizePnLBot.force_close s1) (MaximizePnLBot.force_close s2).
Proof.
  destruct s1 as [df1 p1 tot1 ts1 vf1 cl1 tr1 ext1 mo1 op1 en1 pa1],
    s2 as [df2 p2 tot2 ts2 vf2 cl2 tr2 ext2 mo2 op2 en2 pa2].
  destruct p1 as [m1 dc1 vol1 y1 ro1 vt1], p2 as [m2 dc2 vol2 y2 ro2 vt2].
  unfold M_calm_sim, same_numbers. simpl.
  intros (-> & (-> & -> & -> & -> & ->) & -> & -> & -> & -> & -> & -> & ->
          & -> & -> & ->).
  unfold Result_rel, MaximizePnLBot.force_close, iloc_last. simpl.
  destruct op2; [|done].
  destruct (last df2) as [rl|]; [|done]. simpl.
  match goal with |- context [update_last ?f ?l] =>
    destruct (update_last f l) eqn:? end; done.
Qed.

Lemma A_loop_body_calm i (row : Row F) s1 s2 l :
  A_calm_sim (s1, l) (s2, l) →
  (atr row >? volatility_threshold (AdvancedDCBot.params s1))%py = false →
  Result_rel (λ a b, A_calm_sim a.1 b.1)
    (AdvancedDCBot.loop_body i row s1 l) (AdvancedDCBot.loop_body i row s2 l).
Proof.
  destruct s1 as [df1 p1 ts1 tot1 vf1 cl1], s2 as [df2 p2 ts2 tot2 vf2 cl2].
  destruct p1 as [m1 dc1 vol1 y1 ro1 vt1], p2 as [m2 dc2 vol2 y2 ro2 vt2].
  destruct l as [tr ext mo op en pa t].
  unfold A_calm_sim, same_numbers. simpl.
  intros (-> & (-> & -> & -> & -> & ->) & -> & -> & -> & _ & ->) Hatr.
  unfold Result_rel, AdvancedDCBot.loop_body, AdvancedDCBot.trend_logic,
    AdvancedDCBot.classifier_pass, py_div, py_all, A_calm_sim, same_numbers.
  A_reduce. P_reduce. rewrite Hatr. cbn [andb negb].
  destruct vf1, vf2.
  all: repeat (match goal with
         | |- context [if ?c then _ else _] =>
             lazymatch c with
             | context [if _ then _ else _] => fail
             | _ => destruct c eqn:?; A_reduce
             end
         end); P_reduce; A_reduce; done.
Qed.

Lemma A_iterrows_calm (vt : F) rows : ∀ i (s1 s2 : AdvancedDCBot.Bot F) l,
  A_calm_sim (s1, l) (s2, l) →
  volatility_threshold (AdvancedDCBot.params s1) = vt →
  Forall (λ row, (atr row >? vt)%py = false) rows →
  Result_rel (λ a b, A_calm_sim a.1 b.1)
    (AdvancedDCBot.iterrows i rows s1 l) (AdvancedDCBot.iterrows i rows s2 l).
Proof.
  induction rows as [|row rows IH]; intros i s1 s2 l Hsim Hvt Hrows; [done|].
  apply Forall_cons in Hrows as [Hrow Hrows]. simpl.
  pose proof (A_loop_body_calm i row s1 s2 l Hsim) as Hstep.
  rewrite Hvt in Hstep. specialize (Hstep Hrow).
  destruct (AdvancedDCBot.loop_body i row s1 l) as [[[a la] e1]|x1] eqn:E1,
    (AdvancedDCBot.loop_body i row s2 l) as [[[b lb] e2]|x2] eqn:E2;
    simpl in Hstep; try done; simpl.
  apply A_loop_body_shape in E1 as ((_ & Epar & _) & _).
  assert (lb = la) as ->.
  { destruct Hstep as (_ & _ & _ & _ & _ & Hl & _). simpl in Hl. done. }
  specialize (IH (S i) a b la Hstep). rewrite Epar in IH.
  specialize (IH Hvt Hrows).
  destruct (AdvancedDCBot.iterrows (S i) rows a la) as [[[a' la'] e1']|],
    (AdvancedDCBot.iterrows (S i) rows b la) as [[[b' lb'] e2']|];
    simpl in IH; done.
Qed.

Lemma A_force_close_calm (s1 s2 : AdvancedDCBot.Bot F) l :
  A_calm_sim (s1, l) (s2, l) →
  Result_rel (λ a b, AdvancedDCBot.total_pnl a.1.1 = AdvancedDCBot.total_pnl b.1.1
                     ∧ AdvancedDCBot.trades a.1.1 = AdvancedDCBot.trades b.1.1)
    (AdvancedDCBot.force_close s1 l) (AdvancedDCBot.force_close s2 l).
Proof.
  destruct s1 as [df1 p1 ts1 tot1 vf1 cl1], s2 as [df2 p2 ts2 tot2 vf2 cl2].
  destruct p1 as [m1 dc1 vol1 y1 ro1 vt1], p2 as [m2 dc2 vol2 y2 ro2 vt2].
  unfold A_calm_sim, same_numbers. simpl.
  intros (-> & (-> & -> & -> & -> & ->) & -> & -> & -> & _ & _).
  unfold Result_rel, AdvancedDCBot.force_close, iloc_last. simpl.
  destruct (AdvancedDCBot.is_position_open l); [|done].
  destruct (last df2) as [rl|]; done.
Qed.
End Modes_runs.

(** X15: the volatility filter is inert on a calm frame.  On a frame on
    which no atr exceeds volatility_threshold, two modes that agree on the
    classifier (FULL_AI and NO_VOLATILITY_FILTER, or NO_CLASSIFIER and
    BASELINE) give the same result in each engine: the same total and
    ledger, or the same exception. *)
Theorem X15_volatility_filter_inert_on_calm_frames {F : Type} `{!PyFloat F}
    (df : list (Row F)) (params : Params F) (m1 m2 : StrategyMode) :
  Forall (λ row, (atr row >? volatility_threshold params)%py = false) df →
  bool_decide (m1 ∈ [FULL_AI; NO_VOLATILITY_FILTER])
  = bool_decide (m2 ∈ [FULL_AI; NO_VOLATILITY_FILTER]) →
  MaximizePnLBot.__init__ df (with_mode m1 params)
    ≫= MaximizePnLBot.run_backtest
  = MaximizePnLBot.__init__ df (with_mode m2 params)
      ≫= MaximizePnLBot.run_backtest
  ∧ AdvancedDCBot.run_backtest (AdvancedDCBot.__init__ df (with_mode m1 params))
    = AdvancedDCBot.run_backtest
        (AdvancedDCBot.__init__ df (with_mode m2 params)).
Proof.
  intros Hrows Hcl. destruct df as [|row0 rest]; [done|]. split.
  - unfold MaximizePnLBot.__init__. simpl.
    unfold MaximizePnLBot.run_backtest, MaximizePnLBot.run.
    match goal with
    | |- context [MaximizePnLBot.iterrows 0 (MaximizePnLBot.df ?a) ?a] =>
        set (s1 := a)
    end.
    match goal with
    | |- context [MaximizePnLBot.iterrows 0 (MaximizePnLBot.df ?a) ?a] =>
        lazymatch a with s1 => fail | _ => set (s2 := a) end
    end.
    assert (M_calm_sim s1 s2) as Hsim.
    { unfold M_calm_sim, same_numbers, s1, s2. simpl. by rewrite Hcl. }
    pose proof (M_iterrows_calm (volatility_threshold params) (row0 :: rest)
                  0 s1 s2 Hsim eq_refl Hrows) as Hloop.
    change (MaximizePnLBot.df s1) with (row0 :: rest).
    change (MaximizePnLBot.df s2) with (row0 :: rest).
    destruct (MaximizePnLBot.iterrows 0 (row0 :: rest) s1) as [[a e1]|x1],
      (MaximizePnLBot.iterrows 0 (row0 :: rest) s2) as [[b e2]|x2];
      simpl in Hloop; try done; simpl; try by subst.
    pose proof (M_force_close_calm a b Hloop) as Hfc.
    destruct (MaximizePnLBot.force_close a) as [[a' e1']|],
      (MaximizePnLBot.force_close b) as [[b' e2']|]; simpl in Hfc; try done;
      simpl; try by subst.
    by destruct Hfc as [-> ->].
  - unfold AdvancedDCBot.run_backtest, AdvancedDCBot.run.
    change (AdvancedDCBot.df (AdvancedDCBot.__init__ (row0 :: rest) ?p))
      with (row0 :: rest).
    cbv iota beta.
    set (s1 := AdvancedDCBot.__init__ (row0 :: rest) (with_mode m1 params)).
    set (s2 := AdvancedDCBot.__init__ (row0 :: rest) (with_mode m2 params)).
    assert (A_calm_sim (s1, AdvancedDCBot.locals0 row0)
              (s2, AdvancedDCBot.locals0 row0)) as Hsim.
    { unfold A_calm_sim, same_numbers, s1, s2. simpl. by rewrite Hcl. }
    pose proof (A_iterrows_calm (volatility_threshold params) (row0 :: rest)
                  0 s1 s2 _ Hsim eq_refl Hrows) as Hloop.
    destruct (AdvancedDCBot.iterrows 0 (row0 :: rest) s1 _)
      as [[[a la] e1]|x1],
      (AdvancedDCBot.iterrows 0 (row0 :: rest) s2 _) as [[[b lb] e2]|x2];
      simpl in Hloop; try done; simpl; try by subst.
    assert (lb = la) as ->.
    { destruct Hloop as (_ & _ & _ & _ & _ & Hl & _). simpl in Hl. done. }
    pose proof (A_force_close_calm a b la Hloop) as Hfc.
    destruct (AdvancedDCBot.force_close a la) as [[[a' la'] e1']|],
      (AdvancedDCBot.force_close b la) as [[[b' lb'] e2']|]; simpl in Hfc;
      try done; simpl; try by subst.
    by destruct Hfc as [-> ->].
Qed.

Lemma X15_volatility_filter_inert_on_calm_frames_witness :
  MaximizePnLBot.__init__ [flat_bar; rising_bar; falling_bar]
    (with_mode FULL_AI (params_M BASELINE)) ≫= MaximizePnLBot.run_backtest
  = MaximizePnLBot.__init__ [flat_bar; rising_bar; falling_bar]
      (with_mode NO_VOLATILITY_FILTER (params_M BASELINE))
      ≫= MaximizePnLBot.run_backtest
  ∧ AdvancedDCBot.run_backtest
      (AdvancedDCBot.__init__ [flat_bar; rising_bar; falling_bar]
         (with_mode FULL_AI (params_M BASELINE)))
    = AdvancedDCBot.run_backtest
        (AdvancedDCBot.__init__ [flat_bar; rising_bar; falling_bar]
           (with_mode NO_VOLATILITY_FILTER (params_M BASELINE))).
Proof.
  apply (X15_volatility_filter_inert_on_calm_frames
           [flat_bar; rising_bar; falling_bar] (params_M BASELINE)
           FULL_AI NO_VOLATILITY_FILTER).
  - repeat (apply Forall_cons; split; [reflexivity|]). apply Forall_nil_2.
  - reflexivity.
Defined.

Section Rerun_lemmas.
Context {F : Type} `{!PyFloat F}.

Lemma A_loop_body_continues pre t0 i (row : Row F) sa sb l :
  A_continues pre t0 sa sb →
  Result_rel (λ a b, A_continues pre t0 a.1.1 b.1.1 ∧ a.1.2 = b.1.2 ∧ a.2 = b.2)
    (AdvancedDCBot.loop_body i row sa l) (AdvancedDCBot.loop_body i row sb l).
Proof.
  destruct sa as [dfa pa tsa tota vfa cla], sb as [dfb pb tsb totb vfb clb].
  destruct l as [tr ext mo op en pa' t].
  unfold A_continues. simpl. intros (-> & -> & -> & -> & -> & ->).
  unfold Result_rel, AdvancedDCBot.loop_body, AdvancedDCBot.trend_logic,
    AdvancedDCBot.classifier_pass, py_div, py_all, A_continues.
  A_reduce.
  repeat (match goal with
          | |- context [if ?c then _ else _] =>
              lazymatch c with
              | context [if _ then _ else _] => fail
              | _ => destruct c eqn:?; A_reduce
              end
          end); cbv beta iota zeta delta [fst snd]; A_reduce.
  all: try done.
  all: split_and?; try done.
  all: try by rewrite app_assoc.
  all: rewrite foldl_app; simpl; f_equal; unfold trade_pnl;
    by simplify_map_eq.
Qed.
End Rerun_lemmas.

Section Rerun_runs.
Context {F : Type} `{!PyFloat F}.

Lemma A_iterrows_continues pre t0 rows :
  ∀ i (sa sb : AdvancedDCBot.Bot F) l,
  A_continues pre t0 sa sb →
  Result_rel (λ a b, A_continues pre t0 a.1.1 b.1.1 ∧ a.1.2 = b.1.2 ∧ a.2 = b.2)
    (AdvancedDCBot.iterrows i rows sa l) (AdvancedDCBot.iterrows i rows sb l).
Proof.
  induction rows as [|row rows IH]; intros i sa sb l Hc; [done|]. simpl.
  pose proof (A_loop_body_continues pre t0 i row sa sb l Hc) as Hstep.
  destruct (AdvancedDCBot.loop_body i row sa l) as [[[a la] e1]|x1],
    (AdvancedDCBot.loop_body i row sb l) as [[[b lb] e2]|x2];
    simpl in Hstep; try done; simpl.
  destruct Hstep as (Hc1 & <- & <-).
  specialize (IH (S i) a b la Hc1).
  destruct (AdvancedDCBot.iterrows (S i) rows a la) as [[[a' la'] e1']|],
    (AdvancedDCBot.iterrows (S i) rows b la) as [[[b' lb'] e2']|];
    simpl in IH; try done; simpl.
  destruct IH as (Hc2 & <- & <-). done.
Qed.

Lemma A_force_close_continues pre t0 (sa sb : AdvancedDCBot.Bot F) l :
  A_continues pre t0 sa sb →
  Result_rel (λ a b, A_continues pre t0 a.1.1 b.1.1 ∧ a.1.2 = b.1.2 ∧ a.2 = b.2)
    (AdvancedDCBot.force_close sa l) (AdvancedDCBot.force_close sb l).
Proof.
  destruct sa as [dfa pa tsa tota vfa cla], sb as [dfb pb tsb totb vfb clb].
  unfold A_continues. simpl. intros (-> & -> & -> & -> & -> & ->).
  unfold Result_rel, AdvancedDCBot.force_close, iloc_last, A_continues.
  simpl. destruct (AdvancedDCBot.is_position_open l); [|done].
  destruct (last dfa) as [rl|]; [|done]. simpl.
  split_and!; try done; [by rewrite app_assoc|].
  rewrite foldl_app. simpl. f_equal. unfold trade_pnl. by simplify_map_eq.
Qed.

Lemma A_force_close_frame (s s' : AdvancedDCBot.Bot F) l l' ev :
  AdvancedDCBot.force_close s l = Ok (s', l', ev) →
  AdvancedDCBot.df s' = AdvancedDCBot.df s
  ∧ AdvancedDCBot.params s' = AdvancedDCBot.params s
  ∧ AdvancedDCBot.use_volatility_filter s'
    = AdvancedDCBot.use_volatility_filter s
  ∧ AdvancedDCBot.use_classifier s' = AdvancedDCBot.use_classifier s.
Proof.
  unfold AdvancedDCBot.force_close, iloc_last.
  destruct (AdvancedDCBot.is_position_open l); [|by intros [= <- <- <-]].
  destruct (last (AdvancedDCBot.df s)) as [rl|] eqn:Hl; [|done]. simpl.
  rewrite Hl. simpl. by intros [= <- <- <-].
Qed.
End Rerun_runs.

(** X16: run_backtest goes on from the ledger it finds.  [AdvancedDCBot]
    resets its local state at every call, but neither [self.trades] nor
    [self.total_pnl]: a second call on the bot that a first call has left
    takes the same decisions, appends the same trades once more, and adds
    their pnl on top of the first total.  It returns every trade of the
    first call twice. *)
Theorem X16_A_second_call_doubles_the_ledger {F : Type} `{!PyFloat F}
    (row0 : Row F) (rest : list (Row F)) (params : Params F) self1 l1 evs :
  AdvancedDCBot.run (AdvancedDCBot.__init__ (row0 :: rest) params) row0
  = Ok (self1, l1, evs) →
  AdvancedDCBot.run_backtest self1
  = Ok (foldl (λ acc t, acc + trade_pnl t)%py (AdvancedDCBot.total_pnl self1)
          (AdvancedDCBot.trades self1),
        AdvancedDCBot.trades self1 ++ AdvancedDCBot.trades self1).
Proof.
  intros Hrun. pose proof Hrun as Hrun'.
  unfold AdvancedDCBot.run in Hrun'.
  change (AdvancedDCBot.df (AdvancedDCBot.__init__ (row0 :: rest) params))
    with (row0 :: rest) in Hrun'.
  set (s0 := AdvancedDCBot.__init__ (row0 :: rest) params) in *.
  destruct (AdvancedDCBot.iterrows 0 (row0 :: rest) s0 _)
    as [[[sa la] ea]|] eqn:Eloop; [|done].
  simpl in Hrun'.
  destruct (AdvancedDCBot.force_close sa la) as [[[sa' la'] ea']|] eqn:Efc;
    [|done].
  simpl in Hrun'. injection Hrun' as -> -> <-.
  pose proof (A_iterrows_frame _ _ _ _ _ _ _ Eloop) as (Ed & Ev & Ec).
  pose proof (A_iterrows_Inv (row0 :: rest) params _ 0 s0 _ sa la [] ea
                (A_init_Inv row0 rest params) Eloop) as [_ Hpar _ _ _ _ _ _].
  pose proof (A_force_close_frame _ _ _ _ _ Efc) as (Ed' & Ep' & Ev' & Ec').
  assert (A_continues (AdvancedDCBot.trades self1)
            (AdvancedDCBot.total_pnl self1) s0 self1) as Hc.
  { unfold A_continues. rewrite Ed', Ep', Ev', Ec', Ed, Ev, Ec, Hpar.
    split_and!; try done. by rewrite app_nil_r. }
  unfold AdvancedDCBot.run_backtest, AdvancedDCBot.run.
  rewrite Ed', Ed. change (AdvancedDCBot.df s0) with (row0 :: rest).
  cbv iota beta.
  pose proof (A_iterrows_continues _ _ (row0 :: rest) 0 s0 self1
                (AdvancedDCBot.locals0 row0) Hc) as Hloop.
  rewrite Eloop in Hloop.
  destruct (AdvancedDCBot.iterrows 0 (row0 :: rest) self1 _)
    as [[[sb lb] eb]|]; simpl in Hloop; [|done].
  destruct Hloop as (Hc1 & <- & <-). simpl.
  pose proof (A_force_close_continues _ _ sa sb la Hc1) as Hfc.
  rewrite Efc in Hfc.
  destruct (AdvancedDCBot.force_close sb la) as [[[sb' lb'] eb']|];
    simpl in Hfc; [|done].
  simpl. destruct Hfc as ((_ & _ & _ & _ & -> & ->) & _). done.
Qed.

Lemma X16_A_second_call_doubles_the_ledger_witness :
  ∃ (self1 : AdvancedDCBot.Bot float) l1,
    AdvancedDCBot.run
      (AdvancedDCBot.__init__ (flat_bar :: [rising_bar; falling_bar])
         (params_A FULL_AI)) flat_bar
    = Ok (self1, l1, [Entry 1; Exit 2])
    ∧ AdvancedDCBot.run_backtest self1
      = Ok (foldl (λ acc t, acc + trade_pnl t)%py
              (AdvancedDCBot.total_pnl self1) (AdvancedDCBot.trades self1),
            AdvancedDCBot.trades self1 ++ AdvancedDCBot.trades self1).
Proof.
  destruct (Result_snd_inv _ _ A_sample_trip) as [[self1 l1] E].
  exists self1, l1. split; [exact E|].
  exact (X16_A_second_call_doubles_the_ledger
           flat_bar [rising_bar; falling_bar] (params_A FULL_AI)
           self1 l1 [Entry 1; Exit 2] E).
Defined.

